(** * Market-Intelligence-Engine: campaign content pipeline

    A shallow embedding of the parts of the repository that generate,
    parse, localise and score campaign content:

    - [simple_server.py]         (modules [SimpleServer], [ImageService]),
    - [backend/ai_engine.py]     (modules [AIEngine], [ResponseFormat]),
    - [backend/localization.py]  (modules [Localization],
                                  [Recommendations]),
    - [backend/ml_optimizer.py]  (module [Optimizer]),
    - [backend/app.py]           (module [App]),

    and of the package [upgrad_ai_marketing]:

    - [core/config.py]                   (module [Config]),
    - [services/market_intelligence.py]  (module [MarketIntelligence]),
    - [api/routes/health.py]             (module [Health]).

    Python values are embedded as follows.  A [str] is the list of its
    Unicode code points, so that [len] and slicing count what Python
    counts.  A dict is an association list in insertion order, or a record
    when its keys are fixed.  Code that can raise returns a [result];
    [try ... except Exception] is [try_except].  What lies outside the
    repository is a parameter: the text service, the pandas operations on
    the hiring table, the regex class of word characters.

    The definitions come first; the modules whose names end in [Facts]
    hold what is proved about them. *)

From Stdlib Require Import List ZArith NArith QArith Qround Lia Bool String Ascii Arith.
From Stdlib Require Import DecimalString Lqa Sorted.
Import ListNotations.

Set Implicit Arguments.

(* ================================================================== *)
(** * Python values used by the code *)
(* ================================================================== *)

Module Py.

(** A code point. *)
Definition char := N.

(** A Python [str]. *)
Definition str := list char.

(** The [str] of an ASCII literal of the source. *)
Definition py (s : string) : str :=
  map N_of_ascii (list_ascii_of_string s).

Definition char_eqb (a b : char) : bool := N.eqb a b.

Fixpoint str_eqb (a b : str) : bool :=
  match a, b with
  | [], [] => true
  | x :: a', y :: b' => char_eqb x y && str_eqb a' b'
  | _, _ => false
  end.

(** [s[:n]] for [n >= 0]. *)
Definition slice_to (n : nat) (s : str) : str := firstn n s.

(** [str.startswith]. *)
Fixpoint starts_with (p s : str) : bool :=
  match p, s with
  | [], _ => true
  | _ :: _, [] => false
  | x :: p', y :: s' => char_eqb x y && starts_with p' s'
  end.

(** [sub in s]. *)
Fixpoint contains (sub s : str) : bool :=
  starts_with sub s ||
  match s with
  | [] => false
  | _ :: s' => contains sub s'
  end.

(** [s.replace(old, new)] for a one-character [old]: every occurrence is
    replaced. *)
Definition replace_char (old : char) (new : str) (s : str) : str :=
  flat_map (fun c => if char_eqb c old then new else [c]) s.

(** [s.split(sep)] for a one-character [sep]. *)
Fixpoint split_char (sep : char) (s : str) : list str :=
  match s with
  | [] => [[]]
  | c :: s' =>
      if char_eqb c sep then [] :: split_char sep s'
      else match split_char sep s' with
           | [] => [[c]]
           | w :: ws => (c :: w) :: ws
           end
  end.

(** [s.count(c)] for a one-character [c]. *)
Fixpoint count (c : char) (s : str) : nat :=
  match s with
  | [] => O
  | x :: s' => if char_eqb x c then S (count c s') else count c s'
  end.

(** [sep.join(parts)]. *)
Fixpoint join (sep : str) (parts : list str) : str :=
  match parts with
  | [] => []
  | [p] => p
  | p :: ps => p ++ sep ++ join sep ps
  end.

(** Whitespace as [str.isspace], [str.strip] and the regex class [\s]
    see it. *)
Definition is_space (c : char) : bool :=
  ((9 <=? c) && (c <=? 13) || (28 <=? c) && (c <=? 32)
   || (c =? 133) || (c =? 160) || (c =? 5760)
   || (8192 <=? c) && (c <=? 8202)
   || (c =? 8232) || (c =? 8233) || (c =? 8239) || (c =? 8287)
   || (c =? 12288))%N.

Fixpoint lstrip (s : str) : str :=
  match s with
  | [] => []
  | c :: s' => if is_space c then lstrip s' else s
  end.

Definition rstrip (s : str) : str := rev (lstrip (rev s)).

(** [s.strip()]. *)
Definition strip (s : str) : str := rstrip (lstrip s).

(** [s.lower()].  ASCII letters are lowered; of the other code points
    only the two whose lower case contains an ASCII letter are treated
    (U+0130 and the Kelvin sign), so that a test [needle in s.lower()]
    with an ASCII needle is decided as Python decides it. *)
Definition lower_char (c : char) : str :=
  (if (65 <=? c) && (c <=? 90) then [c + 32]
   else if c =? 304 then [105; 775]
   else if c =? 8490 then [107]
   else [c])%N.

Definition lower (s : str) : str := flat_map lower_char s.

(** [str(z)] for an [int]. *)
Definition str_of_Z (z : Z) : str :=
  py (NilZero.string_of_int (Z.to_int z)).

(** ** Exceptions *)

Inductive exn : Type :=
| AttributeError
| TypeError
| ValueError
| ZeroDivisionError
| KeyError
| Exception (msg : str).

Inductive result (A : Type) : Type :=
| Ok (a : A)
| Raise (e : exn).

Arguments Ok {A} a.
Arguments Raise {A} e.

Definition bind {A B} (c : result A) (k : A -> result B) : result B :=
  match c with
  | Ok a => k a
  | Raise e => Raise e
  end.

(** [try: c  except Exception as e: h e]. *)
Definition try_except {A} (c : result A) (h : exn -> result A) : result A :=
  match c with
  | Ok a => Ok a
  | Raise e => h e
  end.

(** [c] raises. *)
Definition raises {A} (c : result A) : Prop := exists e, c = Raise e.

(** ** Dicts with [str] keys *)

Definition dict (V : Type) := list (str * V).

Fixpoint lookup {V} (k : str) (d : dict V) : option V :=
  match d with
  | [] => None
  | (k', v) :: d' => if str_eqb k k' then Some v else lookup k d'
  end.

Definition keys {V} (d : dict V) : list str := map fst d.

End Py.

Import Py.

Declare Scope py_scope.
Delimit Scope py_scope with py.
Notation "x <- c ;; k" := (bind c (fun x => k))
  (at level 61, c at next level, right associativity) : py_scope.
Notation "s +++ t" := (@app char s t)
  (at level 60, right associativity) : py_scope.

Local Open Scope py_scope.
Local Open Scope N_scope.

(* ================================================================== *)
(** * simple_server.py: [RealDataEngine] *)
(* ================================================================== *)

Module SimpleServer.

(** ** Tone of a campaign (generate_content, "Adjust tone based on scale") *)

Definition formal_tone : str * str :=
  (py "professional, formal, and informative", py "low urgency").
Definition urgent_tone : str * str :=
  (py "urgent, compelling, and action-oriented with FOMO elements",
   py "high urgency").
Definition balanced_tone : str * str :=
  (py "engaging, motivational, and persuasive", py "moderate urgency").

(** The pair [(tone_style, urgency_level)]. *)
Definition tone_of (tone_scale : Z) : str * str :=
  if (tone_scale <=? 3)%Z then formal_tone
  else if (tone_scale >=? 8)%Z then urgent_tone
  else balanced_tone.

(** ** _generate_fallback_content *)

Definition hooks (course city : str) (positions : Z) : list str :=
  [ [128640] +++ py " BREAKING: " +++ course +++ py " market explodes in "
      +++ city +++ py "!";
    [128188] +++ py " " +++ city +++ py " professionals: Your " +++ course
      +++ py " moment is NOW!";
    [9889] +++ py " " +++ str_of_Z positions +++ py "+ " +++ course
      +++ py " opportunities just opened in " +++ city;
    [127919] +++ py " " +++ course +++ py " boom hits " +++ city
      +++ py " - Are you ready?";
    [127775] +++ py " " +++ city +++ py "'s " +++ course
      +++ py " revolution starts with YOU!" ].

Definition value_props : list str :=
  [ py "Industry-aligned curriculum designed by experts";
    py "Job placement assistance with 500+ hiring partners";
    py "Learn from industry leaders and practitioners";
    py "Hands-on projects with real-world applications";
    py "Career transformation in just 6-12 months" ].

Definition urgency_elements : list str :=
  [ py "Limited seats available - Apply before they're gone!";
    py "Early bird discount ends soon!";
    py "Next batch starts in 2 weeks - Secure your spot!";
    py "Join 50,000+ successful career changers!";
    py "Don't let this opportunity pass you by!" ].

(** [pool[variant_number % len(pool)]]; Python's [%] with a positive
    modulus is [Z.modulo]. *)
Definition select (pool : list str) (variant_number : Z) : str :=
  nth (Z.to_nat (variant_number mod Z.of_nat (List.length pool))%Z) pool [].

Definition formal_content (course city : str) (positions companies : Z)
    (hook value_prop : str) : str :=
  hook +++ [10; 10] +++ py "Dear Professional," +++ [10; 10]
  +++ py "We're excited to share that " +++ str_of_Z companies
  +++ py " leading companies in " +++ city +++ py " are actively seeking "
  +++ course +++ py " professionals. With " +++ str_of_Z positions
  +++ py "+ positions available, this represents a significant career opportunity."
  +++ [10; 10; 9989] +++ py " " +++ value_prop
  +++ [10; 9989] +++ py " Comprehensive skill development program"
  +++ [10; 9989] +++ py " Industry-recognized certification" +++ [10; 10]
  +++ py "We invite you to explore how upGrad can help you capitalize on this market demand."
  +++ [10; 10] +++ py "Best regards," +++ [10] +++ py "upGrad Team".

Definition urgent_content (course city : str) (positions companies : Z)
    (hook value_prop urgency : str) : str :=
  [128293] +++ py " " +++ hook +++ [10; 10; 9200] +++ py " URGENT ALERT: "
  +++ str_of_Z positions +++ py "+ " +++ course +++ py " jobs in " +++ city
  +++ py " are being SNATCHED UP FAST!" +++ [10; 10] +++ str_of_Z companies
  +++ py " TOP COMPANIES are hiring RIGHT NOW:" +++ [10; 8226]
  +++ py " Google " +++ [8226] +++ py " Microsoft " +++ [8226]
  +++ py " Amazon " +++ [8226] +++ py " Flipkart " +++ [8226]
  +++ py " And more!" +++ [10; 10; 128176] +++ py " Salaries up to "
  +++ [8377] +++ py "25 LPA!" +++ [10; 128640] +++ py " " +++ value_prop
  +++ [10; 9889] +++ py " " +++ urgency +++ [10; 10; 10060]
  +++ py " DON'T MISS OUT - These opportunities won't wait!"
  +++ [10; 10; 128073] +++ py " APPLY NOW: [Link]" +++ [10; 10]
  +++ py "#UrgentHiring #" +++ city +++ py "Jobs #"
  +++ replace_char 32 [] course +++ py "Careers".

Definition balanced_content (course city : str) (positions companies : Z)
    (hook value_prop urgency : str) : str :=
  hook +++ [10; 10] +++ py "Hey " +++ city +++ py " professionals! "
  +++ [128075; 10; 10] +++ py "The " +++ course
  +++ py " job market is absolutely booming right now! Here's what's happening:"
  +++ [10; 10; 128202] +++ py " Market Snapshot:" +++ [10; 8226] +++ py " "
  +++ str_of_Z positions +++ py "+ open positions" +++ [10; 8226] +++ py " "
  +++ str_of_Z companies +++ py " companies actively hiring" +++ [10; 8226]
  +++ py " Average salary growth: 40-60%" +++ [10; 8226]
  +++ py " High demand, low supply = YOUR opportunity!" +++ [10; 10; 127891]
  +++ py " Why upGrad?" +++ [10; 9989] +++ py " " +++ value_prop
  +++ [10; 9989] +++ py " Live classes with industry experts"
  +++ [10; 9989] +++ py " 1:1 mentorship and career guidance"
  +++ [10; 9989] +++ py " Job guarantee program*" +++ [10; 10; 127919]
  +++ py " " +++ urgency +++ [10; 10]
  +++ py "Ready to transform your career? Let's make it happen!"
  +++ [10; 10] +++ py "Apply now: [Link]".

Definition _generate_fallback_content (course city : str)
    (positions companies tone_scale variant_number : Z)
    (campaign_type : str) : str :=
  let hook := select (hooks course city positions) variant_number in
  let value_prop := select value_props variant_number in
  let urgency := select urgency_elements variant_number in
  if (tone_scale <=? 3)%Z then
    formal_content course city positions companies hook value_prop
  else if (tone_scale >=? 8)%Z then
    urgent_content course city positions companies hook value_prop urgency
  else
    balanced_content course city positions companies hook value_prop urgency.

(** ** _get_regional_language_elements *)

Record city_info := {
  greeting : str;
  phrases : list str;
  closing : str;
  cultural : str }.

Definition regional_map : dict city_info :=
  [
   (py "Bangalore",
    {| greeting := py "Namaskara";
       phrases := [([3221; 3270; 3250; 3256] +++ py " (kelasa - work)")%py;
                   ([3245; 3253; 3263; 3255; 3277; 3247] +++ py " (bhavishya - future)")%py;
                   ([3247; 3254; 3256; 3277; 3256; 3265] +++ py " (yashassu - success)")%py];
       closing := py "Dhanyawadagalu";
       cultural := py "Silicon Valley of India, Tech hub, IT capital" |});
   (py "Mumbai",
    {| greeting := py "Namaste";
       phrases := [([2325; 2366; 2350] +++ py " (kaam - work)")%py;
                   ([2360; 2347; 2354; 2340; 2366] +++ py " (safalta - success)")%py;
                   ([2349; 2357; 2367; 2359; 2381; 2351] +++ py " (bhavishya - future)")%py];
       closing := py "Dhanyawad";
       cultural := py "Financial capital, Bollywood, Dreams city" |});
   (py "Delhi NCR",
    {| greeting := py "Namaste";
       phrases := [([2344; 2380; 2325; 2352; 2368] +++ py " (naukri - job)")%py;
                   ([2325; 2376; 2352; 2367; 2351; 2352] +++ py " (career)")%py;
                   ([2340; 2352; 2325; 2381; 2325; 2368] +++ py " (tarakki - progress)")%py];
       closing := py "Dhanyawad";
       cultural := py "Capital region, Government hub, Corporate center" |});
   (py "Hyderabad",
    {| greeting := py "Namaste";
       phrases := [([3114; 3112; 3135] +++ py " (pani - work)")%py;
                   ([3117; 3125; 3135; 3127; 3149; 3119; 3108; 3149; 3108; 3137] +++ py " (bhavishyattu - future)")%py;
                   ([3125; 3135; 3100; 3119; 3074] +++ py " (vijayam - success)")%py];
       closing := py "Dhanyawadamulu";
       cultural := py "Cyberabad, HITEC City, Pharma hub" |});
   (py "Chennai",
    {| greeting := py "Vanakkam";
       phrases := [([2997; 3015; 2994; 3016] +++ py " (velai - work)")%py;
                   ([2958; 2980; 3007; 2992; 3021; 2965; 3006; 2994; 2990; 3021] +++ py " (ethirkaalam - future)")%py;
                   ([2997; 3014; 2993; 3021; 2993; 3007] +++ py " (vetri - success)")%py];
       closing := py "Nandri";
       cultural := py "Detroit of India, IT corridor, Cultural capital" |});
   (py "Pune",
    {| greeting := py "Namaskar";
       phrases := [([2325; 2366; 2350] +++ py " (kaam - work)")%py;
                   ([2351; 2358] +++ py " (yash - success)")%py;
                   ([2346; 2381; 2352; 2327; 2340; 2368] +++ py " (pragati - progress)")%py];
       closing := py "Dhanyawad";
       cultural := py "Oxford of the East, IT hub, Cultural center" |});
   (py "Kolkata",
    {| greeting := py "Namaskar";
       phrases := [([2453; 2494; 2460] +++ py " (kaaj - work)")%py;
                   ([2477; 2476; 2495; 2487; 2509; 2479; 2510] +++ py " (bhobishyot - future)")%py;
                   ([2488; 2494; 2475; 2482; 2509; 2479] +++ py " (shafolyo - success)")%py];
       closing := py "Dhonnobad";
       cultural := py "Cultural capital, City of Joy, Educational hub" |})
  ].

Definition mumbai_info : city_info :=
  match lookup (py "Mumbai") regional_map with
  | Some i => i
  | None => {| greeting := []; phrases := []; closing := []; cultural := [] |}
  end.

Definition _get_regional_language_elements (city language : str) : str :=
  let city_info :=
    match lookup city regional_map with
    | Some i => i
    | None => mumbai_info
    end in
  if contains (py "English") language
     && existsb (fun lang => contains lang language)
          [py "Kannada"; py "Hindi"; py "Telugu"; py "Tamil"; py "Marathi";
           py "Bengali"]
  then
    greeting city_info +++ py " greeting, incorporate phrases like "
    +++ join (py ", ") (firstn 2 (phrases city_info)) +++ py ", mention "
    +++ cultural city_info +++ py ", use " +++ closing city_info
    +++ py " for closing"
  else
    py "Mention " +++ cultural city_info
    +++ py ", use professional English tone".

(** ** get_city_insights *)

(** The dict the method returns; [avg_salary] is either a literal of the
    source or a value read from the table. *)
Inductive salary (cell : Type) : Type :=
| SalaryText (s : str)
| SalaryCell (c : cell).
Arguments SalaryText {cell} s.
Arguments SalaryCell {cell} c.

Record insights (cell : Type) := {
  positions_available : Z;
  companies_hiring : Z;
  avg_salary : salary cell;
  top_skills : list str;
  growth_rate : str }.

(** The pandas operations the method applies to the hiring table.  Each
    one that can raise returns a [result]. *)
Record Pandas (frame cell : Type) := {
  columns : frame -> list str;
  (** [df[df[c] != c]] *)
  where_ne : frame -> str -> result frame;
  (** [df[df[c].notna()]] *)
  where_notna : frame -> str -> result frame;
  (** [df[df[c].str.len() > 2]] *)
  where_len_gt2 : frame -> str -> result frame;
  (** [df[df[c].str.contains(city, case=False, na=False)]] *)
  where_contains : frame -> str -> str -> result frame;
  (** [len(df)] *)
  n_rows : frame -> Z;
  (** [int(df[c].sum())] *)
  sum_int : frame -> str -> result Z;
  (** [df[c].mode()] *)
  mode : frame -> str -> result (list cell) }.

Definition default_salary : str := [8377] +++ py "12-18 LPA".
Definition default_skills : list str :=
  [py "Python"; py "Machine Learning"; py "Data Analysis"].
Definition default_growth : str := py "+15% YoY".

(** "Fallback with realistic numbers based on city": (positions, companies). *)
Definition city_multipliers : dict (Z * Z) :=
  [ (py "Bangalore", (2500, 85)%Z);
    (py "Mumbai", (1800, 62)%Z);
    (py "Delhi NCR", (2200, 78)%Z);
    (py "Hyderabad", (1600, 55)%Z);
    (py "Chennai", (1400, 48)%Z);
    (py "Pune", (1200, 42)%Z);
    (py "Ahmedabad", (800, 28)%Z);
    (py "Kolkata", (900, 32)%Z) ].

Definition fallback_insights (cell : Type) (city : str) : insights cell :=
  let city_info :=
    match lookup city city_multipliers with
    | Some i => i
    | None => (1000, 35)%Z
    end in
  {| positions_available := fst city_info;
     companies_hiring := snd city_info;
     avg_salary := SalaryText default_salary;
     top_skills := default_skills;
     growth_rate := default_growth |}.

Section DataStore.

Variables frame cell : Type.
Variable pd : Pandas frame cell.

(** First column whose lower-cased name satisfies [p]. *)
Definition find_column (p : str -> bool) (df : frame) : option str :=
  find (fun col => p (lower col)) (columns pd df).

Definition get_top_skills_for_city (city_data : frame) : list str :=
  if existsb (str_eqb (py "Skills_Required")) (columns pd city_data)
  then default_skills
  else default_skills.

(** The rows of the table that belong to [city]: the cleaning steps and
    the filter on the city column. *)
Definition matching_rows (hiring_data : frame) (city : str) : result frame :=
  let clean_data := hiring_data in
  match find_column (str_eqb (py "city")) clean_data with
  | None => Raise (Exception (py "No city column found in data"))
  | Some city_col =>
      clean_data <- where_ne pd clean_data city_col ;;
      clean_data <- where_notna pd clean_data city_col ;;
      clean_data <- where_len_gt2 pd clean_data city_col ;;
      where_contains pd clean_data city_col city
  end.

(** The body of the [try] block: [Some] is the dict returned from inside
    it, [None] means that no row matched and control leaves the block. *)
Definition insights_from_data (hiring_data : frame) (city : str)
  : result (option (insights cell)) :=
  city_data <- matching_rows hiring_data city ;;
  if (n_rows pd city_data >? 0)%Z then
    positions <-
      match find_column (contains (py "position")) city_data with
      | Some positions_col => sum_int pd city_data positions_col
      | None => Ok (n_rows pd city_data * 50)%Z
      end ;;
    let companies := n_rows pd city_data in
    avg_salary <-
      match find_column (contains (py "salary")) city_data with
      | Some salary_col =>
          salary_mode <- mode pd city_data salary_col ;;
          Ok match salary_mode with
             | c :: _ => SalaryCell c
             | [] => SalaryText default_salary
             end
      | None => Ok (SalaryText default_salary)
      end ;;
    Ok (Some {| positions_available := positions;
                companies_hiring := companies;
                avg_salary := avg_salary;
                top_skills := get_top_skills_for_city city_data;
                growth_rate := default_growth |})
  else Ok None.

(** [hiring_data] is [None] when no table was loaded. *)
Definition get_city_insights (hiring_data : option frame) (city : str)
  : result (insights cell) :=
  found <-
    match hiring_data with
    | Some df =>
        try_except (insights_from_data df city) (fun e => Ok None)
    | None => Ok None
    end ;;
  match found with
  | Some d => Ok d
  | None => Ok (fallback_insights cell city)
  end.


End DataStore.

(** ** generate_content *)

(** The keyword arguments; a field is [None] when the caller leaves the
    keyword out. *)
Record kwargs := {
  kw_tone_scale : option Z;
  kw_language : option str;
  kw_variant_number : option Z;
  kw_email_type : option str;
  kw_subject_style : option str;
  kw_platform : option str;
  kw_format : option str;
  kw_sms_type : option str;
  kw_max_length : option Z }.

(** [kwargs.get(key, default)]. *)
Definition kw_get {A} (v : option A) (default : A) : A :=
  match v with
  | Some a => a
  | None => default
  end.

(** The prompt sent to the text service.  Its wording is fixed per
    campaign type; a prompt is given by the values interpolated into it. *)
Inductive prompt (cell : Type) : Type :=
| EmailPrompt (course city : str) (positions companies : Z)
    (avg_salary : salary cell)
    (email_type subject_style tone_style language regional_elements : str)
    (variant_number : Z)
| SocialPrompt (platform format_type course city : str)
    (positions companies : Z) (avg_salary : salary cell) (char_limit : Z)
    (tone_style regional_elements : str) (variant_number : Z)
| SmsPrompt (course city : str) (positions companies : Z)
    (avg_salary : salary cell) (sms_type : str) (max_length : Z)
    (tone_style regional_elements : str) (variant_number : Z)
| DefaultPrompt (course city : str) (positions companies : Z)
    (avg_salary : salary cell)
    (tone_style urgency_level language regional_elements : str)
    (variant_number : Z) (campaign_type : str).

Definition char_limits : dict Z :=
  [ (py "linkedin", 3000%Z); (py "instagram", 2200%Z);
    (py "facebook", 63206%Z); (py "twitter", 280%Z) ].

Section Engine.

Variables frame cell : Type.
Variable pd : Pandas frame cell.

(** The state of a [RealDataEngine]. *)
Record engine := {
  gemini_api_key : option str;
  hiring_data : option frame }.

(** [if self.gemini_api_key:] *)
Definition has_key (self : engine) : bool :=
  match gemini_api_key self with
  | Some (_ :: _) => true
  | _ => false
  end.

(** The external text service: importing the client, configuring it,
    building the model, [generate_content(prompt)] and reading
    [response.text].  Any of these steps may raise. *)
Variable generate_text : prompt cell -> result str.

(** The second request, made with the Hindi prompt built from the first
    200 characters of the generated content. *)
Variable generate_hindi : str -> result str.

Definition make_prompt (course city campaign_type : str)
    (positions companies : Z) (avg_salary : salary cell) (kw : kwargs)
  : prompt cell :=
  let tone_scale := kw_get (kw_tone_scale kw) 5%Z in
  let language := kw_get (kw_language kw) (py "English") in
  let variant_number := kw_get (kw_variant_number kw) 1%Z in
  let '(tone_style, urgency_level) := tone_of tone_scale in
  let email_type := kw_get (kw_email_type kw) (py "promotional") in
  let subject_style := kw_get (kw_subject_style kw) (py "benefit") in
  let platform := kw_get (kw_platform kw) (py "linkedin") in
  let format_type := kw_get (kw_format kw) (py "post") in
  let sms_type := kw_get (kw_sms_type kw) (py "promotional") in
  let max_length := kw_get (kw_max_length kw) 160%Z in
  let regional_elements := _get_regional_language_elements city language in
  if str_eqb campaign_type (py "email") then
    EmailPrompt course city positions companies avg_salary email_type
      subject_style tone_style language regional_elements variant_number
  else if str_eqb campaign_type (py "social") then
    let char_limit :=
      match lookup platform char_limits with
      | Some l => l
      | None => 1000%Z
      end in
    SocialPrompt platform format_type course city positions companies
      avg_salary char_limit tone_style regional_elements variant_number
  else if str_eqb campaign_type (py "sms") then
    SmsPrompt course city positions companies avg_salary sms_type
      max_length tone_style regional_elements variant_number
  else
    DefaultPrompt course city positions companies avg_salary tone_style
      urgency_level language regional_elements variant_number campaign_type.

Definition generate_content (self : engine)
    (course city campaign_type : str) (kw : kwargs) : result str :=
  market_insights <- get_city_insights pd (hiring_data self) city ;;
  let positions := positions_available market_insights in
  let companies := companies_hiring market_insights in
  let avg_salary := SimpleServer.avg_salary market_insights in
  let tone_scale := kw_get (kw_tone_scale kw) 5%Z in
  let language := kw_get (kw_language kw) (py "English") in
  let variant_number := kw_get (kw_variant_number kw) 1%Z in
  let prompt :=
    make_prompt course city campaign_type positions companies avg_salary kw in
  try_except
    (if has_key self then
       ai_content <- generate_text prompt ;;
       if str_eqb language (py "Hindi") || str_eqb language (py "Multi") then
         hindi_text <- generate_hindi (slice_to 200 ai_content) ;;
         Ok (ai_content +++ [10; 10; 127470; 127475] +++ py " "
             +++ slice_to 100 hindi_text +++ py "...")
       else Ok ai_content
     else
       Ok (_generate_fallback_content course city positions companies
             tone_scale variant_number campaign_type))
    (fun e =>
       Ok (_generate_fallback_content course city positions companies
             tone_scale variant_number campaign_type)).

(** ** generate_campaign: the content variants of one request *)

(** The fields of a [CampaignRequest] the variant loop reads. *)
Record request := {
  req_course : str;
  req_campaign_type : str;
  req_variants : option Z;
  req_tone_scale : Z;
  req_language : str;
  req_email_type : str;
  req_subject_style : str;
  req_platform : str;
  req_format : str;
  req_sms_type : str;
  req_max_length : Z }.

(** Runs the calls of the loop in order; the first one that raises ends
    it. *)
Fixpoint collect {A} (calls : list (result A)) : result (list A) :=
  match calls with
  | [] => Ok []
  | c :: calls' =>
      a <- c ;;
      rest <- collect calls' ;;
      Ok (a :: rest)
  end.

(** [range(n)]. *)
Definition range (n : Z) : list Z := map Z.of_nat (seq 0 (Z.to_nat n)).

(** "Generate multiple content variants if requested": the list
    [variants] the handler builds for [primary_city]. *)
Definition campaign_variants (self : engine) (r : request)
    (primary_city : str) : result (list str) :=
  let legacy :=
    {| kw_tone_scale := None; kw_language := None;
       kw_variant_number := None;
       kw_email_type := Some (req_email_type r);
       kw_subject_style := Some (req_subject_style r);
       kw_platform := Some (req_platform r);
       kw_format := Some (req_format r);
       kw_sms_type := Some (req_sms_type r);
       kw_max_length := Some (req_max_length r) |} in
  match req_variants r with
  | Some n =>
      if (n =? 0)%Z then
        content <- generate_content self (req_course r) primary_city
                     (req_campaign_type r) legacy ;;
        Ok [content]
      else
        let num_variants := Z.min n 10 in
        collect
          (map (fun i =>
                  generate_content self (req_course r) primary_city
                    (req_campaign_type r)
                    {| kw_tone_scale := Some (req_tone_scale r);
                       kw_language := Some (req_language r);
                       kw_variant_number := Some (i + 1)%Z;
                       kw_email_type := Some (req_email_type r);
                       kw_subject_style := Some (req_subject_style r);
                       kw_platform := Some (req_platform r);
                       kw_format := Some (req_format r);
                       kw_sms_type := Some (req_sms_type r);
                       kw_max_length := Some (req_max_length r) |})
               (range num_variants))
  | None =>
      content <- generate_content self (req_course r) primary_city
                   (req_campaign_type r) legacy ;;
      Ok [content]
  end.

End Engine.

End SimpleServer.

(* ================================================================== *)
(** * Data shared by the content generator and the localizer *)
(* ================================================================== *)

Module Data.

(** A value of a city context: a [str] or a list of [str]. *)
Inductive field : Type :=
| FStr (s : str)
| FList (l : list str).

(** One entry of [city_contexts]. *)
Definition context := dict field.

(** The dict [_predict_performance] returns. *)
Record prediction := {
  ctr : str;
  conversion_rate : str;
  roas : str;
  cost_per_conversion : str }.

(** The campaign content dict.  The first five keys are always there; the
    other three are [None] until the code stores them. *)
Record content := {
  email_subject : str;
  email_body : str;
  social_post : str;
  call_to_action : str;
  key_benefits : list str;
  predictions : option prediction;
  regional_version : option str;
  local_context : option context }.

End Data.

Import Data.

(* ================================================================== *)
(** * backend/ai_engine.py: [AIContentGenerator] *)
(* ================================================================== *)

Module AIEngine.

(** ** The market context *)

(** A value stored in [city_data] or [course_relevance], seen through
    what the code does with it: formatting it in an f-string, dividing it
    by 20, testing its truth.  A float is the number it denotes (nan and
    the infinities are left out) together with the text [str()] gives;
    [PObj] is any other object (a list, a nested dict, ...), which is no
    number, with its truth value and its text. *)
Inductive pyval : Type :=
| PNone
| PBool (b : bool)
| PInt (z : Z)
| PFloat (q : Q) (text : str)
| PStr (s : str)
| PObj (truthy : bool) (text : str).

(** A value of the [market_context] dict. *)
Inductive entry : Type :=
| EDict (d : dict pyval)
| EList (l : list str)
| EVal (v : pyval).

Definition market_context := dict entry.

(** [str(v)], as an f-string shows [v]. *)
Definition str_of (v : pyval) : str :=
  match v with
  | PNone => py "None"
  | PBool true => py "True"
  | PBool false => py "False"
  | PInt z => str_of_Z z
  | PFloat _ text => text
  | PStr s => s
  | PObj _ text => text
  end.

(** [market_context.get(key, default)]. *)
Definition ctx_get (market_context : market_context) (key : str)
    (default : entry) : entry :=
  match lookup key market_context with
  | Some e => e
  | None => default
  end.

(** [e.get(key, default)]: only a dict has the method. *)
Definition get (e : entry) (key : str) (default : pyval) : result pyval :=
  match e with
  | EDict d =>
      Ok match lookup key d with
         | Some v => v
         | None => default
         end
  | EList _ | EVal _ => Raise AttributeError
  end.

(** ** _create_content_prompt *)

(** The prompt is a fixed text around these interpolated values. *)
Record prompt := {
  p_course : str;
  p_city : str;
  p_market_summary : entry;
  p_total_positions : pyval;
  p_companies_hiring : pyval;
  p_market_score : pyval;
  p_growth_potential : pyval;
  p_campaign_hooks : str;
  p_date : str;
  p_campaign_type : str }.

(** [', '.join(campaign_hooks) if campaign_hooks else 'Focus on career
    advancement']. *)
Definition hooks_text (campaign_hooks : entry) : result str :=
  let default := py "Focus on career advancement" in
  let sep := py ", " in
  match campaign_hooks with
  | EList [] => Ok default
  | EList l => Ok (join sep l)
  | EDict [] => Ok default
  | EDict d => Ok (join sep (keys d))
  | EVal PNone => Ok default
  | EVal (PBool b) => if b then Raise TypeError else Ok default
  | EVal (PInt z) => if (z =? 0)%Z then Ok default else Raise TypeError
  | EVal (PFloat q _) => if Qeq_bool q 0 then Ok default else Raise TypeError
  | EVal (PStr []) => Ok default
  | EVal (PStr s) => Ok (join sep (map (fun c => [c]) s))
  | EVal (PObj truthy _) => if truthy then Raise TypeError else Ok default
  end.

(** [now] is [datetime.now().strftime('%B %Y')]. *)
Definition _create_content_prompt (now : str)
    (course city campaign_type : str) (market_context : market_context)
  : result prompt :=
  let city_data := ctx_get market_context (py "city_data") (EDict []) in
  let course_relevance :=
    ctx_get market_context (py "course_relevance") (EDict []) in
  let market_summary :=
    ctx_get market_context (py "market_summary") (EVal (PStr [])) in
  let campaign_hooks :=
    ctx_get market_context (py "campaign_hooks") (EList []) in
  total_positions <- get city_data (py "total_positions") (PStr (py "N/A")) ;;
  companies_hiring <- get city_data (py "companies_hiring") (PStr (py "N/A")) ;;
  market_score <- get course_relevance (py "market_score") (PStr (py "N/A")) ;;
  growth_potential <-
    get course_relevance (py "growth_potential") (PStr (py "Medium")) ;;
  hooks <- hooks_text campaign_hooks ;;
  Ok {| p_course := course;
        p_city := city;
        p_market_summary := market_summary;
        p_total_positions := total_positions;
        p_companies_hiring := companies_hiring;
        p_market_score := market_score;
        p_growth_potential := growth_potential;
        p_campaign_hooks := hooks;
        p_date := now;
        p_campaign_type := campaign_type |}.

(** ** _generate_fallback_content *)

(** The four texts of one template. *)
Record template := {
  subject : str;
  body : str;
  social : str;
  cta : str }.

Definition templates (course city positions companies : str)
  : dict template :=
  [ (py "AI/ML",
     {| subject := city +++ py "'s AI Boom: " +++ positions
          +++ py "+ Jobs - Upskill Now!";
        body := py "Hey [Name], " +++ city
          +++ py " is experiencing unprecedented AI/ML growth with "
          +++ positions +++ py "+ positions across " +++ companies
          +++ py "+ companies. Join upGrad's comprehensive " +++ course
          +++ py " program and ride the wave of AI transformation. Industry experts, hands-on projects, and guaranteed career support. Limited seats - enroll today!";
        social := [240; 376; 353; 8364] +++ py " " +++ city
          +++ py " AI revolution is HERE! " +++ positions +++ py "+ jobs, "
          +++ companies
          +++ py "+ companies hiring. Ready to level up? #upGrad #AIJobs #"
          +++ replace_char 32 [] city +++ py "Tech";
        cta := py "Enroll in AI/ML Program - Limited Seats!" |});
    (py "Data Science",
     {| subject := city +++ py " Data Gold Rush: " +++ positions
          +++ py "+ Opportunities!";
        body := py "[Name], " +++ city
          +++ py "'s data landscape is exploding with " +++ positions
          +++ py "+ opportunities across " +++ companies
          +++ py "+ companies! Master Data Science with upGrad's industry-aligned program. Real projects, expert mentorship, and career transformation guaranteed. Your data-driven future starts now!";
        social := [240; 376; 8220; 352] +++ py " " +++ city
          +++ py " needs data wizards! " +++ positions +++ py "+ positions, "
          +++ companies
          +++ py "+ companies. Become the data hero! #DataScience #upGrad #"
          +++ replace_char 32 [] city;
        cta := py "Start Your Data Science Journey Today!" |});
    (py "Generative AI",
     {| subject := city +++ py " GenAI Boom: Create Your Future Today!";
        body := py "Ready to shape the future, [Name]? " +++ city
          +++ py "'s GenAI sector is booming with " +++ positions
          +++ py "+ opportunities! Master Generative AI with upGrad and unlock unlimited potential. From ChatGPT to image generation - learn it all. Transform your career in the AI revolution!";
        social := [226; 339; 168] +++ py " GenAI is transforming " +++ city
          +++ py "! Create, innovate, earn big. Join the revolution! #GenerativeAI #upGrad #"
          +++ replace_char 32 [] city;
        cta := py "Master Generative AI - Enroll Now!" |}) ].

Definition _generate_fallback_content (course city campaign_type : str)
    (market_context : market_context) : result content :=
  let city_data := ctx_get market_context (py "city_data") (EDict []) in
  positions <- get city_data (py "total_positions") (PInt 1000) ;;
  companies <- get city_data (py "companies_hiring") (PInt 50) ;;
  let templates :=
    templates course city (str_of positions) (str_of companies) in
  let template :=
    match lookup course templates with
    | Some t => Ok t
    | None =>
        match lookup (py "AI/ML") templates with
        | Some t => Ok t
        | None => Raise KeyError
        end
    end in
  template <- template ;;
  Ok {| email_subject := subject template;
        email_body := body template;
        social_post := social template;
        call_to_action := cta template;
        key_benefits :=
          [ py "Access to " +++ str_of positions +++ py "+ job opportunities";
            py "Industry-expert led curriculum";
            py "Guaranteed career support" ];
        predictions := None;
        regional_version := None;
        local_context := None |}.

(** ** The regular expressions of _parse_ai_response

    The five patterns have the shape [LABEL:\s*(group)] under
    [re.IGNORECASE].  They are matched as [re.search] matches them: the
    leftmost start wins, [\s*] is greedy and gives characters back when
    the rest fails, [.+] is greedy, [.+?] is lazy, and [.] stops at a
    newline unless [re.DOTALL] is set. *)

(** A character of the text against a lower-case letter or a colon of the
    pattern, ignoring case: beside the two ASCII cases, [i] also matches
    U+0130 and U+0131, and [s] matches U+017F. *)
Definition ci_eqb (p c : char) : bool :=
  (c =? p)
  || ((97 <=? p) && (p <=? 122) && (c + 32 =? p))
  || ((p =? 105) && ((c =? 304) || (c =? 305)))
  || ((p =? 115) && (c =? 383)).

(** The text left after [label], if the text starts with it. *)
Fixpoint match_label (label s : str) : option str :=
  match label, s with
  | [], _ => Some s
  | _ :: _, [] => None
  | p :: label', c :: s' =>
      if ci_eqb p c then match_label label' s' else None
  end.

Definition at_label (label s : str) : bool :=
  match match_label label s with
  | Some _ => true
  | None => false
  end.

(** [$] without [re.MULTILINE]: the end of the text, or just before a
    newline that ends it. *)
Definition at_end (s : str) : bool :=
  match s with
  | [] => true
  | [c] => c =? 10
  | _ => false
  end.

(** [\s*] followed by [rest]. *)
Fixpoint spaces_then {A} (rest : str -> option A) (s : str) : option A :=
  match s with
  | c :: s' =>
      if is_space c then
        match spaces_then rest s' with
        | Some r => Some r
        | None => rest s
        end
      else rest s
  | [] => rest s
  end.

(** [(.+)] at the end of a pattern: the rest of the line, which must not
    be empty. *)
Fixpoint line_of (s : str) : str :=
  match s with
  | [] => []
  | c :: s' => if c =? 10 then [] else c :: line_of s'
  end.

Definition greedy_group (s : str) : option str :=
  match line_of s with
  | [] => None
  | g => Some g
  end.

(** [(.+?)(?=...)]: the shortest non-empty run after which [ahead]
    holds. *)
Fixpoint lazy_group (dotall : bool) (ahead : str -> bool) (s : str)
  : option str :=
  match s with
  | [] => None
  | c :: s' =>
      if dotall || negb (c =? 10) then
        if ahead s' then Some [c]
        else match lazy_group dotall ahead s' with
             | Some g => Some (c :: g)
             | None => None
             end
      else None
  end.

(** [re.search]: the first position of [s] at which [m] matches. *)
Fixpoint search {A} (m : str -> option A) (s : str) : option A :=
  match m s with
  | Some r => Some r
  | None =>
      match s with
      | [] => None
      | _ :: s' => search m s'
      end
  end.

(** [LABEL:\s*(group)] tried at the start of [s]. *)
Definition labelled (label : str) (group : str -> option str) (s : str)
  : option str :=
  match match_label label s with
  | Some s' => spaces_then group s'
  | None => None
  end.

(** [group(1)] of each of the five searches. *)
Definition subject_match (ai_response : str) : option str :=
  search (labelled (py "subject:") greedy_group) ai_response.

Definition body_match (ai_response : str) : option str :=
  search (labelled (py "body:")
            (lazy_group true
               (fun s => at_label (py "social:") s || at_end s)))
         ai_response.

Definition social_match (ai_response : str) : option str :=
  search (labelled (py "social:")
            (lazy_group false
               (fun s => at_label (py "cta:") s || at_end s)))
         ai_response.

Definition cta_match (ai_response : str) : option str :=
  search (labelled (py "cta:")
            (lazy_group false
               (fun s => at_label (py "benefits:") s || at_end s)))
         ai_response.

Definition benefits_match (ai_response : str) : option str :=
  search (labelled (py "benefits:") greedy_group) ai_response.

(** ** _parse_ai_response *)

(** What [generate_campaign_content] hands to the parser: the text of the
    service, or the dict [_generate_fallback_content] returned. *)
Inductive response : Type :=
| Text (s : str)
| Structured (c : content).

(** The argument of [re.search] must be a [str]. *)
Definition as_text (ai_response : response) : result str :=
  match ai_response with
  | Text s => Ok s
  | Structured _ => Raise TypeError
  end.

(** The list [benefits] before it is cut to three. *)
Definition parse_benefits (ai_response : str) : list str :=
  match benefits_match ai_response with
  | Some g =>
      let benefits_text := strip g in
      map strip (split_char 124 benefits_text)
  | None =>
      [py "Career advancement"; py "Salary increase";
       py "Industry recognition"]
  end.

Definition _parse_ai_response (ai_response : response) (course city : str)
  : result content :=
  try_except
    (text <- as_text ai_response ;;
     let email_subject :=
       match subject_match text with
       | Some g => strip g
       | None =>
           city +++ py " " +++ course
           +++ py " Opportunity - Transform Your Career!"
       end in
     let email_body :=
       match body_match text with
       | Some g => strip g
       | None =>
           py "Exciting " +++ course +++ py " opportunities in " +++ city
           +++ py ". Join upGrad today!"
       end in
     let social_post :=
       match social_match text with
       | Some g => strip g
       | None =>
           [240; 376; 353; 8364] +++ py " " +++ course
           +++ py " opportunities in " +++ city +++ py "! #upGrad"
       end in
     let call_to_action :=
       match cta_match text with
       | Some g => strip g
       | None => py "Enroll Now - Limited Seats!"
       end in
     let benefits := parse_benefits text in
     Ok {| email_subject := slice_to 60 email_subject;
           email_body := email_body;
           social_post := slice_to 280 social_post;
           call_to_action := call_to_action;
           key_benefits := firstn 3 benefits;
           predictions := None;
           regional_version := None;
           local_context := None |})
    (fun e => _generate_fallback_content course city (py "Email") []).

(** ** _predict_performance

    Python floats are taken as the rational numbers they denote: the
    arithmetic below is exact. *)

(** The number a value stands for in [market_score / 20]. *)
Definition to_number (v : pyval) : result Q :=
  match v with
  | PBool b => Ok (if b then 1 else 0)%Q
  | PInt z => Ok (inject_Z z)
  | PFloat q _ => Ok q
  | PNone | PStr _ | PObj _ _ => Raise TypeError
  end.

(** One row of [course_multipliers]. *)
Record multiplier := {
  m_ctr : Q;
  m_conversion : Q;
  m_roas : Q;
  m_cost : Q }.

Definition course_multipliers : dict multiplier :=
  [ (py "AI/ML",
     {| m_ctr := 14 # 10; m_conversion := 13 # 10; m_roas := 13 # 10;
        m_cost := 8 # 10 |});
    (py "Generative AI",
     {| m_ctr := 12 # 10; m_conversion := 11 # 10; m_roas := 11 # 10;
        m_cost := 9 # 10 |});
    (py "Data Science",
     {| m_ctr := 11 # 10; m_conversion := 1; m_roas := 1; m_cost := 1 |});
    (py "MSc Finance",
     {| m_ctr := 9 # 10; m_conversion := 9 # 10; m_roas := 9 # 10;
        m_cost := 11 # 10 |}) ].

Definition base_ctr : Q := 12 # 100.
Definition base_conversion : Q := 5 # 100.
Definition base_roas : Q := 32 # 10.
Definition base_cost : Q := 300.

(** [course_multipliers.get(course, course_multipliers['Data Science'])]. *)
Definition multiplier_of (course : str) : multiplier :=
  match lookup course course_multipliers with
  | Some m => m
  | None =>
      {| m_ctr := 11 # 10; m_conversion := 1; m_roas := 1; m_cost := 1 |}
  end.

(** The four numbers before they are formatted. *)
Record metrics := {
  final_ctr : Q;
  final_conversion : Q;
  final_roas : Q;
  final_cost : Q }.

Definition market_boost (market_score : Q) : Q := 1 + market_score / 20.

Definition final_metrics (course : str) (market_score : Q) : result metrics :=
  let multiplier := multiplier_of course in
  let market_boost := market_boost market_score in
  if Qeq_bool market_boost 0 then Raise ZeroDivisionError
  else
    Ok {| final_ctr := base_ctr * m_ctr multiplier * market_boost;
          final_conversion :=
            base_conversion * m_conversion multiplier * market_boost;
          final_roas := base_roas * m_roas multiplier * market_boost;
          final_cost := base_cost * m_cost multiplier / market_boost |}.

(** Rounding to the nearest integer, ties to the even one. *)
Definition round_half_even (q : Q) : Z :=
  let f := Qfloor q in
  match (q - inject_Z f ?= 1 # 2)%Q with
  | Lt => f
  | Gt => (f + 1)%Z
  | Eq => if Z.even f then f else (f + 1)%Z
  end.

(** The number of tenths the format [.1f] shows. *)
Definition tenths (q : Q) : Z := round_half_even (q * 10).

(** [f"{q:.1f}"]. *)
Definition format_1f (q : Q) : str :=
  let t := Z.abs (tenths q) in
  (match (q ?= 0)%Q with Lt => py "-" | _ => [] end)
  +++ str_of_Z (t / 10) +++ py "." +++ str_of_Z (t mod 10).

(** [int(q)]: the fraction is dropped. *)
Definition int_of (q : Q) : Z := Z.quot (Qnum q) (Zpos (Qden q)).

Definition format_metrics (m : metrics) : prediction :=
  {| ctr := format_1f (final_ctr m * 100) +++ py "%";
     conversion_rate := format_1f (final_conversion m * 100) +++ py "%";
     roas := format_1f (final_roas m) +++ py "x";
     cost_per_conversion := [226; 8218; 185] +++ str_of_Z (int_of (final_cost m)) |}.

Definition _predict_performance (course city campaign_type : str)
    (market_context : market_context) : result prediction :=
  let city_data := ctx_get market_context (py "city_data") (EDict []) in
  market_score <- get city_data (py "market_score") (PInt 5) ;;
  market_score <- to_number market_score ;;
  m <- final_metrics course market_score ;;
  Ok (format_metrics m).

(** ** generate_campaign_content *)

(** [self.model.generate_content(prompt)] followed by [response.text];
    the error is logged and raised again. *)
Definition _generate_with_gemini (model : prompt -> result str)
    (prompt : prompt) : result str :=
  try_except (model prompt) (fun e => Raise e).

(** [structured_content['predictions'] = p]. *)
Definition set_predictions (p : prediction) (c : content) : content :=
  {| email_subject := email_subject c;
     email_body := email_body c;
     social_post := social_post c;
     call_to_action := call_to_action c;
     key_benefits := key_benefits c;
     predictions := Some p;
     regional_version := regional_version c;
     local_context := local_context c |}.

(** "Generate content using Gemini or fallback": what is handed to the
    parser. *)
Definition generated (model : option (prompt -> result str))
    (course city campaign_type : str) (market_context : market_context)
    (prompt : prompt) : result response :=
  match model with
  | Some m => text <- _generate_with_gemini m prompt ;; Ok (Text text)
  | None =>
      c <- _generate_fallback_content course city campaign_type
             market_context ;;
      Ok (Structured c)
  end.

(** [model] is [self.model]: [None] when no text service is configured,
    otherwise what a request to it does. *)
Definition generate_campaign_content (model : option (prompt -> result str))
    (now : str) (course city campaign_type : str)
    (market_context : market_context) : result content :=
  try_except
    (prompt <- _create_content_prompt now course city campaign_type
                 market_context ;;
     content <- generated model course city campaign_type market_context
                  prompt ;;
     structured_content <- _parse_ai_response content course city ;;
     predictions <- _predict_performance course city campaign_type
                      market_context ;;
     Ok (set_predictions predictions structured_content))
    (fun e =>
       _generate_fallback_content course city campaign_type market_context).

(** ** Sample inputs *)

(** A market context with figures for the city. *)
Definition bangalore_market : market_context :=
  [ (py "city_data",
     EDict [ (py "total_positions", PInt 2500);
             (py "companies_hiring", PInt 85) ]) ].

(** A text service that is down. *)
Definition unavailable (p : prompt) : result str :=
  Raise (Exception (py "service unavailable")).

End AIEngine.

(* ================================================================== *)
(** * backend/localization.py: [LocalizationEngine] *)
(* ================================================================== *)

Module Localization.

(** One entry of a city's list in [local_events]. *)
Record event := {
  name : str;
  date : str;
  relevance : str }.

(** ** The tables loaded by [__init__] *)

Definition city_contexts : dict context :=
  [
    (py "Bangalore",
     [
      (py "nickname", FStr (py "Silicon Valley of India"));
      (py "key_industries",
       FList [py "IT Services"; py "Startups"; py "R&D"; py "Biotechnology"]);
      (py "cultural_tone", FStr (py "Tech-forward, innovation-focused, cosmopolitan"));
      (py "local_events",
       FList [py "Bangalore Tech Summit"; py "Global Innovation Summit";
              py "India Mobile Congress"]);
      (py "language_preference", FStr (py "English with tech jargon"));
      (py "market_sentiment", FStr (py "High competition, growth-oriented, startup culture"));
      (py "salary_expectations", FStr (py "High (" +++ [8377] +++ py "12-36 LPA)"));
      (py "work_culture", FStr (py "Fast-paced, flexible, innovation-driven"));
      (py "key_companies",
       FList [py "Infosys"; py "Wipro"; py "TCS"; py "Flipkart"; py "Ola"]);
      (py "hashtags",
       FList [py "#BangaloreTech"; py "#SiliconValleyOfIndia";
              py "#NammaOoru"]);
      (py "local_references",
       FList [py "Namma Metro"; py "UB City"; py "Electronic City";
              py "Whitefield"]) ]);
    (py "Mumbai",
     [
      (py "nickname", FStr (py "Financial Capital of India"));
      (py "key_industries",
       FList [py "Finance"; py "Media"; py "Entertainment";
              py "Pharmaceuticals"]);
      (py "cultural_tone", FStr (py "Fast-paced, opportunity-driven, commercial"));
      (py "local_events",
       FList [py "Mumbai Fintech Festival"; py "Digital Marketing Summit";
              py "Bombay Stock Exchange Events"]);
      (py "language_preference", FStr (py "English/Hindi mix, business-focused"));
      (py "market_sentiment", FStr (py "Networking-focused, premium positioning, ambitious"));
      (py "salary_expectations", FStr (py "Premium (" +++ [8377] +++ py "10-22 LPA)"));
      (py "work_culture", FStr (py "Hustle mentality, networking-heavy, results-oriented"));
      (py "key_companies",
       FList [py "Reliance"; py "Tata Group"; py "HDFC"; py "Kotak Mahindra"]);
      (py "hashtags",
       FList [py "#MumbaiFinance"; py "#MaxCity"; py "#BombayDreams"]);
      (py "local_references",
       FList [py "Nariman Point"; py "BKC"; py "Marine Drive";
              py "Local trains"]) ]);
    (py "Delhi NCR",
     [
      (py "nickname", FStr (py "Corporate Hub of India"));
      (py "key_industries",
       FList [py "Government"; py "Consulting"; py "MNCs";
              py "Manufacturing"]);
      (py "cultural_tone", FStr (py "Professional, hierarchical, power-conscious"));
      (py "local_events",
       FList [py "Delhi Business Summit"; py "India Leadership Conclave";
              py "CII Events"]);
      (py "language_preference", FStr (py "Hindi/English mix, formal tone"));
      (py "market_sentiment", FStr (py "Authority-respecting, status-conscious, traditional"));
      (py "salary_expectations", FStr (py "Competitive (" +++ [8377] +++ py "11-24 LPA)"));
      (py "work_culture", FStr (py "Formal, hierarchy-aware, relationship-based"));
      (py "key_companies",
       FList [py "HCL"; py "Tech Mahindra"; py "Maruti Suzuki";
              py "Hero MotoCorp"]);
      (py "hashtags",
       FList [py "#DelhiNCR"; py "#CapitalCareers"; py "#DilliKiDhadak"]);
      (py "local_references",
       FList [py "Connaught Place"; py "Gurgaon"; py "Noida"; py "Metro"]) ]);
    (py "Hyderabad",
     [
      (py "nickname", FStr (py "Cyberabad"));
      (py "key_industries",
       FList [py "IT Services"; py "Biotech"; py "Aerospace";
              py "Pharmaceuticals"]);
      (py "cultural_tone", FStr (py "Tech-savvy, cost-conscious, traditional yet modern"));
      (py "local_events",
       FList [py "Hyderabad Tech Conference"; py "BioTech Summit";
              py "HITEC City Events"]);
      (py "language_preference", FStr (py "Telugu/English mix, respectful tone"));
      (py "market_sentiment", FStr (py "Value-focused, pragmatic, family-oriented"));
      (py "salary_expectations", FStr (py "Value-driven (" +++ [8377] +++ py "9-20 LPA)"));
      (py "work_culture", FStr (py "Balanced, family-friendly, cost-effective"));
      (py "key_companies",
       FList [py "Microsoft"; py "Google"; py "Amazon"; py "Facebook"]);
      (py "hashtags",
       FList [py "#Cyberabad"; py "#HyderabadTech"; py "#CityOfPearls"]);
      (py "local_references",
       FList [py "HITEC City"; py "Gachibowli"; py "Jubilee Hills";
              py "Charminar"]) ]);
    (py "Chennai",
     [
      (py "nickname", FStr (py "Detroit of India"));
      (py "key_industries",
       FList [py "Automotive"; py "Manufacturing"; py "IT"; py "Healthcare"]);
      (py "cultural_tone", FStr (py "Traditional yet progressive, quality-focused"));
      (py "local_events",
       FList [py "Chennai Auto Expo"; py "South India Tech Meet";
              py "Manufacturing Summit"]);
      (py "language_preference", FStr (py "Tamil/English mix, respectful approach"));
      (py "market_sentiment", FStr (py "Quality-focused, relationship-driven, conservative"));
      (py "salary_expectations", FStr (py "Steady (" +++ [8377] +++ py "8-18 LPA)"));
      (py "work_culture", FStr (py "Methodical, quality-oriented, relationship-based"));
      (py "key_companies",
       FList [py "TCS"; py "Cognizant"; py "Ford"; py "Hyundai"]);
      (py "hashtags",
       FList [py "#ChennaiTech"; py "#DetroitOfIndia"; py "#TamilNaduTech"]);
      (py "local_references",
       FList [py "OMR"; py "Velachery"; py "T.Nagar"; py "Marina Beach"]) ]);
    (py "Pune",
     [
      (py "nickname", FStr (py "Oxford of the East"));
      (py "key_industries",
       FList [py "Education"; py "IT"; py "Automotive"; py "Manufacturing"]);
      (py "cultural_tone", FStr (py "Academic, youthful, collaborative"));
      (py "local_events",
       FList [py "Pune Tech Festival"; py "Education Innovation Summit";
              py "Auto Expo"]);
      (py "language_preference", FStr (py "Marathi/English mix, academic tone"));
      (py "market_sentiment", FStr (py "Learning-oriented, collaborative, student-friendly"));
      (py "salary_expectations", FStr (py "Moderate (" +++ [8377] +++ py "9-19 LPA)"));
      (py "work_culture", FStr (py "Academic, collaborative, innovation-friendly"));
      (py "key_companies",
       FList [py "Infosys"; py "TCS"; py "Bajaj"; py "Mahindra"]);
      (py "hashtags",
       FList [py "#PuneTech"; py "#OxfordOfTheEast"; py "#PuneIT"]);
      (py "local_references",
       FList [py "Hinjewadi"; py "Magarpatta"; py "Koregaon Park";
              py "Deccan"]) ]);
    (py "Ahmedabad",
     [
      (py "nickname", FStr (py "Manchester of India"));
      (py "key_industries",
       FList [py "Textiles"; py "Chemicals"; py "Pharmaceuticals"; py "IT"]);
      (py "cultural_tone", FStr (py "Business-minded, entrepreneurial, traditional"));
      (py "local_events",
       FList [py "Gujarat Business Summit"; py "Textile Expo";
              py "Pharma Conference"]);
      (py "language_preference", FStr (py "Gujarati/English mix, business-focused"));
      (py "market_sentiment", FStr (py "Entrepreneurial, cost-effective, business-oriented"));
      (py "salary_expectations", FStr (py "Cost-effective (" +++ [8377] +++ py "7-16 LPA)"));
      (py "work_culture", FStr (py "Entrepreneurial, family-business oriented, frugal"));
      (py "key_companies",
       FList [py "Adani Group"; py "Torrent"; py "Zydus"; py "Infibeam"]);
      (py "hashtags",
       FList [py "#AhmedabadBusiness"; py "#GujaratTech";
              py "#ManchesterOfIndia"]);
      (py "local_references",
       FList [py "SG Highway"; py "Satellite"; py "Vastrapur";
              py "Sabarmati"]) ]);
    (py "Kolkata",
     [
      (py "nickname", FStr (py "Cultural Capital of India"));
      (py "key_industries",
       FList [py "IT"; py "Finance"; py "Jute"; py "Steel"]);
      (py "cultural_tone", FStr (py "Intellectual, cultural, traditional"));
      (py "local_events",
       FList [py "Kolkata Book Fair"; py "Bengal IT Summit";
              py "Cultural Festivals"]);
      (py "language_preference", FStr (py "Bengali/English mix, intellectual tone"));
      (py "market_sentiment", FStr (py "Intellectual, culture-appreciating, traditional"));
      (py "salary_expectations", FStr (py "Modest (" +++ [8377] +++ py "6-15 LPA)"));
      (py "work_culture", FStr (py "Intellectual, discussion-oriented, culture-rich"));
      (py "key_companies",
       FList [py "TCS"; py "Wipro"; py "ITC"; py "Coal India"]);
      (py "hashtags",
       FList [py "#KolkataTech"; py "#CulturalCapital"; py "#CityOfJoy"]);
      (py "local_references",
       FList [py "Salt Lake"; py "New Town"; py "Park Street";
              py "Howrah Bridge"]) ]) ].

Definition regional_languages : dict (dict str) :=
  [
    (py "Bangalore",
     [ (py "hello", py "Namaskara");
       (py "opportunity", py "Avakasha");
       (py "career", py "Vyavasaya");
       (py "success", py "Safalate") ]);
    (py "Mumbai",
     [ (py "hello", py "Namaskar");
       (py "opportunity", py "Mauka");
       (py "career", py "Career");
       (py "success", py "Safalta") ]);
    (py "Delhi NCR",
     [ (py "hello", py "Namaste");
       (py "opportunity", py "Mauka");
       (py "career", py "Career");
       (py "success", py "Safalta") ]);
    (py "Hyderabad",
     [ (py "hello", py "Namaste");
       (py "opportunity", py "Avakasam");
       (py "career", py "Udyogam");
       (py "success", py "Vijayam") ]);
    (py "Chennai",
     [ (py "hello", py "Vanakkam");
       (py "opportunity", py "Vaaipu");
       (py "career", py "Thozhil");
       (py "success", py "Vetri") ]);
    (py "Pune",
     [ (py "hello", py "Namaskar");
       (py "opportunity", py "Sandhi");
       (py "career", py "Vyavasaya");
       (py "success", py "Yash") ]) ].

Definition local_events : dict (list event) :=
  [
    (py "Bangalore",
     [ {| name := py "Bangalore Tech Summit"; date := py "November 2025";
          relevance := py "High" |};
       {| name := py "Global Innovation Summit"; date := py "December 2025";
          relevance := py "Medium" |};
       {| name := py "India Mobile Congress"; date := py "October 2025";
          relevance := py "High" |} ]);
    (py "Mumbai",
     [ {| name := py "Mumbai Fintech Festival"; date := py "October 2025";
          relevance := py "High" |};
       {| name := py "Digital Marketing Summit"; date := py "November 2025";
          relevance := py "Medium" |} ]);
    (py "Delhi NCR",
     [ {| name := py "Delhi Business Summit"; date := py "December 2025";
          relevance := py "High" |};
       {| name := py "India Leadership Conclave"; date := py "January 2026";
          relevance := py "Medium" |} ]) ].

(** The context of Bangalore. *)
Definition bangalore : context :=
  match lookup (py "Bangalore") city_contexts with
  | Some context => context
  | None => []
  end.

(** ** Reading a context *)

(** [context.get(key, default)] for a key under which the contexts hold a
    [str]. *)
Definition get_str (context : context) (key default : str) : str :=
  match lookup key context with
  | Some (FStr s) => s
  | Some (FList _) => default
  | None => default
  end.

(** [context.get(key, [])] for a key under which the contexts hold a
    list. *)
Definition get_list (context : context) (key : str) : list str :=
  match lookup key context with
  | Some (FList l) => l
  | Some (FStr _) => []
  | None => []
  end.

(** [bool(s)] for a [str] or a list. *)
Definition nonempty {A} (l : list A) : bool :=
  match l with
  | [] => false
  | _ :: _ => true
  end.

(** ** _localize_subject *)

Definition _localize_subject (subject : str) (context : context) : str :=
  let nickname := get_str context (py "nickname") [] in
  let subject :=
    if nonempty nickname && negb (contains nickname subject)
    then subject +++ py " | " +++ nickname
    else subject in
  let sentiment := get_str context (py "market_sentiment") [] in
  let subject :=
    if contains (py "high competition") (lower sentiment)
    then replace_char 33 (py " - Act Fast!") subject
    else subject in
  slice_to 60 subject.

(** ** _get_relevant_events *)

Definition _get_relevant_events (city : str) : list event :=
  let events :=
    match lookup city local_events with
    | Some l => l
    | None => []
    end in
  filter (fun event => str_eqb (relevance event) (py "High")) events.

(** ** _localize_body *)

Definition _localize_body (body : str) (context : context) : str :=
  let industries := get_list context (py "key_industries") in
  let body :=
    if nonempty industries
    then body +++ [10; 10] +++ py "With "
         +++ join (py ", ") (firstn 2 industries) +++ py " leading "
         +++ get_str context (py "nickname") (py "the city")
         +++ py "'s growth"
    else body in
  let events := _get_relevant_events (get_str context (py "city") []) in
  let body :=
    match events with
    | e :: _ => body +++ py ", and upcoming events like " +++ name e
    | [] => body
    end in
  let references := get_list context (py "local_references") in
  let body :=
    match references with
    | r :: _ => body +++ py " in areas like " +++ r
    | [] => body
    end in
  let work_culture := get_str context (py "work_culture") [] in
  if contains (py "family-friendly") work_culture then
    body +++ [10; 10]
    +++ py "Join thousands of professionals who've transformed their careers while maintaining work-life balance."
  else if contains (py "fast-paced") work_culture then
    body +++ [10; 10]
    +++ py "Join the fast-track to success with industry-leading curriculum and expert mentorship."
  else body.

(** ** _create_regional_version *)

Definition not_available : str :=
  py "Regional version not available for this city.".

Definition regional_text (hello place opportunity career success : str)
  : str :=
  (hello +++ py "! " +++ place +++ py " mein " +++ opportunity
   +++ py " hai! ")
  +++ (py "Apna " +++ career +++ py " transform karo aur " +++ success
       +++ py " pao upGrad ke saath!").

Definition phrase (regional_lang : dict str) (key default : str) : str :=
  match lookup key regional_lang with
  | Some s => s
  | None => default
  end.

Definition _create_regional_version (content : Data.content)
    (context : Data.context) : str :=
  let city := get_str context (py "city") [] in
  let regional_lang :=
    match lookup city regional_languages with
    | Some d => d
    | None => []
    end in
  if negb (nonempty regional_lang) then not_available
  else
    let hello := phrase regional_lang (py "hello") (py "Hello") in
    let opportunity :=
      phrase regional_lang (py "opportunity") (py "opportunity") in
    let career := phrase regional_lang (py "career") (py "career") in
    let success := phrase regional_lang (py "success") (py "success") in
    regional_text hello (get_str context (py "nickname") city) opportunity
      career success.

Section Social.

(** The regex class [\w] of Python: letters, digits and the underscore of
    the whole of Unicode. *)
Variable is_word : char -> bool.

(** [re.sub(r'#\w+', '', s)]: [skipping] is set while the word characters
    of a matched tag are being dropped. *)
Fixpoint remove_tags (skipping : bool) (s : str) : str :=
  match s with
  | [] => []
  | c :: s' =>
      if skipping && is_word c then remove_tags true s'
      else if (c =? 35)
              && match s' with
                 | d :: _ => is_word d
                 | [] => false
                 end
      then remove_tags true s'
      else c :: remove_tags false s'
  end.

(** ** _localize_social *)

Definition _localize_social (social_post : str) (context : context) : str :=
  let hashtags := get_list context (py "hashtags") in
  let social_post :=
    if nonempty hashtags
    then strip (remove_tags false social_post) +++ py " "
         +++ join (py " ") (firstn 3 hashtags)
    else social_post in
  let social_post :=
    if (List.length social_post <? 200)%nat then
      match get_list context (py "local_references") with
      | r :: _ => social_post +++ py " #" +++ replace_char 32 [] r
      | [] => social_post
      end
    else social_post in
  slice_to 280 social_post.

(** ** localize_content *)

Definition localize_content (content : Data.content) (city : str)
  : Data.content :=
  match lookup city city_contexts with
  | None => content
  | Some [] => content
  | Some city_context =>
      {| email_subject := _localize_subject (email_subject content) city_context;
         email_body := _localize_body (email_body content) city_context;
         social_post := _localize_social (social_post content) city_context;
         call_to_action := call_to_action content;
         key_benefits := key_benefits content;
         predictions := predictions content;
         regional_version :=
           Some (_create_regional_version content city_context);
         local_context := Some city_context |}
  end.

End Social.

End Localization.

(* ================================================================== *)
(** * A hiring table held in memory *)
(* ================================================================== *)

(** An instance of the pandas operations over a list of rows, to run
    [get_city_insights] on concrete data.  Its city filter is a
    case-insensitive substring test, which is what [str.contains] does
    for a city name without regex metacharacters. *)

Module Sheet.

Import SimpleServer.

Inductive cell : Type :=
| NaN
| Num (z : Z)
| Txt (s : str).

Record frame := {
  header : list str;
  rows : list (list cell) }.

(** The index of column [c]. *)
Fixpoint index_of (c : str) (cols : list str) : option nat :=
  match cols with
  | [] => None
  | c' :: cols' =>
      if str_eqb c c' then Some O
      else match index_of c cols' with
           | Some i => Some (S i)
           | None => None
           end
  end.

Definition at_column (df : frame) (c : str) (row : list cell) : cell :=
  match index_of c (header df) with
  | Some i => nth i row NaN
  | None => NaN
  end.

Definition keep (df : frame) (p : list cell -> bool) : frame :=
  {| header := header df; rows := filter p (rows df) |}.

Definition on_column (df : frame) (c : str) (p : cell -> bool)
  : result frame :=
  match index_of c (header df) with
  | Some _ => Ok (keep df (fun row => p (at_column df c row)))
  | None => Raise KeyError
  end.

Definition sum_cells (cells : list cell) : result Z :=
  fold_right
    (fun c acc =>
       match c with
       | NaN => acc
       | Num z => total <- acc ;; Ok (z + total)%Z
       | Txt _ => Raise TypeError
       end)
    (Ok 0%Z) cells.

Definition cell_eqb (a b : cell) : bool :=
  match a, b with
  | NaN, NaN => true
  | Num x, Num y => (x =? y)%Z
  | Txt x, Txt y => str_eqb x y
  | _, _ => false
  end.

Definition occurrences (c : cell) (cells : list cell) : nat :=
  List.length (filter (cell_eqb c) cells).

(** The values that occur most often, each once. *)
Definition most_frequent (cells : list cell) : list cell :=
  let present := filter (fun c => negb (cell_eqb c NaN)) cells in
  let top :=
    fold_right (fun c m => Nat.max (occurrences c present) m) O present in
  fold_right
    (fun c acc =>
       if (occurrences c present =? top)%nat
          && negb (existsb (cell_eqb c) acc)
       then c :: acc
       else acc)
    [] present.

Definition pandas : Pandas frame cell :=
  {| columns := header;
     where_ne := fun df c =>
       on_column df c (fun v => negb (cell_eqb v (Txt c)));
     where_notna := fun df c =>
       on_column df c (fun v => negb (cell_eqb v NaN));
     where_len_gt2 := fun df c =>
       on_column df c
         (fun v => match v with
                   | Txt s => (2 <? List.length s)%nat
                   | _ => false
                   end);
     where_contains := fun df c city =>
       on_column df c
         (fun v => match v with
                   | Txt s => contains (lower city) (lower s)
                   | _ => false
                   end);
     n_rows := fun df => Z.of_nat (List.length (rows df));
     sum_int := fun df c =>
       match index_of c (header df) with
       | Some _ => sum_cells (map (at_column df c) (rows df))
       | None => Raise KeyError
       end;
     mode := fun df c =>
       match index_of c (header df) with
       | Some _ => Ok (most_frequent (map (at_column df c) (rows df)))
       | None => Raise KeyError
       end |}.

(** Three companies. *)
Definition sample : frame :=
  {| header := [py "Company"; py "City"; py "Positions_Available";
                py "Salary_Range"];
     rows :=
       [ [Txt (py "Acme"); Txt (py "Delhi NCR"); Num 120;
          Txt (py "10-20 LPA")];
         [Txt (py "Bolt"); Txt (py "Pune"); Num 40; Txt (py "8-12 LPA")];
         [Txt (py "Core"); Txt (py "New Delhi"); Num 30;
          Txt (py "10-20 LPA")] ] |}.

(** An engine without a key over the sample table. *)
Definition offline : engine frame :=
  {| gemini_api_key := None; hiring_data := Some sample |}.

(** Two sets of keywords for variant 2 at tone 5. *)
Definition email_keywords : kwargs :=
  {| kw_tone_scale := Some 5%Z;
     kw_language := Some (py "English");
     kw_variant_number := Some 2%Z;
     kw_email_type := Some (py "promotional");
     kw_subject_style := Some (py "benefit");
     kw_platform := None;
     kw_format := None;
     kw_sms_type := None;
     kw_max_length := None |}.

Definition social_keywords : kwargs :=
  {| kw_tone_scale := Some 5%Z;
     kw_language := Some (py "Hindi");
     kw_variant_number := Some 2%Z;
     kw_email_type := None;
     kw_subject_style := None;
     kw_platform := Some (py "twitter");
     kw_format := Some (py "post");
     kw_sms_type := None;
     kw_max_length := None |}.

End Sheet.

(* ================================================================== *)
(** * backend/localization.py: hashtags and recommendations *)
(* ================================================================== *)

Module Recommendations.

Import Localization.

Section Tags.

Variable is_word : char -> bool.

(** [re.search(r'#\w+', s) is not None]: [s] has a [#] followed by a word
    character. *)
Fixpoint has_tag (s : str) : bool :=
  match s with
  | [] => false
  | c :: s' =>
      (c =? 35) && match s' with
                   | d :: _ => is_word d
                   | [] => false
                   end
      || has_tag s'
  end.

End Tags.

(** The word characters of ASCII: letters, digits and the underscore. *)
Definition ascii_word (c : char) : bool :=
  ((48 <=? c) && (c <=? 57) || (65 <=? c) && (c <=? 90)
   || (97 <=? c) && (c <=? 122) || (c =? 95)).

(** ** _get_tone_recommendations *)

Definition _get_tone_recommendations (context : context) (course : str)
  : list str :=
  let cultural_tone := get_str context (py "cultural_tone") [] in
  let recommendations := [] in
  let recommendations :=
    if contains (py "formal") cultural_tone
       || contains (py "hierarchical") cultural_tone
    then recommendations
         ++ [py "Use formal, respectful language";
             py "Emphasize authority and credentials"]
    else recommendations in
  let recommendations :=
    if contains (py "tech-forward") cultural_tone
       || contains (py "innovation") cultural_tone
    then recommendations
         ++ [py "Use tech terminology and innovation language";
             py "Highlight cutting-edge curriculum"]
    else recommendations in
  if contains (py "traditional") cultural_tone
  then recommendations
       ++ [py "Balance modern content with traditional values";
           py "Emphasize family and stability benefits"]
  else recommendations.

(** ** _get_cultural_considerations *)

Definition _get_cultural_considerations (context : context) : list str :=
  let considerations := [] in
  let work_culture := get_str context (py "work_culture") [] in
  let considerations :=
    if contains (py "family-friendly") work_culture
    then considerations
         ++ [py "Emphasize work-life balance";
             py "Mention flexible learning options"]
    else considerations in
  let considerations :=
    if contains (py "networking") work_culture
    then considerations
         ++ [py "Highlight networking opportunities";
             py "Mention industry connections"]
    else considerations in
  if contains (py "entrepreneurial") work_culture
  then considerations
       ++ [py "Focus on business skills and startup opportunities";
           py "Mention entrepreneurship support"]
  else considerations.

(** ** _find_relevant_industry *)

Definition course_industry_map : dict (list str) :=
  [ (py "AI/ML", [py "IT Services"; py "Startups"; py "R&D"]);
    (py "Data Science", [py "IT Services"; py "Finance"; py "E-commerce"]);
    (py "Generative AI", [py "IT Services"; py "Media"; py "Entertainment"]);
    (py "MSc Finance", [py "Finance"; py "Banking"; py "Fintech"]) ].

(** [any(rel_ind.lower() in industry.lower() for rel_ind in
    relevant_industries)]. *)
Definition is_relevant (relevant_industries : list str) (industry : str)
  : bool :=
  existsb (fun rel_ind => contains (lower rel_ind) (lower industry))
    relevant_industries.

(** [None] is Python's [None]. *)
Definition _find_relevant_industry (industries : list str) (course : str)
  : option str :=
  let relevant_industries :=
    match lookup course course_industry_map with
    | Some l => l
    | None => []
    end in
  match find (is_relevant relevant_industries) industries with
  | Some industry => Some industry
  | None =>
      match industries with
      | industry :: _ => Some industry
      | [] => None
      end
  end.

(** ** _get_local_hooks *)

Definition _get_local_hooks (context : context) (course : str) : list str :=
  let hooks := [] in
  let nickname := get_str context (py "nickname") [] in
  let industries := get_list context (py "key_industries") in
  let hooks :=
    if nonempty nickname
    then hooks ++ [py "Join " +++ nickname +++ py "'s tech revolution"]
    else hooks in
  if nonempty industries then
    match _find_relevant_industry industries course with
    | Some ((_ :: _) as relevant_industry) =>
        hooks ++ [relevant_industry +++ py " professionals in high demand"]
    | _ => hooks
    end
  else hooks.

(** ** _get_optimal_timing *)

Record timing := {
  best_time : str;
  avoid : str }.

Definition _get_optimal_timing (context : context) : timing :=
  let work_culture := get_str context (py "work_culture") [] in
  if contains (py "fast-paced") work_culture then
    {| best_time := py "Early morning or late evening";
       avoid := py "Lunch hours" |}
  else if contains (py "traditional") work_culture then
    {| best_time := py "Business hours";
       avoid := py "Early morning or late evening" |}
  else
    {| best_time := py "Business hours"; avoid := py "Weekends" |}.

(** ** _get_platform_preferences *)

Definition _get_platform_preferences (context : context) : list str :=
  let cultural_tone := get_str context (py "cultural_tone") [] in
  if contains (py "tech-forward") cultural_tone then
    [py "LinkedIn"; py "Twitter"; py "Instagram"]
  else if contains (py "traditional") cultural_tone then
    [py "LinkedIn"; py "Facebook"; py "Email"]
  else if contains (py "business") cultural_tone then
    [py "LinkedIn"; py "Email"; py "WhatsApp Business"]
  else
    [py "LinkedIn"; py "Facebook"; py "Instagram"].

(** ** get_localization_recommendations *)

Record recommendations := {
  tone_adjustments : list str;
  cultural_considerations : list str;
  local_hooks : list str;
  language_preferences : str;
  optimal_timing : timing;
  platform_preferences : list str }.

(** The dict returned: the recommendations, or the one key ["error"]. *)
Inductive advice : Type :=
| Error (error : str)
| Advice (r : recommendations).

Definition get_localization_recommendations (city course : str) : advice :=
  match lookup city city_contexts with
  | None | Some [] =>
      Error (py "No localization data available for " +++ city)
  | Some context =>
      Advice
        {| tone_adjustments := _get_tone_recommendations context course;
           cultural_considerations := _get_cultural_considerations context;
           local_hooks := _get_local_hooks context course;
           language_preferences :=
             get_str context (py "language_preference") (py "English");
           optimal_timing := _get_optimal_timing context;
           platform_preferences := _get_platform_preferences context |}
  end.

End Recommendations.

(* ================================================================== *)
(** * What a request handler does *)
(* ================================================================== *)

Module Http.

(** A handler returns the body of its response, or raises an
    [HTTPException] whose detail is the text of [cause]. *)
Inductive response (A : Type) : Type :=
| Success (body : A)
| HTTPException (status_code : Z) (cause : exn).

Arguments Success {A} body.
Arguments HTTPException {A} status_code cause.

(** [try: c  except Exception as e: raise HTTPException(status_code=500,
    detail=str(e))]. *)
Definition or_500 {A} (c : result A) : response A :=
  match c with
  | Ok a => Success a
  | Raise e => HTTPException 500 e
  end.

End Http.

(* ================================================================== *)
(** * simple_server.py: campaign images *)
(* ================================================================== *)

Module ImageService.

Import SimpleServer.

(** The dict [generate_image] returns. *)
Record image := {
  image_url : str;
  prompt : str;
  style : str;
  size : str;
  message : str }.

Definition style_prompts : dict str :=
  [ (py "professional",
     py "clean corporate design, blue and white gradient background, professional layout, business style, modern typography, upGrad branding");
    (py "modern",
     py "sleek contemporary design, vibrant gradients, modern typography, futuristic elements, tech-inspired");
    (py "creative",
     py "vibrant artistic design, bold colors, creative elements, dynamic composition, energetic");
    (py "minimal",
     py "minimalist design, lots of white space, simple typography, clean aesthetic, elegant") ].

Definition professional_prompt : str :=
  match lookup (py "professional") style_prompts with
  | Some p => p
  | None => []
  end.

Definition style_indices : dict nat :=
  [ (py "professional", 0%nat); (py "modern", 1%nat);
    (py "creative", 2%nat); (py "minimal", 0%nat) ].

Section Generator.

(** [hash] of a [str]; it differs from one run of the interpreter to the
    next. *)
Variable hash : str -> Z.

(** The request to Stability AI for a prompt and a size: the URL path of
    the stored image, [None] when the service answers with an error or the
    request fails.  The imports in front of its [try] block may raise. *)
Variable _generate_with_stability_ai : str -> str -> result (option str).

(** ** _generate_placeholder_image *)

Definition _generate_placeholder_image (course city style size : str)
  : result image :=
  match split_char 120 size with
  | [width; height] =>
      let placeholder_services :=
        [ py "https://via.placeholder.com/" +++ width +++ py "x" +++ height
            +++ py "/3b82f6/ffffff?text=upGrad+"
            +++ replace_char 47 (py "%2F") course +++ py "+" +++ city;
          py "https://dummyimage.com/" +++ width +++ py "x" +++ height
            +++ py "/3b82f6/ffffff&text=upGrad+" +++ course
            +++ py "+Campaign";
          py "https://picsum.photos/" +++ width +++ py "/" +++ height
            +++ py "?random="
            +++ str_of_Z (hash (course +++ city +++ style) mod 1000) ] in
      let style_index :=
        match lookup style style_indices with
        | Some i => i
        | None => 0%nat
        end in
      let selected_url := nth style_index placeholder_services [] in
      Ok {| image_url := selected_url;
            prompt := py "Placeholder for " +++ course +++ py " in " +++ city;
            style := style;
            size := size;
            message := py "Generated placeholder " +++ style
                       +++ py " style image at " +++ size
                       +++ py " resolution" |}
  | _ => Raise ValueError
  end.

(** ** generate_image *)

(** [style] and [size] are the keyword arguments, [None] when the caller
    leaves them out; [prompt] is the positional argument of the method. *)
Definition generate_image (stability_api_key : option str)
    (prompt course city : str) (kw_style kw_size : option str)
  : result image :=
  let style := kw_get kw_style (py "professional") in
  let size := kw_get kw_size (py "1024x1024") in
  match stability_api_key with
  | None | Some [] => _generate_placeholder_image course city style size
  | Some (_ :: _) =>
      try_except
        (let enhanced_prompt :=
           py "Professional marketing banner for upGrad " +++ course
           +++ py " course targeting " +++ city +++ py " professionals, "
           +++ match lookup style style_prompts with
               | Some p => p
               | None => professional_prompt
               end
           +++ py ", high quality digital marketing material, 16:9 aspect ratio, no text overlay" in
         image_url <- _generate_with_stability_ai enhanced_prompt size ;;
         match image_url with
         | Some ((_ :: _) as image_url) =>
             Ok {| image_url := image_url;
                   ImageService.prompt := enhanced_prompt;
                   ImageService.style := style;
                   ImageService.size := size;
                   message := py "Generated " +++ style
                              +++ py " style image using Stability AI" |}
         | _ => _generate_placeholder_image course city style size
         end)
        (fun e => _generate_placeholder_image course city style size)
  end.

(** ** The handler of /api/generate-image *)





End Generator.

End ImageService.

(* ================================================================== *)
(** * Sample inputs *)
(* ================================================================== *)

Module Samples.

Import SimpleServer.

(** An engine with a key over the sample table. *)
Definition online : engine Sheet.frame :=
  {| gemini_api_key := Some (py "AIzaSample");
     hiring_data := Some Sheet.sample |}.

(** A text service that answers every prompt with the same text. *)
Definition answering (p : prompt Sheet.cell) : result str :=
  Ok (py "Upskill with upGrad today.").

(** A text service that is down. *)
Definition down (p : prompt Sheet.cell) : result str :=
  Raise (Exception (py "503 service unavailable")).

(** A Hindi request that times out. *)
Definition hindi_down (english : str) : result str :=
  Raise (Exception (py "timeout")).

(** A Hindi request that answers. *)
Definition hindi_answering (english : str) : result str :=
  Ok [2310; 2332; 32; 2361; 2368; 32; 2360; 2368; 2326; 2375; 2306].

Definition hindi_keywords : kwargs :=
  {| kw_tone_scale := Some 5%Z;
     kw_language := Some (py "Hindi");
     kw_variant_number := Some 1%Z;
     kw_email_type := None;
     kw_subject_style := None;
     kw_platform := None;
     kw_format := None;
     kw_sms_type := None;
     kw_max_length := None |}.

(** An image service that stores no image. *)
Definition no_image (prompt size : str) : result (option str) := Ok None.

End Samples.

(* ================================================================== *)
(** * backend/ai_engine.py: the response format of the prompt *)
(* ================================================================== *)

Module ResponseFormat.

Import AIEngine.

(** The lines under "FORMAT YOUR RESPONSE AS:" in the prompt of
    [_create_content_prompt], with the five fields filled in. *)
Definition formatted (subject body social cta benefits : str) : str :=
  py "SUBJECT: " +++ subject +++ [10]
  +++ py "BODY: " +++ body +++ [10]
  +++ py "SOCIAL: " +++ social +++ [10]
  +++ py "CTA: " +++ cta +++ [10]
  +++ py "BENEFITS: " +++ benefits.

(** A field that is not empty, has no whitespace at either end and holds
    no colon. *)
Definition plain (field : str) : bool :=
  Localization.nonempty field
  && str_eqb (strip field) field
  && (count 58%N field =? 0)%nat.

(** A field without a newline. *)
Definition one_line (field : str) : bool := (count 10%N field =? 0)%nat.

(** The characters of [s], as far as they go, match [label]. *)
Fixpoint compatible (label s : str) : bool :=
  match label, s with
  | [], _ => true
  | _ :: _, [] => true
  | p :: label', c :: s' => ci_eqb p c && compatible label' s'
  end.

(** The suffixes of [s] that are not empty. *)
Fixpoint tails (s : str) : list str :=
  match s with
  | [] => []
  | _ :: s' => s :: tails s'
  end.

(** [label] starts at no position of [head]. *)
Definition absent (label head : str) : bool :=
  forallb (fun suf => negb (compatible label suf)) (tails head).

End ResponseFormat.

(* ================================================================== *)
(** * core/config.py: [Settings] *)
(* ================================================================== *)

Module Config.

(** The value given for [supported_cities]: the text of the environment
    (the default is a text too), or a list. *)
Inductive cities_setting : Type :=
| CitiesText (v : str)
| CitiesList (v : list str).

Definition default_cities : str :=
  py "Bangalore,Mumbai,Delhi NCR,Hyderabad,Chennai,Pune,Ahmedabad,Kolkata".

(** ** validate_cities *)

Definition validate_cities (v : cities_setting) : result (list str) :=
  match v with
  | CitiesText v =>
      let cities := map strip (split_char 44 v) in
      if (List.length cities =? 0)%nat then Raise ValueError else Ok cities
  | CitiesList v => Ok v
  end.

(** ** get_supported_cities *)

Definition get_supported_cities (supported_cities : cities_setting)
  : list str :=
  match supported_cities with
  | CitiesText v => map strip (split_char 44 v)
  | CitiesList v => v
  end.

(** ** validate_gemini_key, validate_stability_key *)

Definition validate_key (prefix : str) (v : option str)
  : result (option str) :=
  match v with
  | Some ((_ :: _) as key) =>
      if negb (starts_with prefix key) then Raise ValueError else Ok v
  | _ => Ok v
  end.

Definition validate_gemini_key : option str -> result (option str) :=
  validate_key (py "AIza").

Definition validate_stability_key : option str -> result (option str) :=
  validate_key (py "sk-").

End Config.

(* ================================================================== *)
(** * backend/ml_optimizer.py: [CampaignOptimizer] *)
(* ================================================================== *)

(** As in the predictor of ai_engine.py, a float is the rational number
    it denotes. *)

Module Optimizer.

Import AIEngine.

Local Open Scope Q_scope.

(** [max(a, b)] and [min(a, b)] of Python: the first argument wins a
    tie. *)
Definition py_max (a b : Q) : Q :=
  match a ?= b with
  | Lt => b
  | _ => a
  end.

Definition py_min (a b : Q) : Q :=
  match b ?= a with
  | Lt => b
  | _ => a
  end.

(** [table.get(key, 1.0)]. *)
Definition factor (table : dict Q) (key : str) : Q :=
  match lookup key table with
  | Some m => m
  | None => 1
  end.

(** ** _calculate_synthetic_performance *)

Definition brand_multipliers : dict Q :=
  [ (py "upgrad", 12 # 10); (py "byju", 1); (py "unacademy", 9 # 10);
    (py "vedantu", 8 # 10) ].

Definition theme_multipliers : dict Q :=
  [ (py "Job Security", 13 # 10); (py "Career Growth", 12 # 10);
    (py "AI/ML Skills", 11 # 10); (py "Salary Boost", 11 # 10);
    (py "Skill Development", 1) ].

Definition platform_multipliers : dict Q :=
  [ (py "Instagram", 14 # 10); (py "LinkedIn", 13 # 10);
    (py "YouTube", 12 # 10); (py "Facebook", 11 # 10);
    (py "Google Ads", 11 # 10); (py "Twitter", 9 # 10) ].

Definition city_multipliers : dict Q :=
  [ (py "Hyderabad", 12 # 10); (py "Bangalore", 115 # 100);
    (py "Chennai", 11 # 10); (py "Delhi NCR", 105 # 100);
    (py "Mumbai", 1); (py "Pune", 95 # 100) ].

Definition age_multipliers : dict Q :=
  [ (py "35-42", 11 # 10); (py "28-35", 11 # 10); (py "22-28", 1);
    (py "42-50", 9 # 10) ].

(** [a > b]. *)
Definition gt (a b : Q) : bool :=
  match a ?= b with
  | Gt => true
  | _ => false
  end.

(** [noise] is the draw [np.random.normal(0, 0.3)]. *)
Definition _calculate_synthetic_performance (noise : Q)
    (brand content_theme visual_style target_emotion campaign_type platform
       target_city age_group : str)
    (character_count : Z)
    (readability_score brand_consistency_score accessibility_score : Q)
  : Q :=
  let base_score := 5 in
  let base_score := base_score * factor brand_multipliers brand in
  let base_score := base_score * factor theme_multipliers content_theme in
  let base_score := base_score * factor platform_multipliers platform in
  let base_score := base_score * factor city_multipliers target_city in
  let base_score := base_score * factor age_multipliers age_group in
  let base_score :=
    if gt readability_score 8 then base_score * (11 # 10) else base_score in
  let base_score :=
    if gt brand_consistency_score 9 then base_score * (115 # 100)
    else base_score in
  let base_score :=
    if gt accessibility_score 9 then base_score * (105 # 100)
    else base_score in
  let base_score :=
    if (150 <=? character_count)%Z && (character_count <=? 200)%Z
    then base_score * (11 # 10)
    else if (character_count <? 100)%Z || (250 <? character_count)%Z
         then base_score * (9 # 10)
         else base_score in
  let base_score := base_score + noise in
  py_max 1 (py_min 10 base_score).

(** ** _calculate_prediction_confidence *)

(** [prediction_variance] is [np.var] of what the trees predict; scaling
    the features or a tree may raise. *)
Definition _calculate_prediction_confidence
    (sklearn_available has_estimators : bool)
    (prediction_variance : result Q) : Q :=
  if negb sklearn_available || negb has_estimators then 75 # 100
  else
    match prediction_variance with
    | Ok prediction_variance =>
        py_max (1 # 2) (py_min (95 # 100) (1 - prediction_variance / 10))
    | Raise _ => 75 # 100
    end.

(** ** _convert_to_business_metrics *)

Record adjustment := {
  a_ctr : Q;
  a_conversion : Q;
  a_roas : Q }.

Definition platform_adjustments : dict adjustment :=
  [ (py "Instagram",
     {| a_ctr := 18 # 10; a_conversion := 17 # 10; a_roas := 15 # 10 |});
    (py "LinkedIn",
     {| a_ctr := 13 # 10; a_conversion := 12 # 10; a_roas := 13 # 10 |});
    (py "YouTube",
     {| a_ctr := 16 # 10; a_conversion := 14 # 10; a_roas := 14 # 10 |});
    (py "Facebook",
     {| a_ctr := 11 # 10; a_conversion := 1; a_roas := 11 # 10 |});
    (py "Google Ads",
     {| a_ctr := 15 # 10; a_conversion := 13 # 10; a_roas := 13 # 10 |});
    (py "Twitter",
     {| a_ctr := 7 # 10; a_conversion := 6 # 10; a_roas := 8 # 10 |}) ].

(** [platform_adjustments.get(platform, {'ctr': 1.0, 'conversion': 1.0,
    'roas': 1.0})]. *)
Definition adjustment_of (platform : str) : adjustment :=
  match lookup platform platform_adjustments with
  | Some a => a
  | None => {| a_ctr := 1; a_conversion := 1; a_roas := 1 |}
  end.

(** "Performance multiplier (normalize score to 0.5-2.0 range)". *)
Definition performance_multiplier (performance_score : Q) : Q :=
  (1 # 2) + (performance_score / 10) * (15 # 10).

(** The four numbers before they are formatted; [platform] is
    [params.get('platform', 'LinkedIn')]. *)
Definition business_metrics (performance_score : Q) (platform : str)
  : result metrics :=
  let base_ctr := 25 # 1000 in
  let base_conversion := 5 # 100 in
  let base_roas := 32 # 10 in
  let base_cost := 300 in
  let multiplier := performance_multiplier performance_score in
  let platform_adj := adjustment_of platform in
  if Qeq_bool multiplier 0 then Raise ZeroDivisionError
  else
    Ok {| final_ctr := base_ctr * multiplier * a_ctr platform_adj;
          final_conversion :=
            base_conversion * multiplier * a_conversion platform_adj;
          final_roas := base_roas * multiplier * a_roas platform_adj;
          final_cost := base_cost / multiplier |}.

Definition _convert_to_business_metrics (performance_score : Q)
    (platform : option str) : result prediction :=
  m <- business_metrics performance_score
         (match platform with
          | Some p => p
          | None => py "LinkedIn"
          end) ;;
  Ok {| ctr := format_1f (final_ctr m * 100) +++ py "%";
        conversion_rate := format_1f (final_conversion m * 100) +++ py "%";
        roas := format_1f (final_roas m) +++ py "x";
        cost_per_conversion :=
          [8377%N] +++ str_of_Z (int_of (final_cost m)) |}.

(** ** optimize_campaign *)

Definition params := dict pyval.

(** [d[key] = value] on a dict without repeated keys. *)
Fixpoint set_item (key : str) (value : pyval) (d : params) : params :=
  match d with
  | [] => [(key, value)]
  | (k, v) :: d' =>
      if str_eqb key k then (key, value) :: d'
      else (k, v) :: set_item key value d'
  end.

(** One entry of [optimizations]. *)
Record optimization := {
  parameter : str;
  value : str;
  predicted_score : Q;
  improvement : Q }.

(** [list.sort(key=lambda x: x['improvement'], reverse=True)]: the sort
    is stable, entries with the same improvement keep their order. *)
Fixpoint insert (opt : optimization) (sorted : list optimization)
  : list optimization :=
  match sorted with
  | [] => [opt]
  | opt' :: rest =>
      if Qle_bool (improvement opt') (improvement opt)
      then opt :: opt' :: rest
      else opt' :: insert opt rest
  end.

Definition sort_by_improvement (optimizations : list optimization)
  : list optimization :=
  fold_right insert [] optimizations.

(** In the order of the sorted list: no later entry improves more. *)
Definition descending (a b : optimization) : Prop :=
  improvement b <= improvement a.

(** [max(l)] of a list that is not empty. *)
Definition max_of (first : Q) (rest : list Q) : Q :=
  fold_left py_max rest first.

(** The dict [optimize_campaign] returns, without its timestamp. *)
Inductive outcome : Type :=
| Failed (error : str)
| Optimized (base_score : Q) (optimizations : list optimization)
    (max_improvement : Q).

Definition themes : list str :=
  [py "Job Security"; py "Career Growth"; py "AI/ML Skills";
   py "Salary Boost"].

Definition platforms : list str :=
  [py "Instagram"; py "LinkedIn"; py "YouTube"; py "Facebook"].

Section Campaign.

(** [predict_performance(params)]: the value under
    ['predicted_performance_score'], or [None] for the dict that holds
    the one key ['error'].  The method has its own handler and does not
    raise. *)
Variable predict_performance : params -> option Q.

(** [prediction.get('predicted_performance_score', 0)]. *)
Definition score_of (test_params : params) : Q :=
  match predict_performance test_params with
  | Some score => score
  | None => 0
  end.

Definition candidate (base_params : params) (base_score : Q)
    (parameter value : str) : optimization :=
  let test_params := set_item parameter (PStr value) base_params in
  {| parameter := parameter;
     value := value;
     predicted_score := score_of test_params;
     improvement := score_of test_params - base_score |}.

Definition candidates (base_params : params) (base_score : Q)
  : list optimization :=
  map (candidate base_params base_score (py "content_theme")) themes
  ++ map (candidate base_params base_score (py "platform")) platforms.

Definition optimize_campaign (is_trained : bool) (base_params : params)
  : outcome :=
  if negb is_trained then Failed (py "Model not trained")
  else
    let base_score := score_of base_params in
    let optimizations := candidates base_params base_score in
    let optimizations := sort_by_improvement optimizations in
    let top_optimizations :=
      firstn 5 (filter (fun opt => gt (improvement opt) 0) optimizations) in
    Optimized base_score top_optimizations
      match map improvement top_optimizations with
      | first :: rest => max_of first rest
      | [] => 0
      end.

End Campaign.

(** A predictor that prefers Instagram and job security. *)
Definition sample_predictor (p : params) : option Q :=
  Some ((match lookup (py "platform") p with
         | Some (PStr s) => if str_eqb s (py "Instagram") then 8 else 6
         | _ => 6
         end)
        + (match lookup (py "content_theme") p with
           | Some (PStr s) =>
               if str_eqb s (py "Job Security") then 1 else 0
           | _ => 0
           end)).

End Optimizer.

(* ================================================================== *)
(** * services/market_intelligence.py: [MarketIntelligenceEngine] *)
(* ================================================================== *)

Module MarketIntelligence.

Import Optimizer.

(** The dict [get_city_insights] returns: the one key ["error"], or the
    figures of the city.  [top_skills] and [hiring_urgency] are in the
    order of the dict. *)
Inductive city_insights : Type :=
| NoData (error : str)
| Insights (city : str) (total_positions companies_hiring : Z)
    (top_skills : list (str * Z)) (hiring_urgency : dict Z)
    (market_score : Q).

(** The dict [get_course_relevance] returns. *)
Record course_relevance := {
  course : str;
  relevant_positions : Z;
  demand_skills : list (str * Z);
  market_score : Q;
  growth_potential : str }.

(** ** get_course_relevance *)

Definition course_mapping : dict (list str) :=
  [ (py "AI/ML",
     [py "AI/ML"; py "Machine Learning"; py "Artificial Intelligence";
      py "Data Science"; py "Python"]);
    (py "Generative AI",
     [py "AI/ML"; py "Machine Learning"; py "Python"; py "Deep Learning"]);
    (py "Data Science",
     [py "Data Science"; py "Python"; py "Analytics"; py "Statistics";
      py "R"]);
    (py "MSc Finance",
     [py "Finance"; py "FinTech"; py "Banking"; py "Investment";
      py "Risk Management"]) ].

(** [skill_demand.get(skill, 0)]. *)
Definition demand (skill_demand : dict Z) (skill : str) : Z :=
  match lookup skill skill_demand with
  | Some n => n
  | None => 0%Z
  end.

(** [skill_demand] is what [get_skill_demand] returns. *)
Definition get_course_relevance (skill_demand : dict Z) (course : str)
  : course_relevance :=
  let relevant_skills :=
    match lookup course course_mapping with
    | Some l => l
    | None => []
    end in
  let total_demand :=
    fold_left Z.add (map (demand skill_demand) relevant_skills) 0%Z in
  {| MarketIntelligence.course := course;
     relevant_positions := total_demand;
     demand_skills :=
       map (fun skill => (skill, demand skill_demand skill)) relevant_skills;
     market_score := py_min (inject_Z total_demand / 50) 10;
     growth_potential :=
       if (100 <? total_demand)%Z then py "High"
       else if (50 <? total_demand)%Z then py "Medium"
       else py "Low" |}.

(** ** _generate_campaign_hooks *)

(** [city_data.get('error')] is true. *)
Definition has_error (city_data : city_insights) : bool :=
  match city_data with
  | NoData (_ :: _) => true
  | _ => false
  end.

(** [city_data.get('total_positions', 0)]. *)
Definition positions_of (city_data : city_insights) : Z :=
  match city_data with
  | Insights _ total_positions _ _ _ _ => total_positions
  | NoData _ => 0%Z
  end.

(** [city_data.get('hiring_urgency', {}).get('Critical', 0)]. *)
Definition critical_of (city_data : city_insights) : Z :=
  match city_data with
  | Insights _ _ _ _ hiring_urgency _ =>
      match lookup (py "Critical") hiring_urgency with
      | Some n => n
      | None => 0%Z
      end
  | NoData _ => 0%Z
  end.

(** [city_data.get('top_skills')]. *)
Definition top_skills_of (city_data : city_insights) : list (str * Z) :=
  match city_data with
  | Insights _ _ _ top_skills _ _ => top_skills
  | NoData _ => []
  end.

(** [course_data] is [None] for the empty dict of a request without a
    course. *)
Definition _generate_campaign_hooks (city_data : city_insights)
    (course_data : option course_relevance) : list str :=
  let hooks := [] in
  let hooks :=
    if negb (has_error city_data) then
      let positions := positions_of city_data in
      let hooks :=
        if (1000 <? positions)%Z
        then hooks ++ [py "Over " +++ str_of_Z positions
                       +++ py " job opportunities available"]
        else hooks in
      let hooks :=
        if (0 <? critical_of city_data)%Z
        then hooks ++ [py "Companies hiring urgently"]
        else hooks in
      match top_skills_of city_data with
      | (top_skill, _) :: _ =>
          hooks ++ [top_skill +++ py " professionals in high demand"]
      | [] => hooks
      end
    else hooks in
  let hooks :=
    match course_data with
    | Some course_data =>
        if str_eqb (growth_potential course_data) (py "High")
        then hooks ++ [py "High growth potential in this field"]
        else hooks
    | None => hooks
    end in
  firstn 3 hooks.

End MarketIntelligence.

(* ================================================================== *)
(** * api/routes/health.py *)
(* ================================================================== *)

Module Health.

(** What the checks read of the [Settings]. *)
Record settings := {
  gemini_api_key : option str;
  stability_api_key : option str;
  data_dir_exists : bool;
  static_dir_exists : bool }.

(** [bool(key)] for a key that may be [None]. *)
Definition configured (key : option str) : bool :=
  match key with
  | Some (_ :: _) => true
  | _ => false
  end.

(** The dict of a service check, without its time stamp: of the keys
    [gemini_api], [data_loaded], [cities_available] and [error] it has
    those that are not [None] here; [error] is the exception whose text
    the dict holds. *)
Record service_check := {
  service_status : str;
  gemini_api : option str;
  data_loaded : option bool;
  cities_available : option nat;
  error : option exn }.

Definition unhealthy (e : exn) : service_check :=
  {| service_status := py "unhealthy";
     gemini_api := None;
     data_loaded := None;
     cities_available := None;
     error := Some e |}.

(** ** check_ai_service *)

(** [generate_content] is the test call on the service, [has_model] is
    [bool(ai_service.model)]. *)
Definition check_ai_service (generate_content : result unit)
    (has_model : bool) : result service_check :=
  try_except
    (test_result <- generate_content ;;
     Ok {| service_status := py "healthy";
           gemini_api :=
             Some (if has_model then py "connected" else py "fallback");
           data_loaded := None;
           cities_available := None;
           error := None |})
    (fun e => Ok (unhealthy e)).

(** ** check_market_service *)

(** [get_market_overview] is the call on the service followed by
    [len(data.get("city_performance", {}))]. *)
Definition check_market_service (get_market_overview : result nat)
  : result service_check :=
  try_except
    (cities <- get_market_overview ;;
     Ok {| service_status := py "healthy";
           gemini_api := None;
           data_loaded := Some (0 <? cities)%nat;
           cities_available := Some cities;
           error := None |})
    (fun e => Ok (unhealthy e)).

(** ** check_configuration *)

Record configuration_check := {
  status : str;
  issues : list str;
  api_keys_configured : bool }.

Definition check_configuration (settings : settings) : configuration_check :=
  let issues := [] in
  let issues :=
    if negb (configured (gemini_api_key settings))
    then issues ++ [py "Missing Gemini API key"] else issues in
  let issues :=
    if negb (configured (stability_api_key settings))
    then issues ++ [py "Missing Stability API key"] else issues in
  let issues :=
    if negb (data_dir_exists settings)
    then issues ++ [py "Data directory not found"] else issues in
  let issues :=
    if negb (static_dir_exists settings)
    then issues ++ [py "Static directory not found"] else issues in
  {| status := match issues with
               | [] => py "healthy"
               | _ :: _ => py "unhealthy"
               end;
     issues := issues;
     api_keys_configured :=
       configured (gemini_api_key settings)
       && configured (stability_api_key settings) |}.

(** ** health_check *)

(** [health_status], without its time stamp and version. *)
Record health_status := {
  overall_status : str;
  ai_engine : service_check;
  market_intelligence : service_check;
  configuration : configuration_check }.

Definition health_check (settings : settings)
    (generate_content : result unit) (has_model : bool)
    (get_market_overview : result nat) : health_status :=
  let status := py "healthy" in
  let '(ai_engine, status) :=
    match check_ai_service generate_content has_model with
    | Ok ai_status => (ai_status, status)
    | Raise e => (unhealthy e, py "degraded")
    end in
  let '(market_intelligence, status) :=
    match check_market_service get_market_overview with
    | Ok market_status => (market_status, status)
    | Raise e => (unhealthy e, py "degraded")
    end in
  let config_status := check_configuration settings in
  let status :=
    if str_eqb (Health.status config_status) (py "unhealthy")
    then py "degraded" else status in
  {| overall_status := status;
     ai_engine := ai_engine;
     market_intelligence := market_intelligence;
     configuration := config_status |}.

End Health.

(* ================================================================== *)
(** * backend/app.py: the campaign handler *)
(* ================================================================== *)

Module App.

Import AIEngine.

Record campaign_request := {
  course : str;
  city : str;
  campaign_type : str;
  trend_integration : bool;
  localization : str }.

(** The [CampaignResponse]. *)
Record campaign_response := {
  content : Data.content;
  predictions : option prediction;
  market_context : AIEngine.market_context;
  image_url : option str }.

Section Handler.

(** [market_intelligence.get_market_context(city, course)], of a module
    outside this development; it may raise.  The localization engine is
    taken to be importable. *)
Variable get_market_context : str -> str -> result AIEngine.market_context.

Variable model : option (prompt -> result str).
Variable now : str.
Variable is_word : char -> bool.

Definition generate_campaign (request : campaign_request)
  : Http.response campaign_response :=
  Http.or_500
    (market_context <- get_market_context (city request) (course request) ;;
     content <-
       generate_campaign_content model now (course request) (city request)
         (campaign_type request) market_context ;;
     let content :=
       if negb (str_eqb (localization request) (py "basic"))
       then Localization.localize_content is_word content (city request)
       else content in
     let image_url :=
       if existsb (str_eqb (campaign_type request))
            [py "Display Ads"; py "Social Media"]
       then Some (py "/static/images/default_campaign.png")
       else None in
     Ok {| content := content;
           predictions := Data.predictions content;
           market_context := market_context;
           image_url := image_url |}).

End Handler.

(** A market context service that knows no figures. *)
Definition no_figures (city course : str) : result AIEngine.market_context :=
  Ok [].

End App.

(* ================================================================== *)
(** * Behaviour the specification words differently *)
(* ================================================================== *)

Module Claimed.

Import Localization.

(** [s.replace(old, new, 1)]: only the first occurrence is replaced. *)
Fixpoint replace_first (old : char) (new : str) (s : str) : str :=
  match s with
  | [] => []
  | c :: s' =>
      if char_eqb c old then new +++ s' else c :: replace_first old new s'
  end.

(** Subject localization as the specification describes it: the nickname
    is appended when absent, and only the first [!] becomes
    [" - Act Fast!"]; the result is cut to 60 characters. *)
Definition localize_subject_first_only (subject : str) (context : context)
  : str :=
  let nickname := get_str context (py "nickname") [] in
  let subject :=
    if nonempty nickname && negb (contains nickname subject)
    then subject +++ py " | " +++ nickname
    else subject in
  let sentiment := get_str context (py "market_sentiment") [] in
  let subject :=
    if contains (py "high competition") (lower sentiment)
    then replace_first 33 (py " - Act Fast!") subject
    else subject in
  slice_to 60 subject.

(** The regional version the specification describes for [city]: the
    template sentence over the city's entry of the phrase table, the
    marker when the city has none. *)
Definition regional_version_of (city : str) (context : context) : str :=
  match lookup city regional_languages with
  | Some regional_lang =>
      regional_text
        (phrase regional_lang (py "hello") (py "Hello"))
        (get_str context (py "nickname") city)
        (phrase regional_lang (py "opportunity") (py "opportunity"))
        (phrase regional_lang (py "career") (py "career"))
        (phrase regional_lang (py "success") (py "success"))
  | None => not_available
  end.

End Claimed.

(* ================================================================== *)
(** * Facts about the Python values *)
(* ================================================================== *)

Module PyFacts.

Lemma str_eqb_eq (a b : str) : str_eqb a b = true <-> a = b.
Proof.
  revert b; induction a as [|x a IH]; intros [|y b]; simpl;
    try (split; [discriminate | congruence]); try tauto.
  unfold char_eqb. rewrite andb_true_iff, N.eqb_eq, IH.
  split; [intros [-> ->]; reflexivity | intros H; inversion H; auto].
Qed.

Lemma str_eqb_refl (a : str) : str_eqb a a = true.
Proof. apply str_eqb_eq; reflexivity. Qed.

Lemma str_eqb_neq (a b : str) : str_eqb a b = false <-> a <> b.
Proof.
  split.
  - intros H E. apply str_eqb_eq in E. congruence.
  - intros H. destruct (str_eqb a b) eqn:E; [|reflexivity].
    apply str_eqb_eq in E. contradiction.
Qed.

Lemma slice_to_length (n : nat) (s : str) : (List.length (slice_to n s) <= n)%nat.
Proof. unfold slice_to. apply firstn_le_length. Qed.

Lemma count_app (c : char) (s t : str) :
  count c (s ++ t) = (count c s + count c t)%nat.
Proof.
  induction s as [|x s IH]; simpl; [reflexivity|].
  destruct (char_eqb x c); rewrite IH; reflexivity.
Qed.

Lemma count_rev (c : char) (s : str) : count c (rev s) = count c s.
Proof.
  induction s as [|x s IH]; simpl; [reflexivity|].
  rewrite count_app, IH. simpl. destruct (char_eqb x c); lia.
Qed.

Lemma count_lstrip (c : char) (s : str) :
  is_space c = false -> count c (lstrip s) = count c s.
Proof.
  intros Hc. induction s as [|x s IH]; simpl; [reflexivity|].
  destruct (is_space x) eqn:Hx; [|reflexivity].
  rewrite IH. destruct (char_eqb x c) eqn:E; [|reflexivity].
  apply N.eqb_eq in E. subst x. congruence.
Qed.

Lemma count_strip (c : char) (s : str) :
  is_space c = false -> count c (strip s) = count c s.
Proof.
  intros Hc. unfold strip, rstrip.
  rewrite count_rev, count_lstrip, count_rev, count_lstrip by assumption.
  reflexivity.
Qed.

(** [split] yields one more part than there are separators. *)
Lemma split_char_length (sep : char) (s : str) :
  List.length (split_char sep s) = S (count sep s).
Proof.
  induction s as [|x s IH]; simpl; [reflexivity|].
  destruct (char_eqb x sep); simpl; [rewrite IH; reflexivity|].
  destruct (split_char sep s); simpl in *; [discriminate | assumption].
Qed.

Lemma split_char_cons (sep : char) (s : str) :
  exists w ws, split_char sep s = w :: ws.
Proof.
  destruct (split_char sep s) as [|w ws] eqn:E.
  - pose proof (split_char_length sep s) as H. rewrite E in H. discriminate.
  - eauto.
Qed.

(** [s.replace(old, new) == new.join(s.split(old))]. *)
Lemma replace_char_join_split (old : char) (new s : str) :
  replace_char old new s = join new (split_char old s).
Proof.
  unfold replace_char.
  induction s as [|x s IH]; simpl; [reflexivity|].
  destruct (split_char_cons old s) as (w & ws & E).
  rewrite IH, E. destruct (char_eqb x old); simpl.
  - destruct ws; reflexivity.
  - destruct ws; reflexivity.
Qed.

Lemma Ok_inj {A} (a b : A) : Ok a = Ok b -> a = b.
Proof. congruence. Qed.

End PyFacts.

Import PyFacts.

(* ================================================================== *)
(** * Tone bands and the template fallback of simple_server.py *)
(* ================================================================== *)

Module FallbackFacts.

Import SimpleServer.

Lemma tones_distinct :
  formal_tone <> urgent_tone /\ formal_tone <> balanced_tone
  /\ urgent_tone <> balanced_tone.
Proof. repeat split; intros H; vm_compute in H; discriminate. Qed.

(** C4.  The pair (tone style, urgency level) that content generation
    derives from [tone_scale] depends on [tone_scale] alone and falls in
    exactly three bands: formal and low urgency up to 3, urgent with FOMO
    from 8 on, balanced and moderate in between.  At the boundaries 3 is
    formal, 4 and 7 are balanced, 8 is urgent. *)
Theorem tone_bands (tone_scale : Z) :
  (tone_of tone_scale = formal_tone <-> (tone_scale <= 3)%Z)
  /\ (tone_of tone_scale = urgent_tone <-> (8 <= tone_scale)%Z)
  /\ (tone_of tone_scale = balanced_tone <-> (4 <= tone_scale <= 7)%Z)
  /\ tone_of 3 = formal_tone
  /\ tone_of 4 = balanced_tone
  /\ tone_of 7 = balanced_tone
  /\ tone_of 8 = urgent_tone.
Proof.
  destruct tones_distinct as (Hfu & Hfb & Hub).
  unfold tone_of.
  destruct (Z.leb_spec tone_scale 3) as [H3|H3];
    [| destruct (Z.geb_spec tone_scale 8) as [H8|H8] ].
  all: repeat split; intros; try reflexivity; try lia; congruence.
Qed.

(** The fallback text follows the same three bands. *)
Lemma fallback_by_band (course city : str)
    (positions companies tone_scale variant_number : Z) (campaign_type : str) :
  let hook := select (hooks course city positions) variant_number in
  let value_prop := select value_props variant_number in
  let urgency := select urgency_elements variant_number in
  _generate_fallback_content course city positions companies tone_scale
    variant_number campaign_type =
  if (tone_scale <=? 3)%Z then
    formal_content course city positions companies hook value_prop
  else if (8 <=? tone_scale)%Z then
    urgent_content course city positions companies hook value_prop urgency
  else
    balanced_content course city positions companies hook value_prop urgency.
Proof.
  unfold _generate_fallback_content. cbv zeta.
  rewrite Z.geb_leb. reflexivity.
Qed.

(** *** Selection from the pools *)

Lemma pools_have_five (course city : str) (positions : Z) :
  List.length (hooks course city positions) = 5%nat
  /\ List.length value_props = 5%nat
  /\ List.length urgency_elements = 5%nat.
Proof. repeat split. Qed.

Lemma select_mod (pool : list str) (n : Z) :
  List.length pool = 5%nat -> select pool n = select pool (n mod 5).
Proof.
  intros H. unfold select. rewrite H.
  change (Z.of_nat 5) with 5%Z. rewrite Z.mod_mod by lia. reflexivity.
Qed.

(** The content is a function of the residue of [variant_number]. *)
Lemma fallback_mod (course city : str)
    (positions companies tone_scale n : Z) (campaign_type : str) :
  _generate_fallback_content course city positions companies tone_scale n
    campaign_type =
  _generate_fallback_content course city positions companies tone_scale
    (n mod 5) campaign_type.
Proof.
  unfold _generate_fallback_content.
  rewrite (select_mod (hooks course city positions) n),
          (select_mod value_props n), (select_mod urgency_elements n)
    by reflexivity.
  reflexivity.
Qed.

Lemma fallback_shift (course city : str)
    (positions companies tone_scale n : Z) (campaign_type : str) :
  _generate_fallback_content course city positions companies tone_scale
    (n + 5) campaign_type =
  _generate_fallback_content course city positions companies tone_scale n
    campaign_type.
Proof.
  rewrite (fallback_mod _ _ _ _ _ (n + 5)).
  rewrite (fallback_mod _ _ _ _ _ n). f_equal.
  replace (n + 5)%Z with (n + 1 * 5)%Z by lia. apply Z.mod_add. lia.
Qed.

Lemma fallback_among_five (course city : str)
    (positions companies tone_scale n : Z) (campaign_type : str) :
  In (_generate_fallback_content course city positions companies
        tone_scale n campaign_type)
     (map (fun k =>
             _generate_fallback_content course city positions companies
               tone_scale k campaign_type)
          [0; 1; 2; 3; 4]%Z).
Proof.
  rewrite fallback_mod.
  apply (in_map (fun k =>
                   _generate_fallback_content course city positions
                     companies tone_scale k campaign_type)).
  pose proof (Z.mod_pos_bound n 5 ltac:(lia)) as Hb.
  assert (n mod 5 = 0 \/ n mod 5 = 1 \/ n mod 5 = 2 \/ n mod 5 = 3
          \/ n mod 5 = 4)%Z as Hc by lia.
  simpl. intuition.
Qed.

(** C10.  The three pools have five entries each and are indexed by
    [variant_number mod 5], so the fallback content for [n + 5] is the
    content for [n], all else fixed; every fallback content is one of the
    five contents for 0 to 4: at most five distinct variants exist,
    however many are requested. *)
Theorem fallback_has_five_variants (course city : str)
    (positions companies tone_scale : Z) (campaign_type : str) (n : Z) :
  (List.length (hooks course city positions) = 5%nat
   /\ List.length value_props = 5%nat
   /\ List.length urgency_elements = 5%nat)
  /\ _generate_fallback_content course city positions companies tone_scale
       (n + 5) campaign_type
     = _generate_fallback_content course city positions companies tone_scale
         n campaign_type
  /\ In (_generate_fallback_content course city positions companies
           tone_scale n campaign_type)
        (map (fun k =>
                _generate_fallback_content course city positions companies
                  tone_scale k campaign_type)
             [0; 1; 2; 3; 4]%Z).
Proof.
  split; [apply pools_have_five|]. split.
  - apply fallback_shift.
  - apply fallback_among_five.
Qed.

(** *** Variants 1 and 2 *)

Lemma hook_1 (course city : str) (positions : Z) :
  select (hooks course city positions) 1 =
  128188 :: (py " " +++ city +++ py " professionals: Your " +++ course
             +++ py " moment is NOW!").
Proof. reflexivity. Qed.

Lemma hook_2 (course city : str) (positions : Z) :
  select (hooks course city positions) 2 =
  9889 :: (py " " +++ str_of_Z positions +++ py "+ " +++ course
           +++ py " opportunities just opened in " +++ city).
Proof. reflexivity. Qed.

Lemma hooks_1_2_differ (course city : str) (positions : Z) :
  select (hooks course city positions) 1
  <> select (hooks course city positions) 2.
Proof. rewrite hook_1, hook_2. intros H. discriminate H. Qed.

Lemma value_props_1_2_differ : select value_props 1 <> select value_props 2.
Proof. intros H. vm_compute in H. discriminate H. Qed.

Lemma fallback_1_2_differ (course city : str)
    (positions companies tone_scale : Z) (campaign_type : str) :
  _generate_fallback_content course city positions companies tone_scale 1
    campaign_type
  <> _generate_fallback_content course city positions companies tone_scale 2
       campaign_type.
Proof.
  unfold _generate_fallback_content. cbv zeta.
  rewrite hook_1, hook_2.
  destruct (tone_scale <=? 3)%Z; [| destruct (tone_scale >=? 8)%Z];
    unfold formal_content, urgent_content, balanced_content;
    intros H; simpl in H; discriminate H.
Qed.

End FallbackFacts.

(* ================================================================== *)
(** * The data engine of simple_server.py *)
(* ================================================================== *)

Module EngineFacts.

Import SimpleServer FallbackFacts.

Section WithTable.

Variables frame cell : Type.
Variable pd : Pandas frame cell.

(** *** City lookup *)


Lemma get_city_insights_returns (hiring_data : option frame) (city : str) :
  exists d, get_city_insights pd hiring_data city = Ok d.
Proof.
  unfold get_city_insights.
  destruct hiring_data as [df|]; simpl; [|eauto].
  destruct (insights_from_data pd df city) as [[d|]|e]; simpl; eauto.
Qed.


(** *** Content generation *)

Variable generate_text : prompt cell -> result str.
Variable generate_hindi : str -> result str.

(** Without a key the content is the template fallback. *)
Lemma generate_content_without_key (self : engine frame)
    (course city campaign_type : str) (kw : kwargs) :
  has_key self = false ->
  exists market_insights,
    get_city_insights pd (hiring_data self) city = Ok market_insights
    /\ generate_content pd generate_text generate_hindi self course city
         campaign_type kw =
       Ok (_generate_fallback_content course city
             (positions_available market_insights)
             (companies_hiring market_insights)
             (kw_get (kw_tone_scale kw) 5%Z)
             (kw_get (kw_variant_number kw) 1%Z) campaign_type).
Proof.
  intros Hkey.
  destruct (get_city_insights_returns (hiring_data self) city) as [d Hd].
  exists d. split; [assumption|].
  unfold generate_content. rewrite Hd. simpl. rewrite Hkey. reflexivity.
Qed.


(** C3.  Without a key the generator is in fallback mode: two runs for
    the same course, city, campaign type, tone scale and variant number
    over the same table return the same text, whatever the text service
    does in either run and whatever the other keywords are.  Variant
    numbers 1 and 2 select different hooks and different value
    propositions, and so give different texts. *)
Theorem fallback_mode_is_deterministic (self : engine frame)
    (generate_text' : prompt cell -> result str)
    (generate_hindi' : str -> result str)
    (course city campaign_type : str) (kw kw' : kwargs) :
  has_key self = false ->
  kw_tone_scale kw = kw_tone_scale kw' ->
  kw_variant_number kw = kw_variant_number kw' ->
  (exists content,
     generate_content pd generate_text generate_hindi self course city
       campaign_type kw = Ok content
     /\ generate_content pd generate_text' generate_hindi' self course city
          campaign_type kw' = Ok content)
  /\ (forall positions,
        select (hooks course city positions) 1
        <> select (hooks course city positions) 2)
  /\ select value_props 1 <> select value_props 2
  /\ (forall positions companies tone_scale,
        _generate_fallback_content course city positions companies
          tone_scale 1 campaign_type
        <> _generate_fallback_content course city positions companies
             tone_scale 2 campaign_type).
Proof.
  intros Hkey Htone Hvariant. split; [|split; [|split]].
  - destruct (get_city_insights_returns (hiring_data self) city) as [d Hd].
    eexists. split.
    + unfold generate_content. rewrite Hd. simpl. rewrite Hkey. reflexivity.
    + unfold generate_content. rewrite Hd. simpl. rewrite Hkey.
      rewrite Htone, Hvariant. reflexivity.
  - intros positions. apply hooks_1_2_differ.
  - apply value_props_1_2_differ.
  - intros. apply fallback_1_2_differ.
Qed.

(** *** The variants of a request *)

Lemma collect_ok {A B} (f : A -> B) (l : list A) :
  collect (map (fun a => Ok (f a)) l) = Ok (map f l).
Proof.
  induction l as [|a l IH]; simpl; [reflexivity|].
  rewrite IH. reflexivity.
Qed.

(** Without a key, a request for [n] variants gets the fallback texts for
    the variant numbers 1 to [min n 10]. *)
Lemma campaign_variants_without_key (self : engine frame) (r : request)
    (primary_city : str) (n : Z) :
  has_key self = false ->
  req_variants r = Some n ->
  n <> 0%Z ->
  exists market_insights,
    get_city_insights pd (hiring_data self) primary_city = Ok market_insights
    /\ campaign_variants pd generate_text generate_hindi self r primary_city =
       Ok (map (fun i =>
                  _generate_fallback_content (req_course r) primary_city
                    (positions_available market_insights)
                    (companies_hiring market_insights)
                    (req_tone_scale r) (i + 1)%Z (req_campaign_type r))
               (range (Z.min n 10))).
Proof.
  intros Hkey Hn Hnz.
  destruct (get_city_insights_returns (hiring_data self) primary_city)
    as [d Hd].
  exists d. split; [assumption|].
  unfold campaign_variants. rewrite Hn.
  destruct (Z.eqb_spec n 0); [contradiction|].
  rewrite <- collect_ok. f_equal. apply map_ext. intros i.
  unfold generate_content. rewrite Hd. simpl. rewrite Hkey. reflexivity.
Qed.

(** Of the up to ten variants of a request, at most five differ. *)
Lemma campaign_variants_among_five (self : engine frame) (r : request)
    (primary_city : str) (n : Z) (variants : list str) :
  has_key self = false ->
  req_variants r = Some n ->
  n <> 0%Z ->
  campaign_variants pd generate_text generate_hindi self r primary_city =
    Ok variants ->
  (List.length variants <= 10)%nat
  /\ exists five,
       List.length five = 5%nat
       /\ forall content, In content variants -> In content five.
Proof.
  intros Hkey Hn Hnz Hv.
  destruct (campaign_variants_without_key self r primary_city Hkey Hn Hnz)
    as (d & _ & Hc).
  rewrite Hc in Hv. injection Hv as <-. split.
  - rewrite length_map. unfold range. rewrite length_map, length_seq. lia.
  - exists (map (fun k =>
                   _generate_fallback_content (req_course r) primary_city
                     (positions_available d) (companies_hiring d)
                     (req_tone_scale r) k (req_campaign_type r))
                [0; 1; 2; 3; 4]%Z).
    split; [reflexivity|].
    intros content Hin. apply in_map_iff in Hin.
    destruct Hin as (i & <- & _).
    apply fallback_among_five.
Qed.

End WithTable.


(** "delhi" matches two rows of the sample table, the empty string all
    three. *)
Example delhi_from_the_table :
  get_city_insights Sheet.pandas (Some Sheet.sample) (py "delhi")
  = Ok {| positions_available := 150;
          companies_hiring := 2;
          avg_salary := SalaryCell (Sheet.Txt (py "10-20 LPA"));
          top_skills := default_skills;
          growth_rate := default_growth |}
  /\ get_city_insights Sheet.pandas (Some Sheet.sample) []
     = Ok {| positions_available := 190;
             companies_hiring := 3;
             avg_salary := SalaryCell (Sheet.Txt (py "10-20 LPA"));
             top_skills := default_skills;
             growth_rate := default_growth |}.
Proof. split; vm_compute; reflexivity. Qed.

(** Two runs over the sample table, one with a text service that would
    answer and one with a service that would fail. *)
Lemma fallback_mode_is_deterministic_witness :
  has_key Sheet.offline = false
  /\ kw_tone_scale Sheet.email_keywords = kw_tone_scale Sheet.social_keywords
  /\ kw_variant_number Sheet.email_keywords
     = kw_variant_number Sheet.social_keywords
  /\ generate_content Sheet.pandas (fun _ => Ok (py "text"))
       (fun _ => Ok (py "hindi")) Sheet.offline (py "AI/ML") (py "Pune")
       (py "email") Sheet.email_keywords
     = generate_content Sheet.pandas
         (fun _ => Raise (Exception (py "timeout")))
         (fun _ => Raise (Exception (py "timeout"))) Sheet.offline
         (py "AI/ML") (py "Pune") (py "email") Sheet.social_keywords.
Proof.
  repeat (split; [reflexivity|]).
  destruct (fallback_mode_is_deterministic Sheet.pandas
              (fun _ => Ok (py "text")) (fun _ => Ok (py "hindi"))
              Sheet.offline
              (fun _ => Raise (Exception (py "timeout")))
              (fun _ => Raise (Exception (py "timeout")))
              (py "AI/ML") (py "Pune") (py "email")
              Sheet.email_keywords Sheet.social_keywords
              eq_refl eq_refl eq_refl)
    as ((content & H1 & H2) & _).
  rewrite H1, H2. reflexivity.
Defined.

End EngineFacts.

(* ================================================================== *)
(** * The content generator of ai_engine.py *)
(* ================================================================== *)

Module GeneratorFacts.

Import AIEngine.

(** *** Parsing a text *)

Lemma parse_text (text course city : str) :
  exists email_subject email_body social_post call_to_action,
    _parse_ai_response (Text text) course city =
    Ok {| email_subject := slice_to 60 email_subject;
          email_body := email_body;
          social_post := slice_to 280 social_post;
          call_to_action := call_to_action;
          key_benefits := firstn 3 (parse_benefits text);
          predictions := None;
          regional_version := None;
          local_context := None |}.
Proof.
  unfold _parse_ai_response, as_text, bind, try_except.
  do 4 eexists. reflexivity.
Qed.

(** What is parsed from a text respects both limits. *)
Lemma parsed_text_within_limits (text course city : str) (c : content) :
  _parse_ai_response (Text text) course city = Ok c ->
  (List.length (email_subject c) <= 60)%nat
  /\ (List.length (social_post c) <= 280)%nat.
Proof.
  destruct (parse_text text course city) as (s & b & p & a & E).
  rewrite E. intros H. apply Ok_inj in H. subst c.
  cbn [email_subject social_post].
  split; apply slice_to_length.
Qed.

Lemma parse_benefits_length (text line : str) :
  benefits_match text = Some line ->
  List.length (parse_benefits text) = S (count 124 line).
Proof.
  intros H. unfold parse_benefits. rewrite H.
  rewrite length_map, split_char_length, count_strip; reflexivity.
Qed.

(** C5.  When the response has a BENEFITS line, [key_benefits] has three
    entries if the line has at least three items separated by [|], and as
    many entries as the line has items if these are fewer than three: the
    list is cut to three and never padded.  The items of a line are one
    more than its [|] characters. *)
Theorem benefits_cut_to_three_not_padded
    (ai_response course city line : str) :
  benefits_match ai_response = Some line ->
  exists c,
    _parse_ai_response (Text ai_response) course city = Ok c
    /\ ((3 <= S (count 124%N line))%nat ->
        List.length (key_benefits c) = 3%nat)
    /\ ((S (count 124%N line) < 3)%nat ->
        List.length (key_benefits c) = S (count 124 line)).
Proof.
  intros H.
  destruct (parse_text ai_response course city) as (s & b & p & a & E).
  eexists. split; [exact E|]. cbn [key_benefits].
  rewrite length_firstn, (parse_benefits_length _ H). lia.
Qed.

(** A response with four items and one with two. *)
Lemma benefits_cut_to_three_not_padded_witness :
  benefits_match
    (py "SUBJECT: Hi" +++ [10] +++ py "BENEFITS: Growth | Pay | Network | Fun")
  = Some (py "Growth | Pay | Network | Fun")
  /\ exists c,
       _parse_ai_response
         (Text (py "SUBJECT: Hi" +++ [10]
                +++ py "BENEFITS: Growth | Pay | Network | Fun"))
         (py "AI/ML") (py "Pune") = Ok c
       /\ List.length (key_benefits c) = 3%nat.
Proof.
  split; [reflexivity|].
  destruct (benefits_cut_to_three_not_padded
              (py "SUBJECT: Hi" +++ [10]
               +++ py "BENEFITS: Growth | Pay | Network | Fun")
              (py "AI/ML") (py "Pune") (line := py "Growth | Pay | Network | Fun")
              eq_refl) as (c & Hc & H3 & _).
  exists c. split; [exact Hc|]. apply H3. vm_compute. lia.
Defined.

Example two_benefits_stay_two :
  exists c,
    _parse_ai_response (Text (py "BENEFITS: Growth | Pay")) (py "AI/ML")
      (py "Pune") = Ok c
    /\ key_benefits c = [py "Growth"; py "Pay"].
Proof. eexists. split; reflexivity. Qed.

(** *** Where the BENEFITS line is found *)

Lemma search_skips {A} (m : str -> option A) (before rest : str) :
  (forall pre suf,
      before = pre ++ suf -> suf <> [] -> m (suf ++ rest) = None) ->
  search m (before ++ rest) = search m rest.
Proof.
  induction before as [|b before IH]; intros H; [reflexivity|].
  pose proof (H [] (b :: before) eq_refl ltac:(discriminate)) as H0.
  cbn [app] in H0. cbn [app search]. rewrite H0.
  apply IH. intros pre suf E Hs.
  apply (H (b :: pre) suf); [rewrite E; reflexivity | assumption].
Qed.

Lemma search_here {A} (m : str -> option A) (s : str) (r : A) :
  m s = Some r -> search m s = Some r.
Proof. intros H. destruct s; simpl; rewrite H; reflexivity. Qed.

Lemma match_label_app (label p q s : str) :
  match_label label p = Some q -> match_label label (p ++ s) = Some (q ++ s).
Proof.
  revert p. induction label as [|c label IH]; intros p; simpl.
  - intros H. apply (f_equal (fun o => match o with
                                       | Some x => Some (x ++ s)
                                       | None => None
                                       end)) in H. exact H.
  - destruct p as [|x p]; [discriminate|]. simpl.
    destruct (ci_eqb c x); [apply IH | discriminate].
Qed.

Lemma line_of_line (line after : str) :
  (forall x, In x line -> x <> 10) ->
  after = [] \/ (exists rest, after = 10 :: rest) ->
  line_of (line ++ after) = line.
Proof.
  intros Hl Ha. induction line as [|x line IH]; simpl.
  - destruct Ha as [-> | [rest ->]]; reflexivity.
  - destruct (N.eqb_spec x 10) as [E|_].
    + exfalso. apply (Hl x); [left; reflexivity | assumption].
    + f_equal. apply IH. intros y Hy. apply Hl. right. assumption.
Qed.

(** A response whose first BENEFITS label is followed by a space and a
    line of text: the line is what the search captures. *)
Lemma benefits_line_found (before line after : str) :
  (forall pre suf,
      before = pre ++ suf -> suf <> [] ->
      match_label (py "benefits:")
        (suf ++ py "BENEFITS: " ++ line ++ after) = None) ->
  (exists c l, line = c :: l /\ is_space c = false) ->
  (forall x, In x line -> x <> 10) ->
  after = [] \/ (exists rest, after = 10 :: rest) ->
  benefits_match (before ++ py "BENEFITS: " ++ line ++ after) = Some line.
Proof.
  intros Hbefore (c & l & Hline & Hc) Hnl Hafter.
  unfold benefits_match. rewrite search_skips.
  - apply search_here. unfold labelled.
    rewrite (match_label_app (py "benefits:") (py "BENEFITS: ")
               (q := py " ") (line ++ after) eq_refl).
    change (py " " ++ line ++ after) with (32 :: (line ++ after)).
    cbn [spaces_then]. change (is_space 32) with true. cbv iota.
    assert (Hg : spaces_then greedy_group (line ++ after) = Some line).
    { rewrite Hline. cbn [app spaces_then]. rewrite Hc.
      unfold greedy_group.
      change (c :: l ++ after) with ((c :: l) ++ after).
      rewrite <- Hline, (@line_of_line line after Hnl Hafter), Hline.
      reflexivity. }
    rewrite Hg. reflexivity.
  - intros pre suf E Hs. unfold labelled.
    rewrite (Hbefore pre suf E Hs). reflexivity.
Qed.

(** Such a response gets as many benefits as the line has items, up to
    three. *)
Lemma benefits_of_line (before line after course city : str) :
  (forall pre suf,
      before = pre ++ suf -> suf <> [] ->
      match_label (py "benefits:")
        (suf ++ py "BENEFITS: " ++ line ++ after) = None) ->
  (exists c l, line = c :: l /\ is_space c = false) ->
  (forall x, In x line -> x <> 10) ->
  after = [] \/ (exists rest, after = 10 :: rest) ->
  exists c,
    _parse_ai_response (Text (before ++ py "BENEFITS: " ++ line ++ after))
      course city = Ok c
    /\ List.length (key_benefits c) = Nat.min 3 (S (count 124 line)).
Proof.
  intros Hbefore Hline Hnl Hafter.
  pose proof (@benefits_line_found before line after Hbefore Hline Hnl
                Hafter) as Hm.
  destruct (parse_text (before ++ py "BENEFITS: " ++ line ++ after)
              course city) as (s & b & p & a & E).
  eexists. split; [exact E|]. cbn [key_benefits].
  rewrite length_firstn, (parse_benefits_length _ Hm). reflexivity.
Qed.

(** *** The template fallback *)

Lemma template_found (course city positions companies : str) :
  exists t,
    match lookup course (templates course city positions companies) with
    | Some t => Ok t
    | None =>
        match lookup (py "AI/ML")
                (templates course city positions companies) with
        | Some t => Ok t
        | None => Raise KeyError
        end
    end = Ok t.
Proof.
  unfold templates. cbn [lookup].
  destruct (str_eqb course (py "AI/ML")); [eexists; reflexivity|].
  destruct (str_eqb course (py "Data Science")); [eexists; reflexivity|].
  destruct (str_eqb course (py "Generative AI")); eexists; reflexivity.
Qed.

(** The fallback returns as soon as [city_data] is a dict. *)
Lemma fallback_returns (course city campaign_type : str)
    (market_context : market_context) (d : dict pyval) :
  ctx_get market_context (py "city_data") (EDict []) = EDict d ->
  exists fb,
    _generate_fallback_content course city campaign_type market_context
    = Ok fb.
Proof.
  intros H. unfold _generate_fallback_content. rewrite H.
  cbn [get bind].
  match goal with
  | |- context [templates course city ?p ?c] =>
      destruct (template_found course city p c) as [t Ht]
  end.
  rewrite Ht. cbn [bind]. eexists. reflexivity.
Qed.

(** It raises when [city_data] is anything else. *)
Lemma fallback_raises (course city campaign_type : str)
    (market_context : market_context) :
  (forall d,
      ctx_get market_context (py "city_data") (EDict []) <> EDict d) ->
  _generate_fallback_content course city campaign_type market_context
  = Raise AttributeError.
Proof.
  intros H. unfold _generate_fallback_content.
  destruct (ctx_get market_context (py "city_data") (EDict [])) as [d| |];
    [exfalso; apply (H d); reflexivity | reflexivity | reflexivity].
Qed.

Lemma parse_returns (ai_response : response) (course city : str) :
  exists parsed, _parse_ai_response ai_response course city = Ok parsed.
Proof.
  destruct ai_response as [text|c].
  - destruct (parse_text text course city) as (s & b & p & a & E). eauto.
  - unfold _parse_ai_response, as_text, bind, try_except.
    apply (fallback_returns course city (py "Email") [] (d := [])).
    reflexivity.
Qed.

(** The parser's own handler: what is no text is replaced by the fallback
    content for the campaign type "Email" and the empty market context. *)
Lemma parse_structured (c : content) (course city : str) :
  as_text (Structured c) = Raise TypeError
  /\ _parse_ai_response (Structured c) course city =
     _generate_fallback_content course city (py "Email") [].
Proof. split; reflexivity. Qed.

(** *** The pipeline, case by case *)

Lemma generate_cases (model : option (prompt -> result str))
    (now course city campaign_type : str) (market_context : market_context) :
  generate_campaign_content model now course city campaign_type
    market_context =
  let fallback :=
    _generate_fallback_content course city campaign_type market_context in
  match _create_content_prompt now course city campaign_type
          market_context with
  | Raise _ => fallback
  | Ok prompt =>
      match generated model course city campaign_type market_context
              prompt with
      | Raise _ => fallback
      | Ok ai_response =>
          match _parse_ai_response ai_response course city with
          | Raise _ => fallback
          | Ok parsed =>
              match _predict_performance course city campaign_type
                      market_context with
              | Raise _ => fallback
              | Ok p => Ok (set_predictions p parsed)
              end
          end
      end
  end.
Proof.
  unfold generate_campaign_content. cbv zeta.
  destruct (_create_content_prompt now course city campaign_type
              market_context) as [prompt|e]; [|reflexivity].
  cbn [bind].
  destruct (generated model course city campaign_type market_context
              prompt) as [ai_response|e]; [|reflexivity].
  cbn [bind].
  destruct (_parse_ai_response ai_response course city) as [parsed|e];
    [|reflexivity].
  cbn [bind].
  destruct (_predict_performance course city campaign_type market_context);
    reflexivity.
Qed.

Lemma gemini_result (m : prompt -> result str) (p : prompt) :
  _generate_with_gemini m p = m p.
Proof. unfold _generate_with_gemini. destruct (m p); reflexivity. Qed.

Local Ltac absurd_case :=
  match goal with
  | H : raises _ |- _ => destruct H as [? H]; congruence
  | _ => congruence
  end.

(** C1, as the code has it.  When [city_data] is absent from the market
    context or is a dict, content generation returns content and does not
    raise.  If prompt building, the request to the text service or the
    performance prediction raises, the content is the fallback content for
    the same course, city, campaign type and market context.  Otherwise it
    is what the parser returns, with the predictions added; an exception
    inside the parser is handled there, by the fallback content for the
    campaign type "Email" and the empty market context. *)
Theorem generation_returns_content (model : option (prompt -> result str))
    (now course city campaign_type : str) (market_context : market_context)
    (d : dict pyval) :
  ctx_get market_context (py "city_data") (EDict []) = EDict d ->
  exists fb c,
    _generate_fallback_content course city campaign_type market_context
      = Ok fb
    /\ generate_campaign_content model now course city campaign_type
         market_context = Ok c
    /\ (raises (_create_content_prompt now course city campaign_type
                  market_context) -> c = fb)
    /\ (forall m p,
          model = Some m ->
          _create_content_prompt now course city campaign_type
            market_context = Ok p ->
          raises (m p) -> c = fb)
    /\ (raises (_predict_performance course city campaign_type
                  market_context) -> c = fb)
    /\ (forall p ai_response pr,
          _create_content_prompt now course city campaign_type
            market_context = Ok p ->
          generated model course city campaign_type market_context p
            = Ok ai_response ->
          _predict_performance course city campaign_type market_context
            = Ok pr ->
          exists parsed,
            _parse_ai_response ai_response course city = Ok parsed
            /\ c = set_predictions pr parsed)
    /\ (forall ai_response,
          raises (as_text ai_response) ->
          _parse_ai_response ai_response course city
          = _generate_fallback_content course city (py "Email") []).
Proof.
  intros Hd.
  destruct (fallback_returns course city campaign_type market_context Hd)
    as [fb Hfb].
  assert (Hparse : forall ai_response,
             raises (as_text ai_response) ->
             _parse_ai_response ai_response course city
             = _generate_fallback_content course city (py "Email") []).
  { intros [text|c0] [e He]; [discriminate He | reflexivity]. }
  exists fb. rewrite generate_cases. cbv zeta. rewrite Hfb.
  destruct (_create_content_prompt now course city campaign_type
              market_context) as [p|e] eqn:Hp.
  2: { exists fb. repeat split; intros; try reflexivity; try absurd_case.
       apply Hparse; assumption. }
  destruct (generated model course city campaign_type market_context p)
    as [ai_response|e] eqn:Hg.
  2: { exists fb. repeat split; intros; try reflexivity; try absurd_case.
       apply Hparse; assumption. }
  destruct (parse_returns ai_response course city) as [parsed Hparsed].
  rewrite Hparsed.
  destruct (_predict_performance course city campaign_type market_context)
    as [pr|e] eqn:Hpr.
  2: { exists fb. repeat split; intros; try reflexivity; try absurd_case.
       apply Hparse; assumption. }
  exists (set_predictions pr parsed).
  split; [reflexivity|]. split; [reflexivity|].
  split; [intros; absurd_case|].
  split.
  { intros m p0 Hmodel Hp0 [e He]. subst model.
    apply Ok_inj in Hp0. subst p0.
    unfold generated in Hg. rewrite gemini_result, He in Hg.
    discriminate Hg. }
  split; [intros; absurd_case|].
  split; [|exact Hparse].
  intros p0 ai_response0 pr0 Hp0 Hg0 Hpr0.
  apply Ok_inj in Hp0. subst p0.
  rewrite Hg in Hg0. apply Ok_inj in Hg0. subst ai_response0.
  apply Ok_inj in Hpr0. subst pr0.
  exists parsed. split; [assumption | reflexivity].
Qed.

Lemma generation_returns_content_witness :
  ctx_get bangalore_market (py "city_data") (EDict []) =
    EDict [ (py "total_positions", PInt 2500);
            (py "companies_hiring", PInt 85) ]
  /\ exists fb,
       _generate_fallback_content (py "AI/ML") (py "Bangalore") (py "email")
         bangalore_market = Ok fb
       /\ generate_campaign_content (Some unavailable) (py "November 2026")
            (py "AI/ML") (py "Bangalore") (py "email") bangalore_market
          = Ok fb.
Proof.
  split; [reflexivity|].
  destruct (generation_returns_content (Some unavailable)
              (py "November 2026") (py "AI/ML") (py "Bangalore") (py "email")
              bangalore_market
              (d := [ (py "total_positions", PInt 2500);
                      (py "companies_hiring", PInt 85) ]) eq_refl)
    as (fb & c & Hfb & Hc & _ & Hservice & _).
  exists fb. split; [exact Hfb|].
  rewrite Hc. f_equal.
  eapply Hservice;
    [reflexivity | vm_compute; reflexivity | eexists; reflexivity].
Defined.

(** C1 as stated fails twice.  With [None] under [city_data] the prompt
    cannot be built and the fallback of the handler raises in turn, so the
    call raises.  With no text service the parser is handed the fallback
    dict, raises inside, and what comes back is built from the default
    figures (1000 positions), not from the market context of the call
    (2500). *)
Lemma generation_raises_or_drops_context :
  generate_campaign_content None (py "November 2026") (py "AI/ML")
    (py "Bangalore") (py "email") [(py "city_data", EVal PNone)]
  = Raise AttributeError
  /\ exists fb c,
       _generate_fallback_content (py "AI/ML") (py "Bangalore") (py "email")
         bangalore_market = Ok fb
       /\ as_text (Structured fb) = Raise TypeError
       /\ generate_campaign_content None (py "November 2026") (py "AI/ML")
            (py "Bangalore") (py "email") bangalore_market = Ok c
       /\ email_subject fb
          = py "Bangalore's AI Boom: 2500+ Jobs - Upskill Now!"
       /\ email_subject c
          = py "Bangalore's AI Boom: 1000+ Jobs - Upskill Now!"
       /\ c <> fb.
Proof.
  split; [vm_compute; reflexivity|].
  do 2 eexists.
  split; [vm_compute; reflexivity|].
  split; [reflexivity|].
  split; [vm_compute; reflexivity|].
  split; [vm_compute; reflexivity|].
  split; [vm_compute; reflexivity|].
  intros H. apply (f_equal email_subject) in H. vm_compute in H.
  discriminate H.
Qed.

(** C2 at a failing input.  With no text service and a city name of 26
    characters the subject of the returned content has 63 characters: the
    fallback content is returned as the templates give it, without the cut
    to 60 that parsed content gets.  The same content comes back when the
    text service fails. *)
Theorem fallback_subject_over_limit (now : str) :
  exists c,
    generate_campaign_content None now (py "AI/ML")
      (py "Thiruvananthapuram, Kerala") (py "email") [] = Ok c
    /\ generate_campaign_content (Some unavailable) now (py "AI/ML")
         (py "Thiruvananthapuram, Kerala") (py "email") []
       = Ok {| email_subject := email_subject c;
               email_body := email_body c;
               social_post := social_post c;
               call_to_action := call_to_action c;
               key_benefits := key_benefits c;
               predictions := None;
               regional_version := None;
               local_context := None |}
    /\ email_subject c
       = py "Thiruvananthapuram, Kerala's AI Boom: 1000+ Jobs - Upskill Now!"
    /\ List.length (email_subject c) = 63%nat.
Proof.
  eexists.
  split; [vm_compute; reflexivity|].
  split; [vm_compute; reflexivity|].
  split; vm_compute; reflexivity.
Qed.

(** With a text service that answers, both limits hold. *)
Lemma generated_text_within_limits (m : prompt -> result str)
    (now course city campaign_type : str) (market_context : market_context)
    (p : prompt) (text : str) (pr : prediction) (c : content) :
  _create_content_prompt now course city campaign_type market_context
    = Ok p ->
  m p = Ok text ->
  _predict_performance course city campaign_type market_context = Ok pr ->
  generate_campaign_content (Some m) now course city campaign_type
    market_context = Ok c ->
  (List.length (email_subject c) <= 60)%nat
  /\ (List.length (social_post c) <= 280)%nat.
Proof.
  intros Hp Hm Hpr. rewrite generate_cases. cbv zeta.
  rewrite Hp. unfold generated. rewrite gemini_result, Hm. cbn [bind].
  destruct (parse_returns (Text text) course city) as [parsed Hparsed].
  rewrite Hparsed, Hpr. intros H. apply Ok_inj in H. subst c.
  unfold set_predictions. cbn [email_subject social_post].
  apply (parsed_text_within_limits Hparsed).
Qed.

End GeneratorFacts.

(* ================================================================== *)
(** * The localizer of localization.py *)
(* ================================================================== *)

Module LocalizationFacts.

Import Localization.

(** *** Facts that hold for every entry of a table *)

Lemma lookup_In {V} (k : str) (d : dict V) (v : V) :
  lookup k d = Some v -> In (k, v) d.
Proof.
  induction d as [|[k' v'] d IH]; simpl; [discriminate|].
  destruct (str_eqb k k') eqn:E.
  - apply str_eqb_eq in E. subst k'. intros H. left. congruence.
  - intros H. right. auto.
Qed.

Lemma for_every_context (p : str * context -> bool) :
  forallb p city_contexts = true ->
  forall city context,
    lookup city city_contexts = Some context -> p (city, context) = true.
Proof.
  intros Hp city context H. apply lookup_In in H.
  rewrite forallb_forall in Hp. apply Hp. assumption.
Qed.

(** No context has a key ["city"]. *)
Lemma context_without_city (city : str) (context : context) :
  lookup city city_contexts = Some context ->
  lookup (py "city") context = None.
Proof.
  intros H.
  apply (for_every_context
           (fun kv => match lookup (py "city") (snd kv) with
                      | None => true
                      | Some _ => false
                      end)) in H; [|vm_compute; reflexivity].
  cbn [snd] in H. destruct (lookup (py "city") context); congruence.
Qed.

Lemma context_not_empty (city : str) (context : context) :
  lookup city city_contexts = Some context -> nonempty context = true.
Proof.
  intros H.
  apply (for_every_context (fun kv => nonempty (snd kv))) in H;
    [assumption | vm_compute; reflexivity].
Qed.

Lemma nickname_not_empty (city : str) (context : context) :
  lookup city city_contexts = Some context ->
  nonempty (get_str context (py "nickname") []) = true.
Proof.
  intros H.
  apply (for_every_context
           (fun kv => nonempty (get_str (snd kv) (py "nickname") []))) in H;
    [assumption | vm_compute; reflexivity].
Qed.

(** Bangalore is the one city whose market sentiment mentions high
    competition. *)
Lemma high_competition_city (city : str) (context : context) :
  lookup city city_contexts = Some context ->
  contains (py "high competition")
    (lower (get_str context (py "market_sentiment") []))
  = str_eqb city (py "Bangalore").
Proof.
  intros H.
  apply (for_every_context
           (fun kv =>
              Bool.eqb
                (contains (py "high competition")
                   (lower (get_str (snd kv) (py "market_sentiment") [])))
                (str_eqb (fst kv) (py "Bangalore")))) in H;
    [|vm_compute; reflexivity].
  apply eqb_prop in H. exact H.
Qed.

(** *** The subject *)

(** C8, as the code has it.  For every city with a context, subject
    localization appends " | " and the nickname when the nickname does not
    occur in the subject; then, when the market sentiment of the city
    mentions "high competition" in any case, every [!] of the subject is
    replaced by " - Act Fast!" (the subject is split at each [!] and
    joined again with that text); the result is cut to 60 characters last
    of all. *)
Theorem subject_localization (city subject : str) (context : context) :
  lookup city city_contexts = Some context ->
  _localize_subject subject context =
    slice_to 60
      (if contains (py "high competition")
            (lower (get_str context (py "market_sentiment") []))
       then
         join (py " - Act Fast!")
           (split_char 33
              (if contains (get_str context (py "nickname") []) subject
               then subject
               else subject +++ py " | "
                    +++ get_str context (py "nickname") []))
       else
         if contains (get_str context (py "nickname") []) subject
         then subject
         else subject +++ py " | " +++ get_str context (py "nickname") [])
  /\ (List.length (_localize_subject subject context) <= 60)%nat.
Proof.
  intros H. split; [|apply slice_to_length].
  unfold _localize_subject.
  rewrite (nickname_not_empty _ H). cbn [andb].
  rewrite <- replace_char_join_split.
  destruct (contains (get_str context (py "nickname") []) subject);
    reflexivity.
Qed.

Lemma subject_localization_witness :
  lookup (py "Bangalore") city_contexts = Some bangalore
  /\ _localize_subject (py "Go! Now!") bangalore
     = py "Go - Act Fast! Now - Act Fast! | Silicon Valley of India".
Proof.
  split; [reflexivity|].
  destruct (subject_localization (py "Bangalore") (py "Go! Now!")
              (context := bangalore) eq_refl) as [H _].
  rewrite H. vm_compute. reflexivity.
Defined.

(** C8 as stated fails: with two [!] in the subject, both are replaced
    for Bangalore, where the specification leaves the second one alone. *)
Lemma second_exclamation_replaced :
  lookup (py "Bangalore") city_contexts = Some bangalore
  /\ _localize_subject (py "Go! Now!") bangalore
     = py "Go - Act Fast! Now - Act Fast! | Silicon Valley of India"
  /\ Claimed.localize_subject_first_only (py "Go! Now!") bangalore
     = py "Go - Act Fast! Now! | Silicon Valley of India"
  /\ _localize_subject (py "Go! Now!") bangalore
     <> Claimed.localize_subject_first_only (py "Go! Now!") bangalore.
Proof.
  split; [reflexivity|].
  split; [vm_compute; reflexivity|].
  split; [vm_compute; reflexivity|].
  intros H. vm_compute in H. discriminate H.
Qed.

(** *** The regional version *)

(** Read from a context of the table, the city is the empty string, for
    which the phrase table has no entry. *)
Lemma regional_version_of_table_context (content : content) (city : str)
    (context : context) :
  lookup city city_contexts = Some context ->
  _create_regional_version content context = not_available.
Proof.
  intros H. unfold _create_regional_version, get_str.
  rewrite (context_without_city _ H). reflexivity.
Qed.

Section Social.

Variable is_word : char -> bool.

Lemma localized_regional_version (content : content) (city : str)
    (context : context) :
  lookup city city_contexts = Some context ->
  regional_version (localize_content is_word content city)
  = Some not_available.
Proof.
  intros H. unfold localize_content. rewrite H.
  pose proof (context_not_empty _ H) as Hne.
  destruct context as [|kv context']; [discriminate|].
  cbn [regional_version].
  rewrite (regional_version_of_table_context content _ H). reflexivity.
Qed.

(** C9 at a failing input.  Bangalore has an entry in the phrase table,
    for which the specification gives the sentence built from Namaskara,
    Avakasha, Vyavasaya and Safalate; localizing any content for Bangalore
    stores the "not available" marker instead.  The contexts carry no key
    ["city"], so the lookup in the phrase table is made with the empty
    string. *)
Theorem bangalore_regional_version_unavailable (content : content) :
  (exists context regional_lang,
     lookup (py "Bangalore") city_contexts = Some context
     /\ lookup (py "Bangalore") regional_languages = Some regional_lang
     /\ lookup (py "city") context = None
     /\ Claimed.regional_version_of (py "Bangalore") context
        = py "Namaskara! Silicon Valley of India mein Avakasha hai! Apna Vyavasaya transform karo aur Safalate pao upGrad ke saath!")
  /\ regional_version (localize_content is_word content (py "Bangalore"))
     = Some (py "Regional version not available for this city.").
Proof.
  split.
  - do 2 eexists.
    split; [vm_compute; reflexivity|].
    split; [vm_compute; reflexivity|].
    split; vm_compute; reflexivity.
  - destruct (lookup (py "Bangalore") city_contexts) as [context|] eqn:H;
      [|vm_compute in H; discriminate H].
    apply (localized_regional_version content _ H).
Qed.

End Social.

End LocalizationFacts.

(* ================================================================== *)
(** * The performance heuristic of ai_engine.py *)
(* ================================================================== *)

Module PredictorFacts.

Import AIEngine.

Local Open Scope Q_scope.








(** *** The numbers shown *)






(** *** From the market context to the prediction *)

(** The prediction is the formatted metrics for the market score found
    under [city_data], 5 when there is none. *)
Lemma predict_from_market_score (course city campaign_type : str)
    (market_context : market_context) (d : dict pyval) (s : Q)
    (m : metrics) :
  ctx_get market_context (py "city_data") (EDict []) = EDict d ->
  to_number match lookup (py "market_score") d with
            | Some v => v
            | None => PInt 5
            end = Ok s ->
  final_metrics course s = Ok m ->
  _predict_performance course city campaign_type market_context
  = Ok (format_metrics m).
Proof.
  intros Hd Hs Hm. unfold _predict_performance. rewrite Hd.
  cbn [get bind]. rewrite Hs. cbn [bind]. rewrite Hm. reflexivity.
Qed.




(** The figures for the scores 5 and 7.5 of an AI/ML campaign. *)
Example prediction_at_5_and_7_5 :
  (exists m, final_metrics (py "AI/ML") 5 = Ok m
             /\ format_metrics m
                = {| ctr := py "21.0%";
                     conversion_rate := py "8.1%";
                     roas := py "5.2x";
                     cost_per_conversion := [226; 8218; 185]%N +++ py "192" |})
  /\ (exists m, final_metrics (py "AI/ML") (15 # 2) = Ok m
                /\ format_metrics m
                   = {| ctr := py "23.1%";
                        conversion_rate := py "8.9%";
                        roas := py "5.7x";
                        cost_per_conversion :=
                          [226; 8218; 185]%N +++ py "174" |}).
Proof. split; eexists; split; vm_compute; reflexivity. Qed.

End PredictorFacts.

(* ================================================================== *)
(** * Hashtags, body and recommendations of localization.py *)
(* ================================================================== *)

Module SocialFacts.

Import Localization Recommendations LocalizationFacts.

Section Tags.

Variable is_word : char -> bool.

(** After the word characters of a tag have been dropped, what follows
    does not start with a word character. *)
Lemma remove_tags_after_tag (s : str) :
  match remove_tags is_word true s with
  | [] => True
  | x :: _ => is_word x = false
  end.
Proof.
  induction s as [|c s IH]; simpl; [exact I|].
  destruct (is_word c) eqn:Hc; [exact IH|].
  destruct ((c =? 35) && match s with
                        | d :: _ => is_word d
                        | [] => false
                        end); [exact IH | exact Hc].
Qed.

Lemma remove_tags_head (s : str) :
  match s with
  | [] => True
  | d :: _ => is_word d = false
  end ->
  match remove_tags is_word false s with
  | [] => True
  | x :: _ => is_word x = false
  end.
Proof.
  destruct s as [|d s]; simpl; [trivial|]. intros Hd.
  destruct ((d =? 35) && match s with
                        | e :: _ => is_word e
                        | [] => false
                        end); [apply remove_tags_after_tag | exact Hd].
Qed.

Lemma remove_tags_no_tag (skipping : bool) (s : str) :
  has_tag is_word (remove_tags is_word skipping s) = false.
Proof.
  revert skipping. induction s as [|c s IH]; intros skipping; [reflexivity|].
  cbn [remove_tags].
  destruct (skipping && is_word c); [apply IH|].
  destruct ((c =? 35) && match s with
                        | d :: _ => is_word d
                        | [] => false
                        end) eqn:Htag; [apply IH|].
  cbn [has_tag]. rewrite IH, orb_false_r.
  destruct (N.eqb_spec c 35) as [->|_]; [|reflexivity]. cbn [andb] in *.
  pose proof (remove_tags_head s) as Hh.
  destruct s as [|d s']; [reflexivity|].
  specialize (Hh Htag).
  destruct (remove_tags is_word false (d :: s')); [reflexivity | exact Hh].
Qed.

Lemma has_tag_prefix (a b : str) :
  has_tag is_word (a ++ b) = false -> has_tag is_word a = false.
Proof.
  induction a as [|c a IH]; [reflexivity|]. cbn [app has_tag].
  intros H. apply orb_false_iff in H. destruct H as [H1 H2].
  rewrite (IH H2), orb_false_r.
  destruct a; [apply andb_false_r | exact H1].
Qed.

Lemma has_tag_suffix (a b : str) :
  has_tag is_word (a ++ b) = false -> has_tag is_word b = false.
Proof.
  induction a as [|c a IH]; [trivial|]. cbn [app has_tag].
  intros H. apply orb_false_iff in H. apply IH, H.
Qed.

Lemma lstrip_suffix (s : str) : exists a, s = a ++ lstrip s.
Proof.
  induction s as [|c s [a IH]]; [exists []; reflexivity|]. simpl.
  destruct (is_space c).
  - exists (c :: a). simpl. congruence.
  - exists []. reflexivity.
Qed.

Lemma rstrip_prefix (s : str) : exists b, s = rstrip s ++ b.
Proof.
  unfold rstrip. destruct (lstrip_suffix (rev s)) as [a H].
  exists (rev a). rewrite <- rev_app_distr, <- H, rev_involutive.
  reflexivity.
Qed.

Lemma has_tag_strip (s : str) :
  has_tag is_word s = false -> has_tag is_word (strip s) = false.
Proof.
  intros H. unfold strip.
  destruct (lstrip_suffix s) as [a Ha].
  destruct (rstrip_prefix (lstrip s)) as [b Hb].
  rewrite Ha in H. apply has_tag_suffix in H.
  rewrite Hb in H. apply has_tag_prefix in H. exact H.
Qed.

(** A text without a tag is left as it is. *)
Lemma remove_tags_without_tag (s : str) :
  has_tag is_word s = false -> remove_tags is_word false s = s.
Proof.
  induction s as [|c s IH]; [reflexivity|]. cbn [has_tag remove_tags].
  intros H. apply orb_false_iff in H. destruct H as [H1 H2].
  cbn [andb]. rewrite H1, (IH H2). reflexivity.
Qed.

(** X1.  The social post of a city whose context lists hashtags: the
    hashtags the post came with are removed, the post is stripped, and the
    first three hashtags of the city follow after a space; a post that is
    still shorter than 200 characters also gets the first local reference,
    without its spaces, as one more hashtag.  What is left of the original
    post holds no [#] followed by a word character, removing the tags once
    more would change nothing, and the result has at most 280
    characters. *)
Theorem social_hashtags_replaced (social_post : str) (context : context)
    (h : str) (hs : list str) :
  get_list context (py "hashtags") = h :: hs ->
  has_tag is_word (strip (remove_tags is_word false social_post)) = false
  /\ remove_tags is_word false (remove_tags is_word false social_post)
     = remove_tags is_word false social_post
  /\ (exists tagged,
        tagged = strip (remove_tags is_word false social_post) +++ py " "
                 +++ join (py " ") (firstn 3 (h :: hs))
        /\ _localize_social is_word social_post context =
           slice_to 280
             (if (List.length tagged <? 200)%nat then
                match get_list context (py "local_references") with
                | r :: _ => tagged +++ py " #" +++ replace_char 32 [] r
                | [] => tagged
                end
              else tagged))
  /\ (List.length (_localize_social is_word social_post context) <= 280)%nat.
Proof.
  intros Hh.
  split; [apply has_tag_strip, remove_tags_no_tag|].
  split; [apply remove_tags_without_tag, remove_tags_no_tag|].
  split; [|apply slice_to_length].
  eexists. split; [reflexivity|].
  unfold _localize_social. rewrite Hh. reflexivity.
Qed.

End Tags.

Lemma social_hashtags_replaced_witness :
  get_list bangalore (py "hashtags")
  = [py "#BangaloreTech"; py "#SiliconValleyOfIndia"; py "#NammaOoru"]
  /\ _localize_social ascii_word (py "Learn AI #upGrad #AIJobs now ") bangalore
     = py "Learn AI   now #BangaloreTech #SiliconValleyOfIndia #NammaOoru #NammaMetro".
Proof.
  split; [reflexivity|].
  destruct (social_hashtags_replaced ascii_word
              (py "Learn AI #upGrad #AIJobs now ") bangalore
              (h := py "#BangaloreTech")
              (hs := [py "#SiliconValleyOfIndia"; py "#NammaOoru"]) eq_refl)
    as (_ & _ & (tagged & -> & H) & _).
  rewrite H. vm_compute. reflexivity.
Defined.

(** *** The body *)

Lemma localized_body_app (body : str) (context : context) :
  _localize_body body context = body +++ _localize_body [] context.
Proof.
  unfold _localize_body. cbv zeta.
  destruct (nonempty (get_list context (py "key_industries")));
    destruct (_get_relevant_events (get_str context (py "city") []));
    destruct (get_list context (py "local_references"));
    destruct (contains (py "family-friendly")
                (get_str context (py "work_culture") []));
    destruct (contains (py "fast-paced")
                (get_str context (py "work_culture") []));
    rewrite <- ?app_assoc, ?app_nil_r; reflexivity.
Qed.

(** X2.  Body localization only appends: the localized body is the body
    it was given followed by a text that depends on the city context
    alone.  So the body is kept whole at the start of the result, which is
    never shorter, whatever the context holds. *)
Theorem body_only_appended (body : str) (context : context) :
  _localize_body body context = body +++ _localize_body [] context
  /\ slice_to (List.length body) (_localize_body body context) = body
  /\ (List.length body <= List.length (_localize_body body context))%nat.
Proof.
  rewrite (localized_body_app body context). split; [reflexivity|]. split.
  - unfold slice_to. rewrite firstn_app, firstn_all, Nat.sub_diag.
    cbn [firstn]. apply app_nil_r.
  - rewrite length_app. lia.
Qed.

(** What is appended for a city of the table. *)
Lemma table_body_suffix (city : str) (context : context) :
  lookup city city_contexts = Some context ->
  _localize_body [] context =
    [10; 10] +++ py "With "
    +++ join (py ", ") (firstn 2 (get_list context (py "key_industries")))
    +++ py " leading " +++ get_str context (py "nickname") (py "the city")
    +++ py "'s growth" +++ py " in areas like "
    +++ hd [] (get_list context (py "local_references"))
    +++ (if str_eqb city (py "Hyderabad") then
           [10; 10]
           +++ py "Join thousands of professionals who've transformed their careers while maintaining work-life balance."
         else []).
Proof.
  intros H.
  apply (for_every_context
           (fun kv =>
              str_eqb (_localize_body [] (snd kv))
                ([10; 10] +++ py "With "
                 +++ join (py ", ")
                       (firstn 2 (get_list (snd kv) (py "key_industries")))
                 +++ py " leading "
                 +++ get_str (snd kv) (py "nickname") (py "the city")
                 +++ py "'s growth" +++ py " in areas like "
                 +++ hd [] (get_list (snd kv) (py "local_references"))
                 +++ (if str_eqb (fst kv) (py "Hyderabad") then
                        [10; 10]
                        +++ py "Join thousands of professionals who've transformed their careers while maintaining work-life balance."
                      else [])))) in H;
    [|vm_compute; reflexivity].
  apply str_eqb_eq in H. exact H.
Qed.

(** X3.  For every city with a context, the localized body is the body
    followed by the first two industries, the nickname and the first local
    reference of the city.  The clause on upcoming events is never added,
    although Bangalore, Mumbai and Delhi NCR have events of high relevance:
    the events are looked up under the key ["city"] of the context, which
    no context has.  The closing on work-life balance is added for
    Hyderabad alone, and the closing on the fast track for no city. *)
Theorem body_of_table_city (city body : str) (context : context) :
  lookup city city_contexts = Some context ->
  _localize_body body context =
    body +++ [10; 10] +++ py "With "
    +++ join (py ", ") (firstn 2 (get_list context (py "key_industries")))
    +++ py " leading " +++ get_str context (py "nickname") (py "the city")
    +++ py "'s growth" +++ py " in areas like "
    +++ hd [] (get_list context (py "local_references"))
    +++ (if str_eqb city (py "Hyderabad") then
           [10; 10]
           +++ py "Join thousands of professionals who've transformed their careers while maintaining work-life balance."
         else [])
  /\ _get_relevant_events (get_str context (py "city") []) = []
  /\ (lookup city local_events <> None -> _get_relevant_events city <> []).
Proof.
  intros H. split; [|split].
  - rewrite localized_body_app, (table_body_suffix _ H). reflexivity.
  - unfold get_str. rewrite (context_without_city _ H). reflexivity.
  - unfold _get_relevant_events, local_events. cbn [lookup].
    destruct (str_eqb city (py "Bangalore")); [intros _; discriminate|].
    destruct (str_eqb city (py "Mumbai")); [intros _; discriminate|].
    destruct (str_eqb city (py "Delhi NCR")); [intros _; discriminate|].
    intros N. contradiction.
Qed.

Lemma body_of_table_city_witness :
  lookup (py "Bangalore") city_contexts = Some bangalore
  /\ _localize_body (py "Hello.") bangalore
     = py "Hello." +++ [10; 10]
       +++ py "With IT Services, Startups leading Silicon Valley of India's growth in areas like Namma Metro".
Proof.
  split; [reflexivity|].
  destruct (body_of_table_city (py "Bangalore") (py "Hello.")
              (context := bangalore) eq_refl) as [H _].
  rewrite H. vm_compute. reflexivity.
Defined.

(** *** Recommendations *)

Lemma relevant_industry_In (industries : list str) (course industry : str) :
  _find_relevant_industry industries course = Some industry ->
  In industry industries.
Proof.
  unfold _find_relevant_industry. cbv zeta.
  match goal with
  | |- context [find ?p industries] => destruct (find p industries) eqn:F
  end.
  - intros E. injection E as <-. apply (find_some _ _ F).
  - destruct industries; [discriminate|].
    intros E. injection E as <-. left. reflexivity.
Qed.

Lemma relevant_industry_found (industry : str) (industries : list str)
    (course : str) :
  exists found, _find_relevant_industry (industry :: industries) course
                = Some found.
Proof.
  unfold _find_relevant_industry. cbv zeta.
  match goal with
  | |- context [find ?p ?l] => destruct (find p l)
  end; eauto.
Qed.



(** The tests made on a context of the table. *)
Lemma table_tests (city : str) (context : context) :
  lookup city city_contexts = Some context ->
  contains (py "fast-paced") (get_str context (py "work_culture") []) = false
  /\ contains (py "traditional") (get_str context (py "work_culture") [])
     = false
  /\ contains (py "tech-forward") (get_str context (py "cultural_tone") [])
     = false
  /\ (contains (py "traditional") (get_str context (py "cultural_tone") [])
      = true
      \/ contains (py "business") (get_str context (py "cultural_tone") [])
         = false)
  /\ nonempty (get_list context (py "key_industries")) = true
  /\ forallb nonempty (get_list context (py "key_industries")) = true.
Proof.
  intros H.
  apply (for_every_context
           (fun kv =>
              let work_culture := get_str (snd kv) (py "work_culture") [] in
              let cultural_tone := get_str (snd kv) (py "cultural_tone") [] in
              let industries := get_list (snd kv) (py "key_industries") in
              negb (contains (py "fast-paced") work_culture)
              && negb (contains (py "traditional") work_culture)
              && negb (contains (py "tech-forward") cultural_tone)
              && (contains (py "traditional") cultural_tone
                  || negb (contains (py "business") cultural_tone))
              && nonempty industries
              && forallb nonempty industries)) in H;
    [|vm_compute; reflexivity].
  cbv zeta in H. cbn [snd] in H.
  repeat match goal with
         | H : _ && _ = true |- _ => apply andb_true_iff in H; destruct H
         end.
  repeat match goal with
         | H : negb _ = true |- _ => apply negb_true_iff in H
         end.
  repeat split; try assumption.
  match goal with
  | H : _ || _ = true |- _ =>
      apply orb_true_iff in H; destruct H as [H|H];
      [left; exact H | right; apply negb_true_iff in H; exact H]
  end.
Qed.

(** X5.  The recommendations for the cities of the table.  A city without
    a context gets the error entry.  For every city with a context and
    every course the timing advice is the same, business hours and no
    weekends: no work culture of the table mentions "fast-paced" or
    "traditional" in lower case.  The platforms are LinkedIn, Facebook and
    Email or Instagram; the list with Twitter, given for a "tech-forward"
    tone, and the one with WhatsApp Business are never returned.  There are
    always two local hooks. *)
Theorem recommendations_of_table_city (city course : str) :
  match lookup city city_contexts with
  | None =>
      get_localization_recommendations city course
      = Error (py "No localization data available for " +++ city)
  | Some context =>
      exists r,
        get_localization_recommendations city course = Advice r
        /\ optimal_timing r
           = {| best_time := py "Business hours"; avoid := py "Weekends" |}
        /\ (platform_preferences r
            = [py "LinkedIn"; py "Facebook"; py "Email"]
            \/ platform_preferences r
               = [py "LinkedIn"; py "Facebook"; py "Instagram"])
        /\ List.length (local_hooks r) = 2%nat
  end.
Proof.
  unfold get_localization_recommendations.
  destruct (lookup city city_contexts) as [context|] eqn:H; [|reflexivity].
  pose proof (context_not_empty _ H) as Hne.
  destruct (table_tests _ H) as (Hfast & Htrad & Htech & Hplat & Hind & Hall).
  pose proof (nickname_not_empty _ H) as Hnick.
  destruct context as [|kv context']; [discriminate Hne|].
  eexists. split; [reflexivity|].
  cbn [optimal_timing platform_preferences local_hooks].
  split; [|split].
  - unfold _get_optimal_timing. cbv zeta. rewrite Hfast, Htrad. reflexivity.
  - unfold _get_platform_preferences. cbv zeta. rewrite Htech.
    destruct Hplat as [Ht|Hb]; [rewrite Ht; left; reflexivity|].
    rewrite Hb.
    destruct (contains (py "traditional")
                (get_str (kv :: context') (py "cultural_tone") []));
      [left | right]; reflexivity.
  - unfold _get_local_hooks. cbv zeta. rewrite Hnick, Hind.
    destruct (get_list (kv :: context') (py "key_industries"))
      as [|i l] eqn:Hl; [discriminate Hind|].
    destruct (relevant_industry_found i l course) as [found E].
    rewrite E.
    pose proof (relevant_industry_In _ _ E) as Hin.
    rewrite forallb_forall in Hall. specialize (Hall found Hin).
    destruct found; [discriminate Hall | reflexivity].
Qed.

End SocialFacts.

(* ================================================================== *)
(** * More on the content generator of ai_engine.py *)
(* ================================================================== *)

Module ParserFacts.

Import AIEngine GeneratorFacts.

(** *** A response without labels *)

Lemma ci_eqb_colon (c : char) : ci_eqb 58 c = true -> c = 58.
Proof.
  unfold ci_eqb. change (97 <=? 58) with false.
  change (58 =? 105) with false. change (58 =? 115) with false.
  cbn [andb]. intros H. rewrite !orb_false_r in H.
  apply N.eqb_eq in H. exact H.
Qed.

(** A label is matched by at least as many colons as it has. *)
Lemma match_label_colons (label s rest : str) :
  match_label label s = Some rest ->
  (count 58%N label <= count 58%N s)%nat.
Proof.
  revert s. induction label as [|p label IH]; intros s; simpl; [lia|].
  destruct s as [|c s]; [discriminate|].
  destruct (ci_eqb p c) eqn:E; [|discriminate].
  intros H. specialize (IH _ H). simpl.
  unfold char_eqb. destruct (N.eqb_spec p 58) as [->|Np].
  - apply ci_eqb_colon in E. subst c. rewrite N.eqb_refl. lia.
  - destruct (c =? 58); lia.
Qed.

Lemma search_without_colon (label : str) (group : str -> option str)
    (s : str) :
  (0 < count 58%N label)%nat ->
  count 58 s = 0%nat ->
  search (labelled label group) s = None.
Proof.
  intros Hl. induction s as [|c s IH]; intros Hs.
  - simpl. unfold labelled.
    destruct (match_label label []) eqn:E; [|reflexivity].
    apply match_label_colons in E. simpl in E. lia.
  - cbn [search]. unfold labelled at 1.
    destruct (match_label label (c :: s)) eqn:E.
    + apply match_label_colons in E. lia.
    + apply IH. simpl in Hs. destruct (char_eqb c 58); [discriminate | exact Hs].
Qed.

(** X6.  A response of the text service without any colon, the empty
    response among them, has none of the five labels: every field of the
    parsed content is the default written in the parser, the subject and
    the social post cut to 60 and 280 characters. *)
Theorem response_without_labels (ai_response course city : str) :
  count 58 ai_response = 0%nat ->
  _parse_ai_response (Text ai_response) course city =
  Ok {| email_subject :=
          slice_to 60
            (city +++ py " " +++ course
             +++ py " Opportunity - Transform Your Career!");
        email_body :=
          py "Exciting " +++ course +++ py " opportunities in " +++ city
          +++ py ". Join upGrad today!";
        social_post :=
          slice_to 280
            ([240; 376; 353; 8364] +++ py " " +++ course
             +++ py " opportunities in " +++ city +++ py "! #upGrad");
        call_to_action := py "Enroll Now - Limited Seats!";
        key_benefits :=
          [py "Career advancement"; py "Salary increase";
           py "Industry recognition"];
        predictions := None;
        regional_version := None;
        local_context := None |}.
Proof.
  intros H.
  unfold _parse_ai_response, as_text, parse_benefits, subject_match,
    body_match, social_match, cta_match, benefits_match.
  cbn [bind try_except].
  rewrite !search_without_colon by (assumption || (vm_compute; lia)).
  reflexivity.
Qed.

Lemma response_without_labels_witness :
  count 58 (py "I cannot help with that.") = 0%nat
  /\ exists c,
       _parse_ai_response (Text (py "I cannot help with that."))
         (py "AI/ML") (py "Pune") = Ok c
       /\ email_subject c
          = py "Pune AI/ML Opportunity - Transform Your Career!"
       /\ call_to_action c = py "Enroll Now - Limited Seats!".
Proof.
  split; [reflexivity|].
  eexists. split.
  - apply (response_without_labels (py "I cannot help with that.")
             (py "AI/ML") (py "Pune")). reflexivity.
  - split; reflexivity.
Defined.

(** *** When generation raises *)

Lemma prompt_needs_dict (now course city campaign_type : str)
    (market_context : market_context) :
  (forall d,
      ctx_get market_context (py "city_data") (EDict []) <> EDict d) ->
  _create_content_prompt now course city campaign_type market_context
  = Raise AttributeError.
Proof.
  intros H. unfold _create_content_prompt. cbv zeta.
  destruct (ctx_get market_context (py "city_data") (EDict [])) as [d| |];
    [exfalso; apply (H d); reflexivity | reflexivity | reflexivity].
Qed.

Lemma generation_raises_without_dict (model : option (prompt -> result str))
    (now course city campaign_type : str) (market_context : market_context) :
  (forall d,
      ctx_get market_context (py "city_data") (EDict []) <> EDict d) ->
  generate_campaign_content model now course city campaign_type
    market_context = Raise AttributeError.
Proof.
  intros H. rewrite generate_cases. cbv zeta.
  rewrite (prompt_needs_dict now course city campaign_type market_context H).
  apply fallback_raises. exact H.
Qed.

Lemma generation_returns_with_dict (model : option (prompt -> result str))
    (now course city campaign_type : str) (market_context : market_context)
    (d : dict pyval) :
  ctx_get market_context (py "city_data") (EDict []) = EDict d ->
  exists c,
    generate_campaign_content model now course city campaign_type
      market_context = Ok c.
Proof.
  intros Hd.
  destruct (fallback_returns course city campaign_type market_context Hd)
    as [fb Hfb].
  rewrite generate_cases. cbv zeta. rewrite Hfb.
  destruct (_create_content_prompt now course city campaign_type
              market_context) as [p|e]; [|eauto].
  destruct (generated model course city campaign_type market_context p)
    as [ai_response|e]; [|eauto].
  destruct (parse_returns ai_response course city) as [parsed Hparsed].
  rewrite Hparsed.
  destruct (_predict_performance course city campaign_type market_context);
    eauto.
Qed.

(** X7.  Content generation raises exactly when the market context holds
    something else than a dict under [city_data]; the exception is then
    the [AttributeError] of the failed [.get], raised a second time by the
    fallback inside the handler. *)
Theorem generation_raises_iff (model : option (prompt -> result str))
    (now course city campaign_type : str) (market_context : market_context) :
  (raises (generate_campaign_content model now course city campaign_type
             market_context)
   <-> forall d,
         ctx_get market_context (py "city_data") (EDict []) <> EDict d)
  /\ (raises (generate_campaign_content model now course city campaign_type
                market_context) ->
      generate_campaign_content model now course city campaign_type
        market_context = Raise AttributeError).
Proof.
  assert (Hiff : raises (generate_campaign_content model now course city
                           campaign_type market_context)
                 -> forall d,
                   ctx_get market_context (py "city_data") (EDict [])
                   <> EDict d).
  { intros [e He] d Hd.
    destruct (generation_returns_with_dict model now course city
                campaign_type market_context Hd) as [c Hc].
    congruence. }
  split; [split|].
  - exact Hiff.
  - intros H. exists AttributeError.
    apply generation_raises_without_dict, H.
  - intros H. apply generation_raises_without_dict, Hiff, H.
Qed.

(** *** When the prediction raises *)

Local Open Scope Q_scope.



End ParserFacts.

(* ================================================================== *)
(** * More on the data engine of simple_server.py *)
(* ================================================================== *)

Module ServiceFacts.

Import SimpleServer EngineFacts.

Section WithTable.

Variables frame cell : Type.
Variable pd : Pandas frame cell.
Variable generate_text : prompt cell -> result str.
Variable generate_hindi : str -> result str.

(** X9.  With a key, a failure of the text service is never passed on:
    when the request raises, the content is the template fallback for the
    same course, city, tone and variant.  The same holds when the language
    is Hindi or Multi and the second request, for the Hindi text, raises:
    the content the first request returned is dropped with it. *)
Theorem service_failure_gives_fallback (self : engine frame)
    (course city campaign_type : str) (kw : kwargs) :
  has_key self = true ->
  exists market_insights,
    get_city_insights pd (hiring_data self) city = Ok market_insights
    /\ forall fallback prompt,
      fallback = _generate_fallback_content course city
                   (positions_available market_insights)
                   (companies_hiring market_insights)
                   (kw_get (kw_tone_scale kw) 5%Z)
                   (kw_get (kw_variant_number kw) 1%Z) campaign_type ->
      prompt = make_prompt course city campaign_type
                 (positions_available market_insights)
                 (companies_hiring market_insights)
                 (avg_salary market_insights) kw ->
      (raises (generate_text prompt) ->
       generate_content pd generate_text generate_hindi self course city
         campaign_type kw = Ok fallback)
      /\ (forall ai_content,
            generate_text prompt = Ok ai_content ->
            str_eqb (kw_get (kw_language kw) (py "English")) (py "Hindi")
            || str_eqb (kw_get (kw_language kw) (py "English")) (py "Multi")
            = true ->
            raises (generate_hindi (slice_to 200 ai_content)) ->
            generate_content pd generate_text generate_hindi self course city
              campaign_type kw = Ok fallback).
Proof.
  intros Hkey.
  destruct (get_city_insights_returns pd (hiring_data self) city) as [d Hd].
  exists d. split; [assumption|].
  intros fallback prompt -> ->.
  unfold generate_content. rewrite Hd. cbn [bind]. cbv zeta. rewrite Hkey.
  split.
  - intros [e He]. rewrite He. reflexivity.
  - intros ai_content Hai Hlang [e He].
    rewrite Hai. cbn [bind]. rewrite Hlang, He. reflexivity.
Qed.

(** X10.  With a key and the language Hindi or Multi, when both requests
    return, the content is the text of the first request followed by a
    marker, at most 100 characters of the Hindi text and an ellipsis: the
    text of the first request is kept whole, and at most 108 characters
    are added to it. *)
Theorem hindi_text_appended (self : engine frame)
    (course city campaign_type : str) (kw : kwargs) :
  has_key self = true ->
  str_eqb (kw_get (kw_language kw) (py "English")) (py "Hindi")
  || str_eqb (kw_get (kw_language kw) (py "English")) (py "Multi") = true ->
  exists market_insights,
    get_city_insights pd (hiring_data self) city = Ok market_insights
    /\ forall ai_content hindi_text,
      generate_text
        (make_prompt course city campaign_type
           (positions_available market_insights)
           (companies_hiring market_insights)
           (avg_salary market_insights) kw) = Ok ai_content ->
      generate_hindi (slice_to 200 ai_content) = Ok hindi_text ->
      exists content,
        generate_content pd generate_text generate_hindi self course city
          campaign_type kw = Ok content
        /\ content = ai_content +++ [10; 10; 127470; 127475] +++ py " "
                     +++ slice_to 100 hindi_text +++ py "..."
        /\ slice_to (List.length ai_content) content = ai_content
        /\ (List.length content <= List.length ai_content + 108)%nat.
Proof.
  intros Hkey Hlang.
  destruct (get_city_insights_returns pd (hiring_data self) city) as [d Hd].
  exists d. split; [assumption|].
  intros ai_content hindi_text Hai Hhi.
  eexists. split; [|split; [reflexivity|split]].
  - unfold generate_content. rewrite Hd. cbn [bind]. cbv zeta.
    rewrite Hkey, Hai. cbn [bind]. rewrite Hlang, Hhi. reflexivity.
  - unfold slice_to at 1. rewrite firstn_app, firstn_all, Nat.sub_diag.
    cbn [firstn]. apply app_nil_r.
  - rewrite !length_app. pose proof (slice_to_length 100 hindi_text).
    cbn [List.length]. change (List.length (py " ")) with 1%nat.
    change (List.length (py "...")) with 3%nat. lia.
Qed.

(** *** The number of variants *)



End WithTable.

Lemma service_failure_gives_fallback_witness :
  has_key Samples.online = true
  /\ generate_content Sheet.pandas Samples.down Samples.hindi_answering
       Samples.online (py "AI/ML") (py "Pune") (py "email")
       Sheet.email_keywords
     = generate_content Sheet.pandas Samples.answering Samples.hindi_down
         Sheet.offline (py "AI/ML") (py "Pune") (py "email")
         Sheet.email_keywords.
Proof.
  split; [reflexivity|].
  destruct (service_failure_gives_fallback Sheet.pandas Samples.down
              Samples.hindi_answering Samples.online (py "AI/ML") (py "Pune")
              (py "email") Sheet.email_keywords eq_refl)
    as (mi & Hmi & H).
  destruct (H _ _ eq_refl eq_refl) as [Hdown _].
  rewrite Hdown by (eexists; reflexivity).
  vm_compute in Hmi. apply Ok_inj in Hmi. subst mi.
  vm_compute. reflexivity.
Defined.

Lemma hindi_text_appended_witness :
  has_key Samples.online = true
  /\ generate_content Sheet.pandas Samples.answering Samples.hindi_answering
       Samples.online (py "AI/ML") (py "Pune") (py "email")
       Samples.hindi_keywords
     = Ok (py "Upskill with upGrad today." +++ [10; 10; 127470; 127475]
           +++ py " "
           +++ [2310; 2332; 32; 2361; 2368; 32; 2360; 2368; 2326; 2375; 2306]
           +++ py "...").
Proof.
  split; [reflexivity|].
  destruct (hindi_text_appended Sheet.pandas Samples.answering
              Samples.hindi_answering Samples.online (py "AI/ML") (py "Pune")
              (py "email") Samples.hindi_keywords eq_refl eq_refl)
    as (mi & _ & H).
  destruct (H _ _ eq_refl eq_refl) as (content & E & -> & _).
  rewrite E. reflexivity.
Defined.

End ServiceFacts.

(* ================================================================== *)
(** * The campaign images of simple_server.py *)
(* ================================================================== *)

Module ImageFacts.

Import SimpleServer ImageService.

Section Generator.

Variable hash : str -> Z.
Variable _generate_with_stability_ai : str -> str -> result (option str).

Lemma split_two (sep : char) (s : str) :
  count sep s = 1%nat -> exists a b, split_char sep s = [a; b].
Proof.
  intros H. pose proof (split_char_length sep s) as L. rewrite H in L.
  destruct (split_char sep s) as [|a [|b [|c l]]]; try discriminate L.
  eauto.
Qed.

Lemma split_not_two (sep : char) (s : str) :
  count sep s <> 1%nat ->
  match split_char sep s with
  | [_; _] => False
  | _ => True
  end.
Proof.
  intros H. pose proof (split_char_length sep s) as L.
  destruct (split_char sep s) as [|a [|b [|c l]]]; try exact I.
  simpl in L. lia.
Qed.

(** The placeholder is built exactly for a size with one [x]. *)
Lemma placeholder_needs_one_x (course city style size : str) :
  (count 120 size = 1%nat ->
   exists image,
     _generate_placeholder_image hash course city style size = Ok image
     /\ image_url image <> [])
  /\ (count 120 size <> 1%nat ->
      _generate_placeholder_image hash course city style size
      = Raise ValueError).
Proof.
  unfold _generate_placeholder_image. split; intros H.
  - destruct (split_two _ _ H) as (w & h & E). rewrite E.
    eexists. split; [reflexivity|]. cbn [image_url].
    destruct (lookup style style_indices) as [[|[|[|i]]]|] eqn:Hs;
      cbn [nth]; try discriminate.
    exfalso. revert Hs. unfold style_indices. cbn [lookup].
    repeat match goal with
           | |- context [str_eqb ?a ?b] => destruct (str_eqb a b)
           end; discriminate.
  - pose proof (split_not_two _ _ H) as N.
    destruct (split_char 120 size) as [|a [|b [|c l]]];
      try reflexivity. contradiction.
Qed.

Lemma good_size_gives_image (stability_api_key : option str)
    (prompt course city style size : str) :
  count 120 size = 1%nat ->
  exists image,
    generate_image hash _generate_with_stability_ai stability_api_key
      prompt course city (Some style) (Some size) = Ok image
    /\ image_url image <> [].
Proof.
  intros H.
  destruct (placeholder_needs_one_x course city style size) as [Hone _].
  destruct (Hone H) as (image & E & U).
  unfold generate_image. cbn [kw_get]. cbv zeta.
  destruct stability_api_key as [[|k key]|]; [eauto | | eauto].
  match goal with
  | |- context [_generate_with_stability_ai ?p size] =>
      destruct (_generate_with_stability_ai p size) as [[[|u url]|]|e]
  end; cbn [bind try_except]; rewrite ?E; cbn [try_except]; eauto.
  eexists. split; [reflexivity|]. discriminate.
Qed.

(** X12.  Image generation and the size.  A size with exactly one [x]
    always gives an image with a URL, whatever the key and the Stability
    service.  Any other size gives the image of the Stability service when
    there is a key and the service stores one, and raises [ValueError]
    otherwise: the placeholder splits the size at [x] into a width and a
    height, also inside the handler of [generate_image]. *)
Theorem image_needs_width_and_height (stability_api_key : option str)
    (prompt course city style size : str) :
  (count 120 size = 1%nat ->
   exists image,
     generate_image hash _generate_with_stability_ai stability_api_key
       prompt course city (Some style) (Some size) = Ok image
     /\ image_url image <> [])
  /\ (count 120 size <> 1%nat ->
      (exists image,
          generate_image hash _generate_with_stability_ai stability_api_key
            prompt course city (Some style) (Some size) = Ok image
          /\ (exists k key, stability_api_key = Some (k :: key))
          /\ exists enhanced_prompt,
               _generate_with_stability_ai enhanced_prompt size
               = Ok (Some (image_url image)))
      \/ generate_image hash _generate_with_stability_ai stability_api_key
           prompt course city (Some style) (Some size) = Raise ValueError).
Proof.
  split; [apply good_size_gives_image|]. intros H.
  destruct (placeholder_needs_one_x course city style size) as [_ Hnot].
  specialize (Hnot H).
  unfold generate_image. cbn [kw_get]. cbv zeta.
  destruct stability_api_key as [[|k key]|]; [right; exact Hnot | |
                                              right; exact Hnot].
  match goal with
  | |- context [_generate_with_stability_ai ?p size] =>
      destruct (_generate_with_stability_ai p size) as [[[|u url]|]|e] eqn:S
  end; cbn [bind try_except]; rewrite ?Hnot; cbn [try_except];
    try (right; reflexivity).
  left. eexists. split; [reflexivity|]. split; [eauto|].
  eexists. exact S.
Qed.

(** *** The handler *)




End Generator.

Lemma image_needs_width_and_height_witness :
  generate_image (fun _ => 7%Z) Samples.no_image (Some (py "sk-sample"))
    (py "a banner") (py "AI/ML") (py "Pune") (Some (py "modern"))
    (Some (py "large")) = Raise ValueError
  /\ exists image,
       generate_image (fun _ => 7%Z) Samples.no_image (Some (py "sk-sample"))
         (py "a banner") (py "AI/ML") (py "Pune") (Some (py "modern"))
         (Some (py "1200x628")) = Ok image
       /\ image_url image <> [].
Proof.
  destruct (image_needs_width_and_height (fun _ => 7%Z) Samples.no_image
              (Some (py "sk-sample")) (py "a banner") (py "AI/ML")
              (py "Pune") (py "modern") (py "large")) as [_ Hbad].
  destruct (image_needs_width_and_height (fun _ => 7%Z) Samples.no_image
              (Some (py "sk-sample")) (py "a banner") (py "AI/ML")
              (py "Pune") (py "modern") (py "1200x628")) as [Hgood _].
  split.
  - destruct Hbad as [(image & _ & _ & p & S)|R];
      [vm_compute; discriminate | discriminate S | exact R].
  - apply Hgood. reflexivity.
Defined.


End ImageFacts.

(* ================================================================== *)
(** * The parser on the format the prompt asks for *)
(* ================================================================== *)

Module FormatFacts.

Import AIEngine GeneratorFacts ParserFacts ResponseFormat.

(** *** Where a label cannot start *)

Lemma match_label_compatible (label suf y r : str) :
  match_label label (suf ++ y) = Some r -> compatible label suf = true.
Proof.
  revert suf. induction label as [|p label IH]; intros suf; [reflexivity|].
  destruct suf as [|c suf]; [reflexivity|]. cbn [app match_label compatible].
  destruct (ci_eqb p c); [|discriminate]. intros H. apply (IH _ H).
Qed.

Lemma tails_In (s pre suf : str) :
  s = pre ++ suf -> suf <> [] -> In suf (tails s).
Proof.
  revert s. induction pre as [|x pre IH]; intros s -> Hs.
  - destruct suf; [contradiction|]. left. reflexivity.
  - cbn [app tails]. right. apply IH; [reflexivity | assumption].
Qed.

Lemma absent_spec (label head : str) :
  absent label head = true ->
  forall pre suf y,
    head = pre ++ suf -> suf <> [] -> match_label label (suf ++ y) = None.
Proof.
  intros H pre suf y E Hs. unfold absent in H. rewrite forallb_forall in H.
  specialize (H suf (tails_In _ E Hs)).
  destruct (match_label label (suf ++ y)) eqn:M; [|reflexivity].
  apply match_label_compatible in M. rewrite M in H. discriminate.
Qed.

Lemma ci_eqb_newline (p : char) : ci_eqb p 10 = true -> p = 10.
Proof.
  unfold ci_eqb.
  destruct (N.eqb_spec 10 p) as [E|_]; [intros _; symmetry; exact E|].
  destruct (N.leb_spec 97 p), (N.leb_spec p 122), (N.eqb_spec (10 + 32) p),
    (N.eqb_spec p 105), (N.eqb_spec p 115); cbn; try discriminate; lia.
Qed.

(** A label does not reach over the end of a line. *)
Lemma label_stops_at_newline (label t rest : str) :
  count 10%N label = 0%nat ->
  (0 < count 58%N label)%nat ->
  count 58%N t = 0%nat ->
  match_label label (t ++ 10 :: rest) = None.
Proof.
  revert label. induction t as [|c t IH]; intros label Hnl Hcolon Ht.
  - destruct label as [|p label]; [simpl in Hcolon; lia|].
    cbn [app match_label].
    destruct (ci_eqb p 10) eqn:E; [|reflexivity].
    apply ci_eqb_newline in E. subst p. simpl in Hnl. discriminate Hnl.
  - destruct label as [|p label]; [simpl in Hcolon; lia|].
    cbn [app match_label].
    destruct (ci_eqb p c) eqn:E; [|reflexivity].
    apply IH.
    + simpl in Hnl. destruct (char_eqb p 10); [discriminate | assumption].
    + simpl in Hcolon. unfold char_eqb in Hcolon.
      destruct (N.eqb_spec p 58) as [->|_]; [|assumption].
      apply ci_eqb_colon in E. subst c. simpl in Ht. discriminate Ht.
    + simpl in Ht. destruct (char_eqb c 58); [discriminate | assumption].
Qed.

Lemma count_app_zero (c : char) (a b : str) :
  count c (a ++ b) = 0%nat -> count c a = 0%nat /\ count c b = 0%nat.
Proof. rewrite count_app. lia. Qed.

(** A line of another label is passed over. *)
Lemma skip_segment (label : str) (group : str -> option str)
    (head field rest : str) :
  absent label head = true ->
  count 10%N label = 0%nat ->
  (0 < count 58%N label)%nat ->
  count 58%N field = 0%nat ->
  search (labelled label group) (head ++ field ++ [10] ++ rest)
  = search (labelled label group) rest.
Proof.
  intros Ha Hnl Hc Hf.
  replace (head ++ field ++ [10] ++ rest)
    with ((head ++ field ++ [10]) ++ rest)
    by (rewrite <- !app_assoc; reflexivity).
  apply search_skips. intros pre suf E Hs. unfold labelled.
  assert (M : match_label label (suf ++ rest) = None);
    [|rewrite M; reflexivity].
  symmetry in E. apply app_eq_app in E.
  destruct E as [l [[E1 E2]|[E1 E2]]].
  - destruct (exists_last Hs) as (t & a & ->).
    rewrite app_assoc in E2. apply app_inj_tail in E2.
    destruct E2 as [E2 <-]. subst field.
    apply count_app_zero in Hf. destruct Hf as [_ Hf].
    rewrite <- app_assoc. apply label_stops_at_newline; assumption.
  - subst suf. destruct l as [|x l].
    + cbn [app]. rewrite <- app_assoc.
      apply label_stops_at_newline; assumption.
    + rewrite <- app_assoc.
      eapply absent_spec; [exact Ha | exact E1 | discriminate].
Qed.

(** So is the last line. *)
Lemma last_segment (label : str) (group : str -> option str)
    (head field : str) :
  absent label head = true ->
  (0 < count 58%N label)%nat ->
  count 58%N field = 0%nat ->
  search (labelled label group) (head ++ field) = None.
Proof.
  intros Ha Hc Hf.
  assert (Hno : forall s, count 58%N s = 0%nat -> match_label label s = None).
  { intros s Hs. destruct (match_label label s) eqn:M; [|reflexivity].
    apply match_label_colons in M. lia. }
  rewrite <- (app_nil_r (head ++ field)). rewrite search_skips.
  - simpl. unfold labelled. rewrite Hno; reflexivity.
  - intros pre suf E Hs. rewrite app_nil_r. unfold labelled.
    assert (M : match_label label suf = None); [|rewrite M; reflexivity].
    symmetry in E. apply app_eq_app in E.
    destruct E as [l [[E1 E2]|[E1 E2]]].
    + subst field. apply count_app_zero in Hf. apply Hno, Hf.
    + subst suf. destruct l as [|x l]; [apply Hno, Hf|].
      eapply absent_spec; [exact Ha | exact E1 | discriminate].
Qed.

(** *** The groups *)

(** Without [re.DOTALL] the lazy group fails at the end of the line,
    unless what it looks ahead for comes before. *)
Lemma lazy_group_stops_at_newline (ahead : str -> bool) (t rest : str) :
  (forall pre t', t = pre ++ t' -> ahead (t' ++ 10 :: rest) = false) ->
  lazy_group false ahead (t ++ 10 :: rest) = None.
Proof.
  induction t as [|c t IH]; intros H; cbn [app lazy_group]; [reflexivity|].
  destruct (false || negb (c =? 10)); [|reflexivity].
  rewrite (H [c] t eq_refl), IH; [reflexivity|].
  intros pre t' E. apply (H (c :: pre)). rewrite E. reflexivity.
Qed.

(** With [re.DOTALL] it goes on to the next line. *)
Lemma lazy_group_dotall (ahead : str -> bool) (t rest : str) :
  (forall pre t', t = pre ++ t' -> ahead (t' ++ 10 :: rest) = false) ->
  ahead rest = true ->
  lazy_group true ahead (t ++ 10 :: rest) = Some (t ++ [10]).
Proof.
  intros H Hrest. induction t as [|c t IH]; cbn [app lazy_group orb].
  - rewrite Hrest. reflexivity.
  - rewrite (H [c] t eq_refl), IH; [reflexivity|].
    intros pre t' E. apply (H (c :: pre)). rewrite E. reflexivity.
Qed.

Lemma not_at_end (t : str) (x : char) (rest : str) :
  at_end (t ++ 10 :: x :: rest) = false.
Proof. destruct t as [|a [|b t]]; reflexivity. Qed.

Lemma nothing_ahead (label t : str) (x : char) (rest : str) :
  count 10%N label = 0%nat ->
  (0 < count 58%N label)%nat ->
  count 58%N t = 0%nat ->
  at_label label (t ++ 10 :: x :: rest) || at_end (t ++ 10 :: x :: rest)
  = false.
Proof.
  intros Hnl Hc Ht. unfold at_label.
  rewrite label_stops_at_newline by assumption. apply not_at_end.
Qed.

(** *** Plain fields *)

Lemma lstrip_length (s : str) : (List.length (lstrip s) <= List.length s)%nat.
Proof.
  induction s as [|c s IH]; simpl; [lia|].
  destruct (is_space c); simpl; lia.
Qed.

Lemma rstrip_length (s : str) : (List.length (rstrip s) <= List.length s)%nat.
Proof.
  unfold rstrip. rewrite length_rev.
  pose proof (lstrip_length (rev s)) as H. rewrite length_rev in H. exact H.
Qed.

Lemma stripped_head (c : char) (l : str) :
  strip (c :: l) = c :: l -> is_space c = false.
Proof.
  intros H. destruct (is_space c) eqn:E; [|reflexivity]. exfalso.
  apply (f_equal (@List.length char)) in H. unfold strip in H.
  cbn [lstrip] in H. rewrite E in H.
  pose proof (rstrip_length (lstrip l)). pose proof (lstrip_length l).
  simpl in H. lia.
Qed.

Lemma plain_field (field : str) :
  plain field = true ->
  strip field = field
  /\ count 58%N field = 0%nat
  /\ exists c l, field = c :: l /\ is_space c = false.
Proof.
  unfold plain. intros H.
  apply andb_true_iff in H. destruct H as [H Hc].
  apply andb_true_iff in H. destruct H as [Hn Hs].
  apply str_eqb_eq in Hs. apply Nat.eqb_eq in Hc.
  split; [assumption|]. split; [assumption|].
  destruct field as [|c l]; [discriminate Hn|].
  exists c, l. split; [reflexivity|]. apply (stripped_head Hs).
Qed.

Lemma strip_with_newline (c : char) (l : str) :
  is_space c = false ->
  strip (c :: l) = c :: l ->
  strip ((c :: l) ++ [10]) = c :: l.
Proof.
  intros Hc Hs. unfold strip in *. cbn [app lstrip] in *. rewrite Hc in *.
  unfold rstrip in *.
  change (c :: l ++ [10]) with ((c :: l) ++ [10]).
  rewrite rev_app_distr. cbn [rev app lstrip].
  change (is_space 10) with true. cbv iota. exact Hs.
Qed.

(** *** The five searches *)

Section Response.

Variables subject body social cta benefits : str.

Hypothesis plain_subject : plain subject = true.
Hypothesis plain_body : plain body = true.
Hypothesis plain_social : plain social = true.
Hypothesis plain_cta : plain cta = true.
Hypothesis plain_benefits : plain benefits = true.
Hypothesis one_line_subject : one_line subject = true.
Hypothesis one_line_benefits : one_line benefits = true.

Lemma no_newline (field : str) :
  one_line field = true -> forall x, In x field -> x <> 10.
Proof.
  unfold one_line. intros H x Hin ->. apply Nat.eqb_eq in H.
  induction field as [|c field IH]; [contradiction|].
  simpl in H. destruct Hin as [->|Hin].
  - change (char_eqb 10 10) with true in H. discriminate H.
  - destruct (char_eqb c 10); [discriminate H | auto].
Qed.

Lemma subject_found :
  subject_match (formatted subject body social cta benefits) = Some subject.
Proof.
  destruct (@plain_field _ plain_subject) as (_ & _ & c & l & E & Hc).
  unfold subject_match, formatted. apply search_here. unfold labelled.
  rewrite (match_label_app (py "subject:") (py "SUBJECT: ") (q := py " ")
             _ eq_refl).
  change (py " " ++ ?x) with (32 :: x).
  cbn [spaces_then]. change (is_space 32) with true. cbv iota.
  assert (G : spaces_then greedy_group
                (subject +++ [10]
                 +++ py "BODY: " +++ body +++ [10]
                 +++ py "SOCIAL: " +++ social +++ [10]
                 +++ py "CTA: " +++ cta +++ [10]
                 +++ py "BENEFITS: " +++ benefits) = Some subject).
  { rewrite E. cbn [app spaces_then]. rewrite Hc. unfold greedy_group.
    change (c :: l ++ ?x) with ((c :: l) ++ x). rewrite <- E.
    rewrite (@line_of_line subject _ (@no_newline _ one_line_subject));
      [rewrite E; reflexivity|].
    right. eexists. reflexivity. }
  rewrite G. reflexivity.
Qed.

Lemma body_found :
  body_match (formatted subject body social cta benefits)
  = Some (body +++ [10]).
Proof.
  destruct (@plain_field _ plain_subject) as (_ & Hs & _).
  destruct (@plain_field _ plain_body) as (_ & Hb & c & l & E & Hc).
  unfold body_match, formatted.
  rewrite skip_segment by (assumption || reflexivity || (vm_compute; lia)).
  apply search_here. unfold labelled.
  rewrite (match_label_app (py "body:") (py "BODY: ") (q := py " ")
             _ eq_refl).
  change (py " " ++ ?x) with (32 :: x).
  cbn [spaces_then]. change (is_space 32) with true. cbv iota.
  match goal with
  | |- match spaces_then ?g ?x with _ => _ end = _ =>
      assert (G : spaces_then g x = Some (body +++ [10]))
  end.
  { rewrite E at 1. cbn [app spaces_then]. rewrite Hc.
    change (c :: l ++ ?x) with ((c :: l) ++ x). rewrite <- E.
    change (py "SOCIAL: " +++ ?x) with (83 :: py "OCIAL: " +++ x).
    change ([10] +++ ?x) with (10 :: x).
    apply lazy_group_dotall.
    - intros pre t' Et. cbv beta.
      apply nothing_ahead; [reflexivity | vm_compute; lia|].
      rewrite Et in Hb. apply count_app_zero in Hb. apply Hb.
    - reflexivity. }
  rewrite G. reflexivity.
Qed.

Lemma social_lost :
  social_match (formatted subject body social cta benefits) = None.
Proof.
  destruct (@plain_field _ plain_subject) as (_ & Hs & _).
  destruct (@plain_field _ plain_body) as (_ & Hb & _).
  destruct (@plain_field _ plain_social) as (_ & Hp & c & l & E & Hc).
  destruct (@plain_field _ plain_cta) as (_ & Hcta & _).
  destruct (@plain_field _ plain_benefits) as (_ & Hbe & _).
  unfold social_match, formatted.
  do 2 rewrite skip_segment
    by (assumption || reflexivity || (vm_compute; lia)).
  change (py "SOCIAL: " +++ ?x) with (83 :: py "OCIAL: " +++ x).
  cbn [search].
  match goal with
  | |- match labelled ?lab ?g ?x with _ => _ end = _ =>
      assert (G : labelled lab g x = None)
  end.
  { unfold labelled.
    change (83 :: py "OCIAL: " +++ ?x) with (py "SOCIAL: " +++ x).
    rewrite (match_label_app (py "social:") (py "SOCIAL: ") (q := py " ")
               _ eq_refl).
    change (py " " ++ ?x) with (32 :: x).
    change (py "CTA: " +++ ?x) with (67 :: py "TA: " +++ x).
    cbn [spaces_then]. change (is_space 32) with true. cbv iota.
    rewrite E at 1. cbn [app spaces_then]. rewrite Hc.
    change (c :: l ++ ?x) with ((c :: l) ++ x). rewrite <- E.
    rewrite lazy_group_stops_at_newline.
    - change (32 :: social ++ ?x) with ((32 :: social) ++ x).
      apply lazy_group_stops_at_newline.
      intros pre t' Et. cbv beta.
      apply nothing_ahead; [reflexivity | vm_compute; lia|].
      assert (H32 : count 58%N (32 :: social) = 0%nat) by exact Hp.
      rewrite Et in H32. apply count_app_zero in H32. apply H32.
    - intros pre t' Et. cbv beta.
      apply nothing_ahead; [reflexivity | vm_compute; lia|].
      rewrite Et in Hp. apply count_app_zero in Hp. apply Hp. }
  rewrite G.
  rewrite skip_segment by (assumption || reflexivity || (vm_compute; lia)).
  rewrite skip_segment by (assumption || reflexivity || (vm_compute; lia)).
  apply last_segment; (assumption || reflexivity || (vm_compute; lia)).
Qed.

Lemma cta_lost :
  cta_match (formatted subject body social cta benefits) = None.
Proof.
  destruct (@plain_field _ plain_subject) as (_ & Hs & _).
  destruct (@plain_field _ plain_body) as (_ & Hb & _).
  destruct (@plain_field _ plain_social) as (_ & Hp & _).
  destruct (@plain_field _ plain_cta) as (_ & Hcta & c & l & E & Hc).
  destruct (@plain_field _ plain_benefits) as (_ & Hbe & _).
  unfold cta_match, formatted.
  do 3 rewrite skip_segment
    by (assumption || reflexivity || (vm_compute; lia)).
  change (py "CTA: " +++ ?x) with (67 :: py "TA: " +++ x).
  cbn [search].
  match goal with
  | |- match labelled ?lab ?g ?x with _ => _ end = _ =>
      assert (G : labelled lab g x = None)
  end.
  { unfold labelled.
    change (67 :: py "TA: " +++ ?x) with (py "CTA: " +++ x).
    rewrite (match_label_app (py "cta:") (py "CTA: ") (q := py " ")
               _ eq_refl).
    change (py " " ++ ?x) with (32 :: x).
    change (py "BENEFITS: " +++ ?x) with (66 :: py "ENEFITS: " +++ x).
    cbn [spaces_then]. change (is_space 32) with true. cbv iota.
    rewrite E at 1. cbn [app spaces_then]. rewrite Hc.
    change (c :: l ++ ?x) with ((c :: l) ++ x). rewrite <- E.
    rewrite lazy_group_stops_at_newline.
    - change (32 :: cta ++ ?x) with ((32 :: cta) ++ x).
      apply lazy_group_stops_at_newline.
      intros pre t' Et. cbv beta.
      apply nothing_ahead; [reflexivity | vm_compute; lia|].
      assert (H32 : count 58%N (32 :: cta) = 0%nat) by exact Hcta.
      rewrite Et in H32. apply count_app_zero in H32. apply H32.
    - intros pre t' Et. cbv beta.
      apply nothing_ahead; [reflexivity | vm_compute; lia|].
      rewrite Et in Hcta. apply count_app_zero in Hcta. apply Hcta. }
  rewrite G.
  rewrite skip_segment by (assumption || reflexivity || (vm_compute; lia)).
  apply last_segment; (assumption || reflexivity || (vm_compute; lia)).
Qed.

Lemma benefits_found :
  benefits_match (formatted subject body social cta benefits)
  = Some benefits.
Proof.
  destruct (@plain_field _ plain_subject) as (_ & Hs & _).
  destruct (@plain_field _ plain_body) as (_ & Hb & _).
  destruct (@plain_field _ plain_social) as (_ & Hp & _).
  destruct (@plain_field _ plain_cta) as (_ & Hcta & _).
  destruct (@plain_field _ plain_benefits) as (_ & Hbe & c & l & E & Hc).
  unfold benefits_match, formatted.
  do 4 rewrite skip_segment
    by (assumption || reflexivity || (vm_compute; lia)).
  apply search_here. unfold labelled.
  rewrite (match_label_app (py "benefits:") (py "BENEFITS: ") (q := py " ")
             _ eq_refl).
  change (py " " ++ ?x) with (32 :: x).
  cbn [spaces_then]. change (is_space 32) with true. cbv iota.
  assert (G : spaces_then greedy_group benefits = Some benefits).
  { rewrite E. cbn [spaces_then]. rewrite Hc. unfold greedy_group.
    rewrite <- E. rewrite <- (app_nil_r benefits) at 1.
    rewrite (@line_of_line benefits [] (@no_newline _ one_line_benefits));
      [rewrite E; reflexivity|].
    left. reflexivity. }
  rewrite G. reflexivity.
Qed.

End Response.

(** X14.  The parser on a response in the format the prompt asks for: five
    lines, each with its label, a space and its field, the fields not
    empty, without whitespace at their ends and without a colon, the
    subject and the benefits on one line.  The subject (cut to 60
    characters), the body and the benefits (the first three items, each
    stripped) are taken from the response.  The social post and the call
    to action of the response are lost: their patterns have no
    [re.DOTALL], so the lazy group cannot reach the label of the next
    line, and both fields get the default texts of the parser. *)
Theorem requested_format_loses_social_and_cta
    (subject body social cta benefits course city : str) :
  plain subject = true ->
  plain body = true ->
  plain social = true ->
  plain cta = true ->
  plain benefits = true ->
  one_line subject = true ->
  one_line benefits = true ->
  _parse_ai_response (Text (formatted subject body social cta benefits))
    course city =
  Ok {| email_subject := slice_to 60 subject;
        email_body := body;
        social_post :=
          slice_to 280
            ([240; 376; 353; 8364] +++ py " " +++ course
             +++ py " opportunities in " +++ city +++ py "! #upGrad");
        call_to_action := py "Enroll Now - Limited Seats!";
        key_benefits := firstn 3 (map strip (split_char 124 benefits));
        predictions := None;
        regional_version := None;
        local_context := None |}.
Proof.
  intros Hs Hb Hp Hc Hbe Ls Lbe.
  unfold _parse_ai_response, as_text, parse_benefits.
  cbn [bind try_except].
  rewrite subject_found by assumption.
  rewrite body_found by assumption.
  rewrite social_lost by assumption.
  rewrite cta_lost by assumption.
  rewrite benefits_found by assumption.
  destruct (@plain_field _ Hs) as (Ss & _).
  destruct (@plain_field _ Hb) as (Sb & _ & c & l & E & Hsp).
  destruct (@plain_field _ Hbe) as (Sbe & _).
  rewrite Ss, Sbe.
  assert (B : strip (body +++ [10]) = body).
  { rewrite E. apply strip_with_newline; [assumption|]. rewrite <- E.
    exact Sb. }
  rewrite B. reflexivity.
Qed.

Lemma requested_format_loses_social_and_cta_witness :
  exists c,
    _parse_ai_response
      (Text (py "SUBJECT: Pune needs you" +++ [10]
             +++ py "BODY: Jobs are up." +++ [10]
             +++ py "SOCIAL: Upskill now #upGrad" +++ [10]
             +++ py "CTA: Apply today" +++ [10]
             +++ py "BENEFITS: Growth | Pay"))
      (py "AI/ML") (py "Pune") = Ok c
    /\ email_subject c = py "Pune needs you"
    /\ email_body c = py "Jobs are up."
    /\ social_post c
       = [240; 376; 353; 8364] +++ py " AI/ML opportunities in Pune! #upGrad"
    /\ call_to_action c = py "Enroll Now - Limited Seats!"
    /\ key_benefits c = [py "Growth"; py "Pay"].
Proof.
  eexists. split.
  - apply (requested_format_loses_social_and_cta
             (py "Pune needs you") (py "Jobs are up.")
             (py "Upskill now #upGrad") (py "Apply today")
             (py "Growth | Pay") (py "AI/ML") (py "Pune"));
      reflexivity.
  - repeat split; reflexivity.
Defined.

End FormatFacts.

(* ================================================================== *)
(** * The settings of config.py *)
(* ================================================================== *)

Module ConfigFacts.

Import Config.

Lemma split_char_without (sep : char) (s : str) :
  count sep s = 0%nat -> split_char sep s = [s].
Proof.
  induction s as [|c s IH]; simpl; [reflexivity|].
  destruct (char_eqb c sep); [discriminate|].
  intros H. rewrite (IH H). reflexivity.
Qed.

Lemma split_char_app (sep : char) (a b : str) :
  count sep a = 0%nat ->
  split_char sep (a ++ sep :: b) = a :: split_char sep b.
Proof.
  induction a as [|c a IH]; simpl.
  - intros _. unfold char_eqb. rewrite N.eqb_refl. reflexivity.
  - destruct (char_eqb c sep); [discriminate|].
    intros H. rewrite (IH H). reflexivity.
Qed.

(** [sep.join(names).split(sep) == names] for names without [sep]. *)
Lemma split_join (sep : char) (names : list str) :
  names <> [] ->
  Forall (fun n => count sep n = 0%nat) names ->
  split_char sep (join [sep] names) = names.
Proof.
  induction names as [|n names IH]; [contradiction|]. intros _ H.
  inversion H as [|? ? Hn Hrest]; subst.
  destruct names as [|m names].
  - simpl. apply split_char_without; assumption.
  - change (join [sep] (n :: m :: names))
      with (n ++ sep :: join [sep] (m :: names)).
    rewrite split_char_app by assumption.
    rewrite IH; [reflexivity | discriminate | assumption].
Qed.

(** X15.  The validator of [supported_cities] accepts every text: the
    text is split at its commas and every part is stripped, which gives
    one part more than there are commas.  The check for at least one city
    never fires; the empty text is taken as one city whose name is
    empty.  [get_supported_cities] gives the same list. *)
Theorem cities_always_accepted (v : str) :
  (exists cities,
      validate_cities (CitiesText v) = Ok cities
      /\ cities = map strip (split_char 44 v)
      /\ List.length cities = S (count 44%N v)
      /\ get_supported_cities (CitiesText v) = cities)
  /\ validate_cities (CitiesText []) = Ok [[]].
Proof.
  split; [|reflexivity].
  exists (map strip (split_char 44 v)).
  assert (L : List.length (map strip (split_char 44 v)) = S (count 44%N v)).
  { rewrite length_map. apply split_char_length. }
  unfold validate_cities. cbv zeta. rewrite L.
  repeat split; reflexivity.
Qed.

(** X16.  A list of city names, none empty at its ends of whitespace and
    none with a comma, is recovered from its text: joining the names with
    commas and validating the text gives the names back, as
    [get_supported_cities] does.  The list must not be empty, since the
    empty text is read as one name. *)
Theorem cities_round_trip (names : list str) :
  names <> [] ->
  Forall (fun n => strip n = n /\ count 44%N n = 0%nat) names ->
  validate_cities (CitiesText (join (py ",") names)) = Ok names
  /\ get_supported_cities (CitiesText (join (py ",") names)) = names.
Proof.
  intros Hne H.
  assert (S1 : split_char 44 (join (py ",") names) = names).
  { apply (@split_join 44 names); [assumption|].
    eapply Forall_impl; [|exact H]. intros n [_ Hn]. exact Hn. }
  assert (S2 : map strip names = names).
  { clear S1 Hne. induction H as [|n names [Hn _] _ IH]; [reflexivity|].
    simpl. rewrite Hn, IH. reflexivity. }
  unfold validate_cities, get_supported_cities. cbv zeta.
  rewrite S1, S2. split; [|reflexivity].
  destruct names; [contradiction | reflexivity].
Qed.

Lemma cities_round_trip_witness :
  validate_cities (CitiesText default_cities)
  = Ok [py "Bangalore"; py "Mumbai"; py "Delhi NCR"; py "Hyderabad";
        py "Chennai"; py "Pune"; py "Ahmedabad"; py "Kolkata"].
Proof.
  apply (@cities_round_trip
           [py "Bangalore"; py "Mumbai"; py "Delhi NCR"; py "Hyderabad";
            py "Chennai"; py "Pune"; py "Ahmedabad"; py "Kolkata"]).
  - discriminate.
  - repeat constructor.
Defined.

End ConfigFacts.

(* ================================================================== *)
(** * The optimizer of ml_optimizer.py *)
(* ================================================================== *)

Module OptimizerFacts.

Import AIEngine Optimizer PredictorFacts.

Local Open Scope Q_scope.

(** *** Scores and confidence stay in their range *)

Lemma py_min_bounds (a b : Q) : py_min a b <= a /\ py_min a b <= b.
Proof.
  unfold py_min. destruct (b ?= a) eqn:E.
  - apply Qeq_alt in E. split; lra.
  - apply Qlt_alt in E. split; lra.
  - apply Qgt_alt in E. split; lra.
Qed.

Lemma py_min_one_of (a b : Q) : py_min a b = a \/ py_min a b = b.
Proof. unfold py_min. destruct (b ?= a); auto. Qed.

Lemma clamped (lo hi x : Q) :
  lo <= hi ->
  lo <= py_max lo (py_min hi x) /\ py_max lo (py_min hi x) <= hi.
Proof.
  intros H. destruct (py_min_bounds hi x) as [Hhi _].
  unfold py_max. destruct (lo ?= py_min hi x) eqn:E.
  - split; lra.
  - apply Qlt_alt in E. split; lra.
  - split; lra.
Qed.

(** The synthetic performance score lies between 1 and 10 whatever
    the features and the noise are, and the visual style, the target
    emotion and the campaign type have no part in it. *)
Lemma synthetic_score_in_range (noise : Q)
    (brand content_theme visual_style target_emotion campaign_type platform
       target_city age_group : str)
    (character_count : Z)
    (readability_score brand_consistency_score accessibility_score : Q) :
  1 <= _calculate_synthetic_performance noise brand content_theme
         visual_style target_emotion campaign_type platform target_city
         age_group character_count readability_score
         brand_consistency_score accessibility_score
  /\ _calculate_synthetic_performance noise brand content_theme
       visual_style target_emotion campaign_type platform target_city
       age_group character_count readability_score
       brand_consistency_score accessibility_score <= 10
  /\ forall visual_style' target_emotion' campaign_type',
       _calculate_synthetic_performance noise brand content_theme
         visual_style' target_emotion' campaign_type' platform target_city
         age_group character_count readability_score
         brand_consistency_score accessibility_score
       = _calculate_synthetic_performance noise brand content_theme
           visual_style target_emotion campaign_type platform target_city
           age_group character_count readability_score
           brand_consistency_score accessibility_score.
Proof.
  unfold _calculate_synthetic_performance. cbv zeta.
  split; [|split].
  - apply clamped. discriminate.
  - apply clamped. discriminate.
  - reflexivity.
Qed.

(** The confidence of a prediction lies between 0.5 and 0.95,
    whatever the variance of the trees is, and also when there are no
    trees or reading them raises (it is 0.75 then). *)
Lemma confidence_in_range (sklearn_available has_estimators : bool)
    (prediction_variance : result Q) :
  (1 # 2) <= _calculate_prediction_confidence sklearn_available
               has_estimators prediction_variance
  /\ _calculate_prediction_confidence sklearn_available has_estimators
       prediction_variance <= (95 # 100)
  /\ (raises prediction_variance ->
      _calculate_prediction_confidence sklearn_available has_estimators
        prediction_variance = (75 # 100)).
Proof.
  unfold _calculate_prediction_confidence.
  destruct (negb sklearn_available || negb has_estimators).
  - repeat split; discriminate || reflexivity.
  - destruct prediction_variance as [v|e].
    + split; [apply clamped; discriminate|].
      split; [apply clamped; discriminate|].
      intros [e He]. discriminate He.
    + repeat split; discriminate || reflexivity.
Qed.

(** *** The business metrics *)






(** *** The optimizations *)

Lemma insert_In (opt x : optimization) (l : list optimization) :
  In x (insert opt l) <-> x = opt \/ In x l.
Proof.
  induction l as [|o l IH]; simpl; [intuition|].
  destruct (Qle_bool (improvement o) (improvement opt)); simpl.
  - intuition.
  - rewrite IH. intuition.
Qed.

Lemma insert_sorted (opt : optimization) (l : list optimization) :
  StronglySorted descending l -> StronglySorted descending (insert opt l).
Proof.
  induction l as [|o l IH]; intros H; simpl.
  - constructor; constructor.
  - inversion H as [|? ? Hl Ho]; subst.
    destruct (Qle_bool (improvement o) (improvement opt)) eqn:E.
    + apply Qle_bool_iff in E. constructor; [assumption|].
      constructor; [exact E|].
      eapply Forall_impl; [|exact Ho]. unfold descending. intros x Hx. lra.
    + assert (Hlt : improvement opt < improvement o).
      { apply Qnot_le_lt. intros C. apply Qle_bool_iff in C. congruence. }
      constructor; [apply IH; assumption|].
      apply Forall_forall. intros x Hx. apply insert_In in Hx.
      destruct Hx as [->|Hx].
      * unfold descending. lra.
      * rewrite Forall_forall in Ho. apply Ho, Hx.
Qed.

Lemma sort_sorted (l : list optimization) :
  StronglySorted descending (sort_by_improvement l).
Proof.
  induction l as [|o l IH]; simpl; [constructor|].
  apply insert_sorted, IH.
Qed.

Lemma sort_In (x : optimization) (l : list optimization) :
  In x (sort_by_improvement l) <-> In x l.
Proof.
  induction l as [|o l IH]; simpl; [tauto|].
  rewrite insert_In, IH. intuition.
Qed.

Lemma filter_sorted (p : optimization -> bool) (l : list optimization) :
  StronglySorted descending l -> StronglySorted descending (filter p l).
Proof.
  induction 1 as [|o l Hl IH Ho]; simpl; [constructor|].
  destruct (p o); [|assumption].
  constructor; [assumption|].
  apply Forall_forall. intros x Hx. apply filter_In in Hx.
  rewrite Forall_forall in Ho. apply Ho, Hx.
Qed.

Lemma firstn_In {A} (n : nat) (l : list A) (x : A) :
  In x (firstn n l) -> In x l.
Proof.
  revert n. induction l as [|a l IH]; intros n.
  - rewrite firstn_nil. trivial.
  - destruct n; simpl; [contradiction|].
    intros [H|H]; [left; exact H | right; apply (IH n H)].
Qed.

Lemma firstn_sorted (n : nat) (l : list optimization) :
  StronglySorted descending l -> StronglySorted descending (firstn n l).
Proof.
  revert n. induction l as [|o l IH]; intros n H.
  - rewrite firstn_nil. constructor.
  - destruct n; simpl; [constructor|].
    inversion H as [|? ? Hl Ho]; subst.
    constructor; [apply IH; assumption|].
    apply Forall_forall. intros x Hx.
    rewrite Forall_forall in Ho. apply Ho.
    apply (firstn_In n l x Hx).
Qed.

Lemma max_of_head (first : Q) (rest : list Q) :
  Forall (fun x => x <= first) rest -> max_of first rest = first.
Proof.
  unfold max_of. induction 1 as [|x rest Hx _ IH]; simpl; [reflexivity|].
  assert (E : py_max first x = first).
  { unfold py_max. destruct (first ?= x) eqn:C; try reflexivity.
    apply Qlt_alt in C. lra. }
  rewrite E. exact IH.
Qed.

Lemma gt_spec (a b : Q) : gt a b = true <-> b < a.
Proof.
  unfold gt. destruct (a ?= b) eqn:C.
  - apply Qeq_alt in C. split; [discriminate | lra].
  - apply Qlt_alt in C. split; [discriminate | lra].
  - apply Qgt_alt in C. split; [intros _; exact C | reflexivity].
Qed.

Section Campaign.

Variable predict_performance : params -> option Q.

(** X18.  The optimizations suggested by a trained optimizer, whatever
    the predictor is.  At most five are returned; each is one of the eight
    candidates (four themes, four platforms) and improves on the base
    score by more than zero; they come in descending order of
    improvement; the maximal improvement reported is that of the first
    one, and 0 when there is none.  A candidate that improves on the base
    score is never better than the first suggestion.  An optimizer that
    is not trained returns the error entry. *)
Theorem suggested_optimizations (base_params : params) :
  optimize_campaign predict_performance false base_params
  = Failed (py "Model not trained")
  /\ exists top,
       optimize_campaign predict_performance true base_params
       = Optimized (score_of predict_performance base_params) top
           match top with
           | [] => 0
           | first :: _ => improvement first
           end
       /\ (List.length top <= 5)%nat
       /\ StronglySorted descending top
       /\ (forall opt,
             In opt top ->
             0 < improvement opt
             /\ In opt (candidates predict_performance base_params
                          (score_of predict_performance base_params)))
       /\ (forall opt,
             In opt (candidates predict_performance base_params
                       (score_of predict_performance base_params)) ->
             0 < improvement opt ->
             exists first rest,
               top = first :: rest
               /\ improvement opt <= improvement first).
Proof.
  split; [reflexivity|].
  unfold optimize_campaign. cbn [negb]. cbv zeta.
  set (base_score := score_of predict_performance base_params).
  set (all := candidates predict_performance base_params base_score).
  set (good := filter (fun opt => gt (improvement opt) 0)
                 (sort_by_improvement all)).
  assert (Sgood : StronglySorted descending good).
  { apply filter_sorted, sort_sorted. }
  assert (Stop : StronglySorted descending (firstn 5 good)).
  { apply firstn_sorted, Sgood. }
  exists (firstn 5 good).
  split; [|split; [|split; [|split]]].
  - f_equal. destruct (firstn 5 good) as [|first rest] eqn:E;
      [reflexivity|].
    cbn [map]. apply max_of_head.
    inversion Stop as [|? ? _ Hfirst]; subst.
    apply Forall_forall. intros x Hx. apply in_map_iff in Hx.
    destruct Hx as (o & <- & Ho).
    rewrite Forall_forall in Hfirst. apply (Hfirst o Ho).
  - apply firstn_le_length.
  - exact Stop.
  - intros opt Hin. apply firstn_In in Hin. apply filter_In in Hin.
    destruct Hin as [Hin Hgt]. apply gt_spec in Hgt.
    split; [exact Hgt|]. apply (proj1 (sort_In _ _) Hin).
  - intros opt Hin Hpos.
    assert (Hg : In opt good).
    { apply filter_In. split; [apply (proj2 (sort_In _ _) Hin)|].
      apply gt_spec. exact Hpos. }
    destruct good as [|first rest] eqn:E; [contradiction|].
    exists first, (firstn 4 rest). split; [reflexivity|].
    destruct Hg as [->|Hg]; [lra|].
    inversion Sgood as [|? ? _ Hfirst]; subst.
    rewrite Forall_forall in Hfirst. apply (Hfirst opt Hg).
Qed.

End Campaign.

Lemma suggested_optimizations_witness :
  exists top,
    optimize_campaign sample_predictor true [] = Optimized 6 top 2
    /\ map value top = [py "Instagram"; py "Job Security"]
    /\ StronglySorted descending top.
Proof.
  destruct (suggested_optimizations sample_predictor [])
    as [_ (top & E & _ & S & _)].
  exists top. split; [|split; [|exact S]].
  - rewrite E. vm_compute in E. injection E as <-. reflexivity.
  - vm_compute in E. injection E as <-. reflexivity.
Defined.

End OptimizerFacts.

(* ================================================================== *)
(** * The market context of market_intelligence.py *)
(* ================================================================== *)

Module MarketFacts.

Import Optimizer MarketIntelligence.

(** X19.  The campaign hooks.  There are never more than three.  For a
    city without data there is at most the hook on growth.  For a city
    with more than 1000 positions, with critical hirings and with a top
    skill, the three hooks are those of the city, and the hook on the
    growth potential of the course is left out even when the potential is
    high. *)
Theorem at_most_three_hooks (city_data : city_insights)
    (course_data : option course_relevance) :
  (List.length (_generate_campaign_hooks city_data course_data) <= 3)%nat
  /\ (has_error city_data = true ->
      _generate_campaign_hooks city_data course_data
      = match course_data with
        | Some course_data =>
            if str_eqb (growth_potential course_data) (py "High")
            then [py "High growth potential in this field"]
            else []
        | None => []
        end)
  /\ (forall city total_positions companies_hiring top_skill n top_skills
             hiring_urgency market_score,
        city_data = Insights city total_positions companies_hiring
                      ((top_skill, n) :: top_skills) hiring_urgency
                      market_score ->
        (1000 < total_positions)%Z ->
        (0 < critical_of city_data)%Z ->
        _generate_campaign_hooks city_data course_data
        = [ py "Over " +++ str_of_Z total_positions
            +++ py " job opportunities available";
            py "Companies hiring urgently";
            top_skill +++ py " professionals in high demand" ]).
Proof.
  split; [|split].
  - unfold _generate_campaign_hooks. cbv zeta. apply firstn_le_length.
  - intros H. unfold _generate_campaign_hooks. cbv zeta. rewrite H.
    cbn [negb]. destruct course_data as [c|]; [|reflexivity].
    destruct (str_eqb (growth_potential c) (py "High")); reflexivity.
  - intros city total_positions companies_hiring top_skill n top_skills
      hiring_urgency market_score -> Hpos Hcrit.
    unfold _generate_campaign_hooks. cbv zeta.
    cbn [has_error negb positions_of top_skills_of].
    apply Z.ltb_lt in Hpos. apply Z.ltb_lt in Hcrit.
    rewrite Hpos, Hcrit.
    destruct course_data as [c|]; [|reflexivity].
    destruct (str_eqb (growth_potential c) (py "High")); reflexivity.
Qed.

Lemma at_most_three_hooks_witness :
  _generate_campaign_hooks
    (Insights (py "Pune") 1200 40 [(py "Python", 12%Z)]
       [(py "Critical", 3%Z)] 10)
    (Some (get_course_relevance [(py "Python", 120%Z)] (py "AI/ML")))
  = [ py "Over 1200 job opportunities available";
      py "Companies hiring urgently";
      py "Python professionals in high demand" ].
Proof.
  destruct (at_most_three_hooks
              (Insights (py "Pune") 1200 40 [(py "Python", 12%Z)]
                 [(py "Critical", 3%Z)] 10)
              (Some (get_course_relevance [(py "Python", 120%Z)]
                       (py "AI/ML")))) as (_ & _ & H).
  rewrite (H _ _ _ _ _ _ _ _ eq_refl); reflexivity.
Defined.

Local Open Scope Q_scope.

(** *** The relevance of a course *)

Lemma demand_not_negative (skill_demand : dict Z) (skill : str) :
  Forall (fun kv => (0 <= snd kv)%Z) skill_demand ->
  (0 <= demand skill_demand skill)%Z.
Proof.
  intros H. unfold demand.
  induction H as [|[k v] d Hv _ IH]; cbn [lookup]; [lia|].
  destruct (str_eqb skill k); [exact Hv | exact IH].
Qed.

Lemma sum_from (l : list Z) (a : Z) :
  fold_left Z.add l a = (a + fold_left Z.add l 0)%Z.
Proof.
  revert a. induction l as [|x l IH]; intros a; cbn [fold_left]; [lia|].
  rewrite (IH (a + x)%Z), (IH (0 + x)%Z). lia.
Qed.

Lemma sum_not_negative (l : list Z) :
  Forall (fun x => (0 <= x)%Z) l -> (0 <= fold_left Z.add l 0)%Z.
Proof.
  induction 1 as [|x l Hx _ IH]; cbn [fold_left]; [lia|].
  rewrite sum_from. lia.
Qed.

Lemma scaled_lt (c total : Z) :
  inject_Z c < inject_Z total / 50 <-> (c * 50 < total)%Z.
Proof.
  unfold Qdiv. change (/ 50) with (1 # 50).
  rewrite (Zlt_Qlt (c * 50) total), inject_Z_mult.
  change (inject_Z 50) with 50. split; intros H; lra.
Qed.

Lemma scaled_le (c total : Z) :
  inject_Z total / 50 <= inject_Z c <-> (total <= c * 50)%Z.
Proof.
  unfold Qdiv. change (/ 50) with (1 # 50).
  rewrite (Zle_Qle total (c * 50)), inject_Z_mult.
  change (inject_Z 50) with 50. split; intros H; lra.
Qed.

Lemma py_min_cases (a b : Q) :
  (b < a /\ py_min a b = b) \/ (a <= b /\ py_min a b = a).
Proof.
  unfold py_min. destruct (b ?= a) eqn:E.
  - right. split; [|reflexivity]. apply Qeq_alt in E. lra.
  - left. split; [|reflexivity]. apply Qlt_alt in E. exact E.
  - right. split; [|reflexivity]. apply Qgt_alt in E. lra.
Qed.

(** X20.  The relevance of a course.  The relevant positions are the sum
    of the demands listed for the skills of the course.  When no demand
    is negative, the market score is not negative; it is never above 10.
    The growth potential follows the market score: it is "High" exactly
    when the score is above 2 and "Low" exactly when the score is at most
    1.  A course outside the four of the mapping has no skills, no
    positions, the market score 0 and a low potential. *)
Theorem course_relevance_consistent (skill_demand : dict Z) (course : str) :
  relevant_positions (get_course_relevance skill_demand course)
  = fold_left Z.add
      (map snd (demand_skills (get_course_relevance skill_demand course)))
      0%Z
  /\ (Forall (fun kv => (0 <= snd kv)%Z) skill_demand ->
      0 <= market_score (get_course_relevance skill_demand course))
  /\ market_score (get_course_relevance skill_demand course) <= 10
  /\ (growth_potential (get_course_relevance skill_demand course)
      = py "High"
      <-> 2 < market_score (get_course_relevance skill_demand course))
  /\ (growth_potential (get_course_relevance skill_demand course)
      = py "Low"
      <-> market_score (get_course_relevance skill_demand course) <= 1)
  /\ (lookup course course_mapping = None ->
      demand_skills (get_course_relevance skill_demand course) = []
      /\ relevant_positions (get_course_relevance skill_demand course) = 0%Z
      /\ market_score (get_course_relevance skill_demand course) == 0
      /\ growth_potential (get_course_relevance skill_demand course)
         = py "Low").
Proof.
  unfold get_course_relevance. cbv zeta.
  cbn [relevant_positions demand_skills market_score growth_potential].
  set (relevant_skills := match lookup course course_mapping with
                          | Some l => l
                          | None => []
                          end).
  set (total := fold_left Z.add (map (demand skill_demand) relevant_skills)
                  0%Z).
  split; [|split; [|split; [|split; [|split]]]].
  - rewrite map_map. cbn [snd]. reflexivity.
  - intros Hdemand.
    assert (Htotal : (0 <= total)%Z).
    { apply sum_not_negative. apply Forall_forall. intros x Hin.
      apply in_map_iff in Hin. destruct Hin as (skill & <- & _).
      apply demand_not_negative. exact Hdemand. }
    destruct (py_min_cases (inject_Z total / 50) 10) as [[_ ->]|[_ ->]];
      [lra|].
    unfold Qdiv. change (/ 50) with (1 # 50).
    rewrite Zle_Qle in Htotal. change (inject_Z 0) with 0 in Htotal. lra.
  - destruct (py_min_cases (inject_Z total / 50) 10) as [[_ ->]|[H ->]];
      [lra | exact H].
  - pose proof (scaled_lt 2 total) as H2. change (inject_Z 2) with 2 in H2.
    destruct (100 <? total)%Z eqn:E100.
    + apply Z.ltb_lt in E100. split; [intros _|reflexivity].
      destruct (py_min_cases (inject_Z total / 50) 10) as [[_ ->]|[_ ->]];
        [lra | apply H2; lia].
    + apply Z.ltb_ge in E100. split.
      * destruct (50 <? total)%Z; intros H; vm_compute in H; discriminate.
      * intros H. exfalso.
        destruct (py_min_cases (inject_Z total / 50) 10) as [[Hc Em]|[_ Em]];
          rewrite Em in H.
        -- assert (2 < inject_Z total / 50) by lra. apply H2 in H0. lia.
        -- apply H2 in H. lia.
  - pose proof (scaled_le 1 total) as H1. change (inject_Z 1) with 1 in H1.
    pose proof (scaled_lt 1 total) as H1'. change (inject_Z 1) with 1 in H1'.
    destruct (100 <? total)%Z eqn:E100.
    + apply Z.ltb_lt in E100. split; [intros H; vm_compute in H; discriminate|].
      intros H. exfalso.
      destruct (py_min_cases (inject_Z total / 50) 10) as [[_ Em]|[_ Em]];
        rewrite Em in H; [lra | apply H1 in H; lia].
    + destruct (50 <? total)%Z eqn:E50.
      * apply Z.ltb_lt in E50. split; [intros H; vm_compute in H; discriminate|].
        intros H. exfalso.
        destruct (py_min_cases (inject_Z total / 50) 10) as [[_ Em]|[_ Em]];
          rewrite Em in H; [lra | apply H1 in H; lia].
      * apply Z.ltb_ge in E50. split; [intros _|reflexivity].
        destruct (py_min_cases (inject_Z total / 50) 10) as [[Hc ->]|[_ ->]].
        -- exfalso. assert (1 < inject_Z total / 50) by lra.
           apply H1' in H. lia.
        -- apply H1. lia.
  - intros Hnone. subst total relevant_skills. rewrite Hnone.
    cbn [map fold_left]. repeat split; reflexivity.
Qed.

Lemma course_relevance_consistent_witness :
  growth_potential
    (get_course_relevance
       [(py "Python", 80%Z); (py "AI/ML", 45%Z); (py "Finance", 30%Z)]
       (py "AI/ML")) = py "High"
  /\ 2 < market_score
           (get_course_relevance
              [(py "Python", 80%Z); (py "AI/ML", 45%Z); (py "Finance", 30%Z)]
              (py "AI/ML")).
Proof.
  assert (H : Forall (fun kv : str * Z => (0 <= snd kv)%Z)
                [(py "Python", 80%Z); (py "AI/ML", 45%Z);
                 (py "Finance", 30%Z)]).
  { repeat constructor; cbn [snd]; lia. }
  destruct (course_relevance_consistent
              [(py "Python", 80%Z); (py "AI/ML", 45%Z); (py "Finance", 30%Z)]
              (py "AI/ML")) as (_ & Hlow & _ & [Hhigh _] & _).
  specialize (Hlow H).
  split; [reflexivity|]. apply Hhigh. reflexivity.
Defined.

End MarketFacts.

(* ================================================================== *)
(** * The health check of health.py *)
(* ================================================================== *)

Module HealthFacts.

Import Health.

Lemma service_checked (test : result unit) (has_model : bool) :
  exists c, check_ai_service test has_model = Ok c
            /\ (raises test -> service_status c = py "unhealthy").
Proof.
  unfold check_ai_service. destruct test as [u|e]; cbn [bind try_except].
  - eexists. split; [reflexivity|]. intros [e He]. discriminate He.
  - eexists. split; reflexivity.
Qed.

Lemma market_checked (test : result nat) :
  exists c, check_market_service test = Ok c
            /\ (raises test -> service_status c = py "unhealthy").
Proof.
  unfold check_market_service. destruct test as [u|e]; cbn [bind try_except].
  - eexists. split; [reflexivity|]. intros [e He]. discriminate He.
  - eexists. split; reflexivity.
Qed.

(** X21.  The overall status of the health check is "degraded" exactly
    when the configuration has an issue, that is when a key is missing or
    a directory is not found.  A failing AI service or market service is
    reported as "unhealthy" under its own entry and leaves the overall
    status "healthy": both checks handle their exceptions themselves, so
    the handlers of [health_check] that would degrade the status never
    run. *)
Theorem degraded_by_configuration_only (settings : settings)
    (generate_content : result unit) (has_model : bool)
    (get_market_overview : result nat) :
  (overall_status (health_check settings generate_content has_model
                     get_market_overview) = py "degraded"
   <-> issues (check_configuration settings) <> [])
  /\ (overall_status (health_check settings generate_content has_model
                        get_market_overview) = py "healthy"
      <-> configured (gemini_api_key settings) = true
          /\ configured (stability_api_key settings) = true
          /\ data_dir_exists settings = true
          /\ static_dir_exists settings = true)
  /\ (raises generate_content ->
      service_status (ai_engine (health_check settings generate_content
                                   has_model get_market_overview))
      = py "unhealthy")
  /\ (raises get_market_overview ->
      service_status (market_intelligence
                        (health_check settings generate_content has_model
                           get_market_overview))
      = py "unhealthy").
Proof.
  unfold health_check.
  destruct (service_checked generate_content has_model) as (a & Ea & Ha).
  destruct (market_checked get_market_overview) as (m & Em & Hm).
  rewrite Ea, Em. cbv zeta. cbn [overall_status ai_engine market_intelligence].
  split; [|split; [|split; assumption]].
  - unfold check_configuration. cbv zeta. cbn [status issues].
    destruct (configured (gemini_api_key settings)),
      (configured (stability_api_key settings)),
      (data_dir_exists settings), (static_dir_exists settings);
      cbn; split; intros H; try discriminate; try reflexivity;
      try (exfalso; apply H; reflexivity).
  - unfold check_configuration. cbv zeta. cbn [status issues].
    destruct (configured (gemini_api_key settings)),
      (configured (stability_api_key settings)),
      (data_dir_exists settings), (static_dir_exists settings);
      cbn; split; intros H; try discriminate; try reflexivity;
      try (repeat split; reflexivity);
      try (destruct H as (H1 & H2 & H3 & H4); discriminate).
Qed.

End HealthFacts.

(* ================================================================== *)
(** * The campaign handler of backend/app.py *)
(* ================================================================== *)

Module AppFacts.

Import AIEngine App Localization LocalizationFacts ParserFacts.

Section Handler.

Variable get_market_context : str -> str -> result AIEngine.market_context.
Variable model : option (prompt -> result str).
Variable now : str.
Variable is_word : char -> bool.

(** X22.  The campaign handler, end to end.  It answers with status 500
    exactly when the market context cannot be built or holds something
    else than a dict under [city_data]; otherwise it returns the content
    with the predictions and the market context it was built from.  When
    a localization other than "basic" is asked for and the city has a
    context, the subject and the social post of the response have at most
    60 and 280 characters, also when the content is the template fallback,
    which keeps no limit itself; the predictions are those of the
    generated content, and the regional version is the marker for "not
    available". *)
Theorem campaign_handler (request : campaign_request) :
  match get_market_context (city request) (course request) with
  | Raise e =>
      generate_campaign get_market_context model now is_word request
      = Http.HTTPException 500 e
  | Ok context =>
      match ctx_get context (py "city_data") (EDict []) with
      | EDict _ =>
          exists generated response,
            generate_campaign_content model now (course request)
              (city request) (campaign_type request) context = Ok generated
            /\ generate_campaign get_market_context model now is_word request
               = Http.Success response
            /\ market_context response = context
            /\ predictions response = Data.predictions generated
            /\ (localization request = py "basic" ->
                content response = generated)
            /\ (localization request <> py "basic" ->
                lookup (city request) city_contexts <> None ->
                (List.length (email_subject (content response)) <= 60)%nat
                /\ (List.length (social_post (content response)) <= 280)%nat
                /\ regional_version (content response) = Some not_available)
      | EList _ | EVal _ =>
          generate_campaign get_market_context model now is_word request
          = Http.HTTPException 500 AttributeError
      end
  end.
Proof.
  unfold generate_campaign.
  destruct (get_market_context (city request) (course request))
    as [context|e]; [|reflexivity].
  cbn [bind].
  destruct (ctx_get context (py "city_data") (EDict [])) as [d| |] eqn:Hd.
  - destruct (generation_returns_with_dict model now (course request)
                (city request) (campaign_type request) context Hd)
      as [generated Hg].
    rewrite Hg. cbn [bind Http.or_500]. cbv zeta.
    exists generated. eexists.
    split; [reflexivity|]. split; [reflexivity|].
    cbn [market_context predictions content].
    split; [reflexivity|]. split; [|split].
    + destruct (str_eqb (localization request) (py "basic")); cbn [negb];
        [reflexivity|].
      unfold localize_content.
      destruct (lookup (city request) city_contexts) as [[|kv ctx]|];
        reflexivity.
    + intros ->. reflexivity.
    + intros Hloc Hcity.
      apply str_eqb_neq in Hloc. rewrite Hloc. cbn [negb].
      destruct (lookup (city request) city_contexts) as [ctx|] eqn:Hc;
        [|contradiction].
      pose proof (context_not_empty _ Hc) as Hne.
      pose proof (regional_version_of_table_context generated _ Hc) as Hr.
      unfold localize_content. rewrite Hc.
      destruct ctx as [|kv ctx]; [discriminate Hne|].
      cbn [email_subject social_post regional_version].
      split; [apply slice_to_length|].
      split; [apply slice_to_length|].
      rewrite Hr. reflexivity.
  - rewrite generation_raises_without_dict; [reflexivity|].
    intros d. rewrite Hd. discriminate.
  - rewrite generation_raises_without_dict; [reflexivity|].
    intros d. rewrite Hd. discriminate.
Qed.

End Handler.

Lemma campaign_handler_witness :
  exists response,
    generate_campaign no_figures None (py "2024-05-01T09:00:00")
      Recommendations.ascii_word
      {| course := py "AI/ML";
         city := py "Pune";
         campaign_type := py "Social Media";
         trend_integration := true;
         localization := py "advanced" |}
    = Http.Success response
    /\ image_url response = Some (py "/static/images/default_campaign.png")
    /\ (List.length (email_subject (content response)) <= 60)%nat
    /\ (List.length (social_post (content response)) <= 280)%nat.
Proof.
  pose proof (campaign_handler no_figures None (py "2024-05-01T09:00:00")
                Recommendations.ascii_word
                {| course := py "AI/ML";
                   city := py "Pune";
                   campaign_type := py "Social Media";
                   trend_integration := true;
                   localization := py "advanced" |}) as H.
  hnf in H. destruct H as (generated & response & _ & E & _ & _ & _ & Hl).
  destruct Hl as (Hs & Hp & _); [discriminate | vm_compute; discriminate |].
  exists response. split; [exact E|]. split; [|split; assumption].
  vm_compute in E. injection E as <-. reflexivity.
Defined.

End AppFacts.
